(** * tickets-notification-service: the notification orchestrator, the queue
    processor and the record-store update, embedded from the Go sources

    - [model]   : internal/model (Notification, requests, constants)
    - [uuid]    : the generator used for notification ids (google/uuid, v4)
    - [queue]   : internal/queue/sqs.go (SQSClient and its message envelopes)
    - [service] : internal/service/notification.go (NotificationService)
    - [db]      : internal/db/dynamo.go (DynamoClient.UpdateNotification)
    - [dbstore], [templates] : internal/db/dynamo.go (saving, reading,
      listing and deleting notifications; notification templates)
    - [reservation] : the reservation and reminder notifications of the
      service, with their queue envelopes
    - [handler] : internal/handler (what the HTTP handlers decide)

    Go strings are [string]; a Go [error] is the text of its [Error()]; a
    [(T, error)] return is a pair whose second component is [None] for [nil].
    The external collaborators (clock, random source, SES, SQS, DynamoDB) are
    an environment of oracles; every call made to them is recorded, with its
    outcome, in the trace of the world; the PutItem, GetItem, DeleteItem
    and Scan calls of the record store are observed through the table
    only.  Output written with [log.Printf] is not part of the model. *)

From Stdlib Require Import ZArith String Ascii List Sorted.
From stdpp Require Import base option list gmap strings.

Local Set Warnings "-register-all".
Local Open Scope string_scope.
Local Open Scope Z_scope.
Local Open Scope list_scope.

(** A Go [error] value, by its message; [fmt.Errorf(p ++ ": %w", err)]
    prefixes the message of the wrapped error. *)
Definition error : Type := string.

Definition Errorf_w (prefix : string) (err : error) : error := prefix +:+ err.

(** A call either returns or panics. *)
Inductive Run (A : Type) :=
| Returns (a : A)
| Panics (msg : string).
Arguments Returns {A} a.
Arguments Panics {A} msg.

#[global] Instance Run_eq_dec {A} `{EqDecision A} : EqDecision (Run A).
Proof. solve_decision. Defined.

Definition nil_dereference : string :=
  "runtime error: invalid memory address or nil pointer dereference".

(** [*p] on a pointer: dereferencing nil panics. *)
Definition deref {A} (p : option A) : Run A :=
  match p with
  | Some v => Returns v
  | None => Panics nil_dereference
  end.

(* ------------------------------------------------------------------ *)
(** ** package time *)

Module time.

(** A [time.Time] carries a wall-clock reading and, when it comes from
    [time.Now], a reading of the monotonic clock. *)
Record Time := mkTime { wall : Z; mono : option Z }.

(** [t.Compare(u) <= 0], that is [!t.After(u)]: Go compares the monotonic
    readings when both values have one and the wall readings otherwise. *)
Definition le (t u : Time) : Prop :=
  match mono t, mono u with
  | Some a, Some b => a <= b
  | _, _ => wall t <= wall u
  end.

Definition leb (t u : Time) : bool :=
  match mono t, mono u with
  | Some a, Some b => a <=? b
  | _, _ => wall t <=? wall u
  end.

Definition RFC3339 : string := "2006-01-02T15:04:05Z07:00".

End time.

(* ------------------------------------------------------------------ *)
(** ** google/uuid *)

Module uuid.

(** [type UUID [16]byte] *)
Definition UUID : Type := list Z.

Definition Nil : UUID := replicate 16 0.

Definition byte_at (u : UUID) (i : nat) : Z := nth i u 0.

(** [NewRandom]: sixteen random bytes, then
    [uuid[6] = (uuid[6] & 0x0f) | 0x40] (version 4) and
    [uuid[8] = (uuid[8] & 0x3f) | 0x80] (variant 10). *)
Definition NewRandom (rnd : nat -> Z) : UUID :=
  let raw := map (fun i => rnd i mod 256) (seq 0 16) in
  let v := <[6%nat := Z.lor (Z.land (byte_at raw 6) 15) 64]> raw in
  <[8%nat := Z.lor (Z.land (byte_at v 8) 63) 128]> v.

Definition hexdigit (n : Z) : ascii :=
  nth (Z.to_nat n) (list_ascii_of_string "0123456789abcdef") "0"%char.

Definition hex_byte (b : Z) : string :=
  String (hexdigit (Z.shiftr b 4)) (String (hexdigit (Z.land b 15)) EmptyString).

Definition hex (bs : list Z) : string :=
  fold_right (fun b acc => hex_byte b +:+ acc) EmptyString bs.

(** [encodeHex]: xxxxxxxx-xxxx-xxxx-xxxx-xxxxxxxxxxxx *)
Definition String (u : UUID) : string :=
  hex (take 4 u) +:+ "-" +:+ hex (take 2 (drop 4 u)) +:+ "-" +:+
  hex (take 2 (drop 6 u)) +:+ "-" +:+ hex (take 2 (drop 8 u)) +:+ "-" +:+
  hex (take 6 (drop 10 u)).

End uuid.

(* ------------------------------------------------------------------ *)
(** ** internal/model *)

Module model.

Definition NotificationType : Type := string.
Definition NotificationStatus : Type := string.
Definition NotificationPriority : Type := string.

Definition NotificationStatusPending : NotificationStatus := "pending".
Definition NotificationStatusSending : NotificationStatus := "sending".
Definition NotificationStatusSent : NotificationStatus := "sent".
Definition NotificationStatusDelivered : NotificationStatus := "delivered".
Definition NotificationStatusFailed : NotificationStatus := "failed".
Definition NotificationStatusRead : NotificationStatus := "read".

Definition NotificationPriorityLow : NotificationPriority := "low".
Definition NotificationPriorityNormal : NotificationPriority := "normal".
Definition NotificationPriorityHigh : NotificationPriority := "high".
Definition NotificationPriorityUrgent : NotificationPriority := "urgent".

(** The values of the open [data] bag ([map[string]interface{}]), as JSON
    decoding produces them. *)
Inductive DataValue :=
| DNull
| DBool (b : bool)
| DNumber (n : Z)
| DString (s : string)
| DObject (fields : list (string * DataValue)).

Record Notification := mkNotification {
  ID : uuid.UUID;
  Type_ : NotificationType;
  Status : NotificationStatus;
  Priority : NotificationPriority;
  Recipient : string;
  Subject : string;
  Content : string;
  TemplateID : string;
  Data : option (gmap string DataValue);
  SentAt : option time.Time;
  ReadAt : option time.Time;
  CreatedAt : time.Time;
  UpdatedAt : time.Time
}.

Definition with_Priority (p : NotificationPriority) (n : Notification) :=
  mkNotification (ID n) (Type_ n) (Status n) p (Recipient n) (Subject n)
    (Content n) (TemplateID n) (Data n) (SentAt n) (ReadAt n)
    (CreatedAt n) (UpdatedAt n).

Definition with_Status (s : NotificationStatus) (n : Notification) :=
  mkNotification (ID n) (Type_ n) s (Priority n) (Recipient n) (Subject n)
    (Content n) (TemplateID n) (Data n) (SentAt n) (ReadAt n)
    (CreatedAt n) (UpdatedAt n).

Definition with_SentAt (t : option time.Time) (n : Notification) :=
  mkNotification (ID n) (Type_ n) (Status n) (Priority n) (Recipient n)
    (Subject n) (Content n) (TemplateID n) (Data n) t (ReadAt n)
    (CreatedAt n) (UpdatedAt n).

Record CreateNotificationRequest := mkCreateNotificationRequest {
  req_Type : NotificationType;
  req_Priority : NotificationPriority;
  req_Recipient : string;
  req_Subject : string;
  req_Content : string;
  req_TemplateID : string;
  req_Data : option (gmap string DataValue)
}.

Definition req_with_Priority (p : NotificationPriority)
    (r : CreateNotificationRequest) :=
  mkCreateNotificationRequest (req_Type r) p (req_Recipient r)
    (req_Subject r) (req_Content r) (req_TemplateID r) (req_Data r).

Definition req_with_TemplateID (t : string) (r : CreateNotificationRequest) :=
  mkCreateNotificationRequest (req_Type r) (req_Priority r) (req_Recipient r)
    (req_Subject r) (req_Content r) t (req_Data r).

Record EventNotification := mkEventNotification {
  ev_EventID : string;
  ev_EventName : string;
  ev_EventDate : time.Time;
  ev_Location : string;
  ev_Recipient : string;
  ev_Type : NotificationType;
  ev_Priority : NotificationPriority
}.

Record BulkNotificationRequest := mkBulkNotificationRequest {
  bulk_Notifications : list CreateNotificationRequest;
  bulk_TemplateID : string;
  bulk_Priority : NotificationPriority
}.

End model.

(* ------------------------------------------------------------------ *)
(** ** The AWS clients: requests, responses and the trace of calls *)

Module ses.

(** [ses.SendEmailInput], with the fields sendEmailNotification fills in. *)
Record SendEmailInput := mkSendEmailInput {
  Source : string;
  ToAddresses : list string;
  SubjectData : string;
  SubjectCharset : string;
  BodyTextData : string;
  BodyTextCharset : string
}.

End ses.

Module sqs.

Record MessageAttributeValue := mkMessageAttributeValue {
  DataType : string;
  StringValue : string
}.

Record SendMessageInput := mkSendMessageInput {
  send_QueueUrl : string;
  MessageBody : string;
  MessageAttributes : gmap string MessageAttributeValue
}.

Record ReceiveMessageInput := mkReceiveMessageInput {
  recv_QueueUrl : string;
  MaxNumberOfMessages : Z;
  WaitTimeSeconds : Z;
  MessageAttributeNames : list string
}.

Record DeleteMessageInput := mkDeleteMessageInput {
  del_QueueUrl : string;
  del_ReceiptHandle : string
}.

(** A received message.  The SDK types these fields [*string]: [None] is
    the nil pointer.  The code dereferences them without a check. *)
Record Message := mkMessage {
  MessageId : option string;
  ReceiptHandle : option string;
  Body : option string
}.

End sqs.

Module dynamodb.

(** [types.AttributeValue], with the members the client builds. *)
Inductive AttributeValue :=
| AttributeValueMemberS (Value : string)
| AttributeValueMemberBOOL (Value : bool).

Definition Item : Type := gmap string AttributeValue.

(** One [name = value] action of a SET update expression, both sides as
    the placeholders written in the expression. *)
Definition SetAction : Type := (string * string)%type.

(** [dynamodb.UpdateItemInput].  [UpdateExpression] is kept as the list of
    the actions of its SET clause; [UpdateExpression_text] is the string
    the client sends.  A nil Go map is [None]. *)
Record UpdateItemInput := mkUpdateItemInput {
  TableName : string;
  Key : gmap string AttributeValue;
  UpdateExpression : list SetAction;
  ExpressionAttributeNames : option (gmap string string);
  ExpressionAttributeValues : option (gmap string AttributeValue)
}.

Definition action_text (a : SetAction) : string := a.1 +:+ " = " +:+ a.2.

(** [strings.Join(elems, sep)] *)
Fixpoint Join (elems : list string) (sep : string) : string :=
  match elems with
  | [] => EmptyString
  | [e] => e
  | e :: rest => e +:+ sep +:+ Join rest sep
  end.

Definition UpdateExpression_text (input : UpdateItemInput) : string :=
  "SET " +:+ Join (map action_text (UpdateExpression input)) ", ".

End dynamodb.

(** One call to an external service, with what the service answered. *)
Inductive Event :=
| EvUpdateItem (input : dynamodb.UpdateItemInput) (err : option error)
| EvSendEmail (input : ses.SendEmailInput) (err : option error)
| EvSendMessage (input : sqs.SendMessageInput) (err : option error)
| EvReceiveMessage (input : sqs.ReceiveMessageInput)
    (res : list sqs.Message + error)
| EvDeleteMessage (input : sqs.DeleteMessageInput) (err : option error).

(** The environment.  The services answer a call knowing everything that
    was asked of them before (the trace). *)
Record Env := mkEnv {
  (** wall-clock reading of the n-th call of [time.Now] *)
  wall_clock : nat -> Z;
  (** time the monotonic clock advanced before the n-th call of [time.Now] *)
  elapsed : nat -> N;
  (** byte [i] drawn from the random source for the n-th [uuid.New] *)
  rand_byte : nat -> nat -> Z;
  (** [t.Format(layout)] *)
  Format : string -> time.Time -> string;
  (** the JSON encoding of a Go string, quotes included *)
  json_string : string -> string;
  ses_SendEmail : list Event -> ses.SendEmailInput -> option error;
  sqs_SendMessage : list Event -> sqs.SendMessageInput -> option error;
  (** the messages visible on the queue when it is polled, or the failure
      of the poll *)
  sqs_visible : list Event -> sqs.ReceiveMessageInput ->
                list sqs.Message + error;
  sqs_DeleteMessage : list Event -> sqs.DeleteMessageInput -> option error;
  (** a refusal of an UpdateItem request that is well formed: the table is
      unreachable, the service rejects the expression text, and so on *)
  dynamodb_refuses : list Event -> dynamodb.UpdateItemInput -> option error
}.

Record World := mkWorld {
  monotonic : Z;
  clock_reads : nat;
  uuids_drawn : nat;
  trace : list Event;
  (** the items of the [notifications] table, by their key [id] *)
  notifications : gmap string dynamodb.Item
}.

(** Computations that talk to the environment. *)
Definition M (A : Type) : Type := World -> A * World.

Definition ret {A} (a : A) : M A := fun w => (a, w).

Definition bind {A B} (c : M A) (k : A -> M B) : M B :=
  fun w => let (a, w') := c w in k a w'.

Notation "'let*' x ':=' c 'in' k" := (bind c (fun x => k))
  (at level 10, x name, c at level 100, k at level 200, only parsing).

Definition emit {A} (e : Event) (a : A) : M A :=
  fun w => (a, mkWorld (monotonic w) (clock_reads w) (uuids_drawn w)
                       (trace w ++ [e]) (notifications w)).

(** The events a computation added to the trace. *)
Definition events_since (w w' : World) : list Event :=
  drop (length (trace w)) (trace w').

Definition is_SendEmail (e : Event) : bool :=
  match e with EvSendEmail _ _ => true | _ => false end.

Definition is_SendMessage_to (url : string) (e : Event) : bool :=
  match e with
  | EvSendMessage i _ => bool_decide (sqs.send_QueueUrl i = url)
  | _ => false
  end.

Definition is_queue_operation (e : Event) : bool :=
  match e with
  | EvSendMessage _ _ | EvReceiveMessage _ _ | EvDeleteMessage _ _ => true
  | _ => false
  end.

(** The outcomes of the email sends of a trace, in order. *)
Definition email_outcomes (evs : list Event) : list (option error) :=
  omap (fun e => match e with EvSendEmail _ r => Some r | _ => None end) evs.

(** The receipt handles a trace asked to delete on queue [url], in order. *)
Definition deleted_handles (url : string) (evs : list Event) : list string :=
  omap (fun e => match e with
                 | EvDeleteMessage i _ =>
                     if bool_decide (sqs.del_QueueUrl i = url)
                     then Some (sqs.del_ReceiptHandle i) else None
                 | _ => None
                 end) evs.

Section Primitives.

Context (env : Env).

(** [time.Now()] *)
Definition time_Now : M time.Time :=
  fun w =>
    let m := monotonic w + Z.of_N (elapsed env (clock_reads w)) in
    (time.mkTime (wall_clock env (clock_reads w)) (Some m),
     mkWorld m (S (clock_reads w)) (uuids_drawn w) (trace w)
             (notifications w)).

(** [uuid.New()], with a random source that delivers its sixteen bytes
    (uuid.New panics when it does not). *)
Definition uuid_New : M uuid.UUID :=
  fun w =>
    (uuid.NewRandom (rand_byte env (uuids_drawn w)),
     mkWorld (monotonic w) (clock_reads w) (S (uuids_drawn w)) (trace w)
             (notifications w)).

(** [sesClient.SendEmail(ctx, input)] *)
Definition Client_SendEmail (input : ses.SendEmailInput) : M (option error) :=
  fun w => let r := ses_SendEmail env (trace w) input in
           emit (EvSendEmail input r) r w.

(** [Client.SendMessage(ctx, input)] *)
Definition Client_SendMessage (input : sqs.SendMessageInput) : M (option error) :=
  fun w => let r := sqs_SendMessage env (trace w) input in
           emit (EvSendMessage input r) r w.

(** [Client.ReceiveMessage(ctx, input)]: SQS hands out at most
    [MaxNumberOfMessages] of the visible messages. *)
Definition Client_ReceiveMessage (input : sqs.ReceiveMessageInput)
    : M (list sqs.Message + error) :=
  fun w =>
    let r := match sqs_visible env (trace w) input with
             | inl msgs =>
                 inl (take (Z.to_nat (sqs.MaxNumberOfMessages input)) msgs)
             | inr e => inr e
             end in
    emit (EvReceiveMessage input r) r w.

(** [Client.DeleteMessage(ctx, input)] *)
Definition Client_DeleteMessage (input : sqs.DeleteMessageInput)
    : M (option error) :=
  fun w => let r := sqs_DeleteMessage env (trace w) input in
           emit (EvDeleteMessage input r) r w.

(** DynamoDB's UpdateItem with a SET expression, as far as
    UpdateNotification depends on it.  The service is not part of the
    repository; this is its documented behaviour on the [notifications]
    table, whose key is the string attribute [id]. *)

(** The attribute and the value an action writes, once its two
    placeholders are looked up in the maps of the request. *)
Definition resolve_action (input : dynamodb.UpdateItemInput)
    (a : dynamodb.SetAction) : option (string * dynamodb.AttributeValue) :=
  match default ∅ (dynamodb.ExpressionAttributeNames input) !! a.1,
        default ∅ (dynamodb.ExpressionAttributeValues input) !! a.2 with
  | Some attr, Some v => Some (attr, v)
  | _, _ => None
  end.

Definition resolve_actions (input : dynamodb.UpdateItemInput)
    : option (list (string * dynamodb.AttributeValue)) :=
  mapM (resolve_action input) (dynamodb.UpdateExpression input).

Definition key_id (input : dynamodb.UpdateItemInput) : option string :=
  match dynamodb.Key input !! "id" with
  | Some (dynamodb.AttributeValueMemberS id) => Some id
  | _ => None
  end.

Definition ValidationException (msg : string) : error :=
  "ValidationException: " +:+ msg.

(** What the service checks on the request itself before it touches the
    table: the key names the item, every placeholder the expression uses
    is defined, no action writes the key attribute and no two actions
    write the same attribute.  A request that fails a check is answered
    with a ValidationException. *)
Definition validate_UpdateItem (input : dynamodb.UpdateItemInput)
    : string * list (string * dynamodb.AttributeValue) + error :=
  match key_id input with
  | None => inr (ValidationException
                   "The provided key element does not match the schema")
  | Some id =>
      match resolve_actions input with
      | None => inr (ValidationException
                       "An expression attribute used in expression is not defined")
      | Some writes =>
          if bool_decide ("id" ∈ writes.*1)
          then inr (ValidationException
                      "Cannot update attribute id. This attribute is part of the key")
          else if bool_decide (NoDup writes.*1)
          then inl (id, writes)
          else inr (ValidationException
                      "Two document paths overlap with each other")
      end
  end.

(** The item after the SET actions: created with its key when absent
    (UpdateItem is an upsert), then each attribute written. *)
Definition apply_writes (id : string)
    (writes : list (string * dynamodb.AttributeValue))
    (old : option dynamodb.Item) : dynamodb.Item :=
  foldl (fun item kv => <[kv.1 := kv.2]> item)
        (default {[ "id" := dynamodb.AttributeValueMemberS id ]} old)
        writes.

(** [Client.UpdateItem(ctx, input)] on the [notifications] table: a
    rejected or refused request leaves the table as it was. *)
Definition Client_UpdateItem (input : dynamodb.UpdateItemInput)
    : M (option error) :=
  fun w =>
    match validate_UpdateItem input with
    | inr e => emit (EvUpdateItem input (Some e)) (Some e) w
    | inl (id, writes) =>
        match dynamodb_refuses env (trace w) input with
        | Some e => emit (EvUpdateItem input (Some e)) (Some e) w
        | None =>
            (None,
             mkWorld (monotonic w) (clock_reads w) (uuids_drawn w)
               (trace w ++ [EvUpdateItem input None])
               (<[id := apply_writes id writes (notifications w !! id)]>
                  (notifications w)))
        end
    end.

End Primitives.

(* ------------------------------------------------------------------ *)
(** ** internal/queue/sqs.go *)

Module queue.

Record EventNotificationMessage := mkEventNotificationMessage {
  EventID : string;
  EventName : string;
  EventDate : string;
  Location : string;
  Recipient : string;
  Type_ : string;
  Priority : string;
  TemplateID : string
}.

Record SQSClient := mkSQSClient { QueueURL : string }.

Definition dquote : string := String (ascii_of_nat 34) EmptyString.

Section WithEnv.

Context (env : Env).

Definition json_field (name value : string) : string :=
  dquote +:+ name +:+ dquote +:+ ":" +:+ json_string env value.

(** [json.Marshal(msg)] on the flat envelope: the fields in declaration
    order under their [json] tags.  Marshalling a struct of strings
    cannot fail. *)
Definition Marshal_EventNotificationMessage
    (msg : EventNotificationMessage) : string :=
  "{" +:+ json_field "event_id" (EventID msg) +:+ "," +:+
  json_field "event_name" (EventName msg) +:+ "," +:+
  json_field "event_date" (EventDate msg) +:+ "," +:+
  json_field "location" (Location msg) +:+ "," +:+
  json_field "recipient" (Recipient msg) +:+ "," +:+
  json_field "type" (Type_ msg) +:+ "," +:+
  json_field "priority" (Priority msg) +:+ "," +:+
  json_field "template_id" (TemplateID msg) +:+ "}".

Definition string_attribute (v : string) : sqs.MessageAttributeValue :=
  sqs.mkMessageAttributeValue "String" v.

Definition SendEventNotification (s : SQSClient)
    (msg : EventNotificationMessage) : M (option error) :=
  let body := Marshal_EventNotificationMessage msg in
  let* err := Client_SendMessage env
    (sqs.mkSendMessageInput (QueueURL s) body
       (<["Type" := string_attribute "event_notification"]>
        (<["EventID" := string_attribute (EventID msg)]>
         (<["Priority" := string_attribute (Priority msg)]> ∅)))) in
  match err with
  | Some e => ret (Some (Errorf_w "error sending event notification: " e))
  | None => ret None
  end.

Definition ReceiveMessages (s : SQSClient) (maxMessages : Z)
    : M (list sqs.Message + error) :=
  let* resp := Client_ReceiveMessage env
    (sqs.mkReceiveMessageInput (QueueURL s) maxMessages 10 ["All"]) in
  match resp with
  | inr e => ret (inr (Errorf_w "error receiving SQS messages: " e))
  | inl msgs => ret (inl msgs)
  end.

Definition DeleteMessage (s : SQSClient) (receiptHandle : string)
    : M (option error) :=
  let* err := Client_DeleteMessage env
    (sqs.mkDeleteMessageInput (QueueURL s) receiptHandle) in
  match err with
  | Some e => ret (Some (Errorf_w "error deleting SQS message: " e))
  | None => ret None
  end.

End WithEnv.

End queue.

(* ------------------------------------------------------------------ *)
(** ** internal/service/notification.go *)

Module service.

Import model.

Record NotificationService := mkNotificationService {
  eventQueue : queue.SQSClient;
  reservationQueue : queue.SQSClient;
  reminderQueue : queue.SQSClient
}.

(** The check the HTTP handler makes before it calls SendNotification:
    [req.Recipient == "" || req.Subject == "" || req.Content == ""]
    rejects the request. *)
Definition valid_request (req : CreateNotificationRequest) : bool :=
  negb (bool_decide (req_Recipient req = EmptyString)
        || bool_decide (req_Subject req = EmptyString)
        || bool_decide (req_Content req = EmptyString)).

Section WithEnv.

Context (env : Env) (s : NotificationService).

Definition sendEmailNotification (notification : Notification)
    : M (option error) :=
  let emailInput :=
    ses.mkSendEmailInput "notifications@ticket-system.com"
      [Recipient notification]
      (Subject notification) "UTF-8"
      (Content notification) "UTF-8" in
  let* err := Client_SendEmail env emailInput in
  match err with
  | Some e => ret (Some (Errorf_w "error sending email via SES: " e))
  | None => ret None
  end.

Definition SendNotification (req : CreateNotificationRequest)
    : M (Notification * option error) :=
  let* id := uuid_New env in
  let* createdAt := time_Now env in
  let* updatedAt := time_Now env in
  let notification :=
    mkNotification id (req_Type req) NotificationStatusPending
      (req_Priority req) (req_Recipient req) (req_Subject req)
      (req_Content req) (req_TemplateID req) (req_Data req)
      None None createdAt updatedAt in
  let notification :=
    if decide (Priority notification = EmptyString)
    then with_Priority NotificationPriorityNormal notification
    else notification in
  let* err := sendEmailNotification notification in
  match err with
  | Some _ =>
      ret (with_Status NotificationStatusFailed notification, None)
  | None =>
      let* now := time_Now env in
      ret (with_SentAt (Some now)
             (with_Status NotificationStatusSent notification), None)
  end.

(** The body of the loop of SendBulkNotifications, over the rest of
    [req.Notifications], with the two slices it appends to. *)
Fixpoint SendBulkNotifications_loop (req : BulkNotificationRequest)
    (items : list CreateNotificationRequest)
    (notifications : list Notification) (errors : list error)
    : M (list Notification * list error) :=
  match items with
  | [] => ret (notifications, errors)
  | notificationReq :: rest =>
      let notificationReq :=
        if decide (bulk_Priority req = EmptyString) then notificationReq
        else req_with_Priority (bulk_Priority req) notificationReq in
      let notificationReq :=
        if decide (bulk_TemplateID req = EmptyString) then notificationReq
        else req_with_TemplateID (bulk_TemplateID req) notificationReq in
      let* r := SendNotification notificationReq in
      match snd r with
      | Some err =>
          SendBulkNotifications_loop req rest notifications
            (errors ++ [Errorf_w ("error sending notification to " +:+
                                  req_Recipient notificationReq +:+ ": ")
                                 err])
      | None =>
          SendBulkNotifications_loop req rest
            (notifications ++ [fst r]) errors
      end
  end.

Definition SendBulkNotifications (req : BulkNotificationRequest)
    : M (list Notification * option error) :=
  let* r := SendBulkNotifications_loop req (bulk_Notifications req) [] [] in
  ret (fst r, None).

Definition event_message (req : EventNotification) (templateID : string)
    : queue.EventNotificationMessage :=
  queue.mkEventNotificationMessage (ev_EventID req) (ev_EventName req)
    (Format env time.RFC3339 (ev_EventDate req)) (ev_Location req)
    (ev_Recipient req) (ev_Type req) (ev_Priority req) templateID.

Definition NotifyEventCreated (req : EventNotification)
    : M (option error) :=
  let msg := event_message req "event_created_template" in
  let* err := queue.SendEventNotification env (eventQueue s) msg in
  match err with
  | Some e =>
      ret (Some (Errorf_w "error sending event notification to queue: " e))
  | None =>
      if bool_decide (ev_Priority req = NotificationPriorityHigh)
         || bool_decide (ev_Priority req = NotificationPriorityUrgent)
      then
        let* id := uuid_New env in
        let* createdAt := time_Now env in
        let* updatedAt := time_Now env in
        let notification :=
          mkNotification id (ev_Type req) NotificationStatusPending
            (ev_Priority req) (ev_Recipient req)
            ("Nuevo Evento: " +:+ ev_EventName req)
            ("Se ha creado un nuevo evento: " +:+ ev_EventName req +:+
             " en " +:+ ev_Location req +:+ " el " +:+
             Format env "02/01/2006 15:04" (ev_EventDate req))
            EmptyString None None None createdAt updatedAt in
        let* _ := sendEmailNotification notification in
        ret None
      else ret None
  end.

Definition NotifyEventCancelled (req : EventNotification)
    : M (option error) :=
  let msg := event_message req "event_cancelled_template" in
  let* err := queue.SendEventNotification env (eventQueue s) msg in
  match err with
  | Some e =>
      ret (Some (Errorf_w "error sending event cancellation to queue: " e))
  | None =>
      let* id := uuid_New env in
      let* createdAt := time_Now env in
      let* updatedAt := time_Now env in
      let notification :=
        mkNotification id (ev_Type req) NotificationStatusPending
          (ev_Priority req) (ev_Recipient req)
          ("Evento Cancelado: " +:+ ev_EventName req)
          ("El evento '" +:+ ev_EventName req +:+
           "' programado para el " +:+
           Format env "02/01/2006 15:04" (ev_EventDate req) +:+
           " en " +:+ ev_Location req +:+ " ha sido cancelado.")
          EmptyString None None None createdAt updatedAt in
      let* _ := sendEmailNotification notification in
      ret None
  end.

(** [processMessage]: it only logs, and returns nil.  The first log line
    dereferences [message.MessageId], the one of a known queue type
    [message.Body]. *)
Definition processMessage (message : sqs.Message) (queueType : string)
    : Run (option error) :=
  match deref (sqs.MessageId message) with
  | Panics msg => Panics msg
  | Returns _ =>
      if decide (queueType = "events") then
        match deref (sqs.Body message) with
        | Panics msg => Panics msg
        | Returns _ => Returns None
        end
      else if decide (queueType = "reservations") then
        match deref (sqs.Body message) with
        | Panics msg => Panics msg
        | Returns _ => Returns None
        end
      else if decide (queueType = "reminders") then
        match deref (sqs.Body message) with
        | Panics msg => Panics msg
        | Returns _ => Returns None
        end
      else Returns None
  end.

(** The [switch queueType] that picks the client. *)
Definition select_client (queueType : string) : option queue.SQSClient :=
  if decide (queueType = "events") then Some (eventQueue s)
  else if decide (queueType = "reservations") then Some (reservationQueue s)
  else if decide (queueType = "reminders") then Some (reminderQueue s)
  else None.

Section Processor.

(** The handler the loop calls on each message; the service's own is
    [processMessage]. *)
Context (handler : sqs.Message -> string -> Run (option error)).

(** The loop over the received messages.  A panic ends the call where it
    happens: in the handler, in the log line of a failed handler or of a
    failed delete ([*message.MessageId]), or in the argument of the
    delete ([*message.ReceiptHandle]). *)
Fixpoint process_messages (client : queue.SQSClient)
    (queueType : string) (messages : list sqs.Message) : M (Run unit) :=
  match messages with
  | [] => ret (Returns tt)
  | message :: rest =>
      match handler message queueType with
      | Panics msg => ret (Panics msg)
      | Returns (Some _) =>
          match deref (sqs.MessageId message) with
          | Panics msg => ret (Panics msg)
          | Returns _ => process_messages client queueType rest
          end
      | Returns None =>
          match deref (sqs.ReceiptHandle message) with
          | Panics msg => ret (Panics msg)
          | Returns receiptHandle =>
              let* err := queue.DeleteMessage env client receiptHandle in
              match err with
              | Some _ =>
                  match deref (sqs.MessageId message) with
                  | Panics msg => ret (Panics msg)
                  | Returns _ => process_messages client queueType rest
                  end
              | None => process_messages client queueType rest
              end
          end
      end
  end.

Definition ProcessNotificationQueue_with (queueType : string)
    : M (Run (option error)) :=
  match select_client queueType with
  | None => ret (Returns (Some ("invalid queue type: " +:+ queueType)))
  | Some client =>
      let* r := queue.ReceiveMessages env client 10 in
      match r with
      | inr e => ret (Returns (Some (Errorf_w "error receiving messages: " e)))
      | inl messages =>
          let* r := process_messages client queueType messages in
          match r with
          | Panics msg => ret (Panics msg)
          | Returns _ => ret (Returns None)
          end
      end
  end.

End Processor.

Definition ProcessNotificationQueue (queueType : string)
    : M (Run (option error)) :=
  ProcessNotificationQueue_with processMessage queueType.

End WithEnv.

End service.

(* ------------------------------------------------------------------ *)
(** ** internal/db/dynamo.go *)

Module db.

Import dynamodb.

(** The dynamic types the type switch of UpdateNotification tells apart;
    for any other type, [printed] is what [fmt.Sprintf("%v", v)] gives. *)
Inductive Value :=
| VString (v : string)
| VTime (v : time.Time)
| VTimePtr (v : option time.Time)
| VOther (printed : string).

Definition nil_map_panic : string := "assignment to entry in nil map".

(** [m[k] = v] on a Go map: a write to a nil map panics. *)
Definition map_assign {V} (m : option (gmap string V)) (k : string) (v : V)
    : Run (option (gmap string V)) :=
  match m with
  | None => Panics nil_map_panic
  | Some m => Returns (Some (<[k := v]> m))
  end.

(** [append(s, x)] on a slice that may be nil. *)
Definition append {A} (s : option (list A)) (x : A) : option (list A) :=
  Some (default [] s ++ [x]).

(** The three locals the loop of UpdateNotification builds. *)
Record Locals := mkLocals {
  updateExpressions : option (list SetAction);
  expressionAttributeNames : option (gmap string string);
  expressionAttributeValues : option (gmap string AttributeValue)
}.

Section WithEnv.

Context (env : Env).

(** The attribute value the type switch stores under the value
    placeholder; nothing for a nil [*time.Time]. *)
Definition attribute_of (value : Value) : option AttributeValue :=
  match value with
  | VString v => Some (AttributeValueMemberS v)
  | VTime v => Some (AttributeValueMemberS (Format env time.RFC3339 v))
  | VTimePtr (Some v) =>
      Some (AttributeValueMemberS (Format env time.RFC3339 v))
  | VTimePtr None => None
  | VOther printed => Some (AttributeValueMemberS printed)
  end.

(** One iteration of [for key, value := range updates]. *)
Definition UpdateNotification_step (st : Locals) (key : string)
    (value : Value) : Run Locals :=
  let st :=
    match updateExpressions st with
    | None => mkLocals (Some []) (Some ∅) (Some ∅)
    | Some _ => st
    end in
  let attrName := "#" +:+ key in
  let attrValue := ":" +:+ key in
  let exprs := append (updateExpressions st) (attrName, attrValue) in
  match map_assign (expressionAttributeNames st) attrName key with
  | Panics msg => Panics msg
  | Returns names =>
      match attribute_of value with
      | None => Returns (mkLocals exprs names (expressionAttributeValues st))
      | Some av =>
          match map_assign (expressionAttributeValues st) attrValue av with
          | Panics msg => Panics msg
          | Returns values => Returns (mkLocals exprs names values)
          end
      end
  end.

(** The loop, over the entries of [updates] in the order [range] yields
    them. *)
Fixpoint UpdateNotification_loop (entries : list (string * Value))
    (st : Locals) : Run Locals :=
  match entries with
  | [] => Returns st
  | (key, value) :: rest =>
      match UpdateNotification_step st key value with
      | Panics msg => Panics msg
      | Returns st' => UpdateNotification_loop rest st'
      end
  end.

(** UpdateNotification, given the entries of [updates] in the order
    [range] yields them (Go leaves that order unspecified). *)
Definition UpdateNotification (notificationID : string)
    (entries : list (string * Value)) : M (Run (option error)) :=
  match UpdateNotification_loop entries (mkLocals None None None) with
  | Panics msg => ret (Panics msg)
  | Returns st =>
      let exprs :=
        append (updateExpressions st) ("#updated_at", ":updated_at") in
      match map_assign (expressionAttributeNames st)
              "#updated_at" "updated_at" with
      | Panics msg => ret (Panics msg)
      | Returns names =>
          let* now := time_Now env in
          match map_assign (expressionAttributeValues st) ":updated_at"
                  (AttributeValueMemberS (Format env time.RFC3339 now)) with
          | Panics msg => ret (Panics msg)
          | Returns values =>
              let* err := Client_UpdateItem env
                (mkUpdateItemInput "notifications"
                   {[ "id" := AttributeValueMemberS notificationID ]}
                   (default [] exprs) names values) in
              ret (Returns err)
          end
      end
  end.

(** The timestamp the call stores: the clock is read once, in the
    world the call starts in. *)
Definition update_timestamp (w : World) : AttributeValue :=
  AttributeValueMemberS (Format env time.RFC3339 (time_Now env w).1).

End WithEnv.

End db.

(* ------------------------------------------------------------------ *)
(** ** What is observed of a send *)

Module SendSpec.

Import model service.

(** The email SendNotification submits for a request. *)
Definition email_of (req : CreateNotificationRequest) : ses.SendEmailInput :=
  ses.mkSendEmailInput "notifications@ticket-system.com"
    [req_Recipient req] (req_Subject req) "UTF-8" (req_Content req) "UTF-8".

(** What the status and [sent_at] of a notification say about the
    outcome of its send. *)
Definition records_outcome (n : Notification) (r : option error) : Prop :=
  match r with
  | Some _ => Status n = NotificationStatusFailed /\ SentAt n = None
  | None => Status n = NotificationStatusSent /\ is_Some (SentAt n)
  end.

(** Everything one call of SendNotification does. *)
Record SendNotification_post (env : Env) (req : CreateNotificationRequest)
    (w : World) (n : Notification) (err : option error) (w' : World)
    : Prop := {
  post_err : err = None;
  post_trace :
    trace w' = trace w ++
      [EvSendEmail (email_of req) (ses_SendEmail env (trace w) (email_of req))];
  post_outcome :
    records_outcome n (ses_SendEmail env (trace w) (email_of req));
  post_id : uuid.String (ID n) <> EmptyString /\ ID n <> uuid.Nil;
  post_times : time.le (CreatedAt n) (UpdatedAt n);
  post_recipient : Recipient n = req_Recipient req;
  post_priority :
    Priority n = if decide (req_Priority req = EmptyString)
                 then NotificationPriorityNormal else req_Priority req;
  post_template : TemplateID n = req_TemplateID req
}.

(** The item SendBulkNotifications hands to SendNotification: the
    batch-level priority and template replace the item's own when they
    are not empty. *)
Definition overridden (req : BulkNotificationRequest)
    (item : CreateNotificationRequest) : CreateNotificationRequest :=
  let item :=
    if decide (bulk_Priority req = EmptyString) then item
    else req_with_Priority (bulk_Priority req) item in
  if decide (bulk_TemplateID req = EmptyString) then item
  else req_with_TemplateID (bulk_TemplateID req) item.

(** How a returned notification relates to the batch item it was made
    from. *)
Definition made_from (req : BulkNotificationRequest) (n : Notification)
    (item : CreateNotificationRequest) : Prop :=
  Recipient n = req_Recipient item /\
  Priority n =
    (if decide (req_Priority (overridden req item) = EmptyString)
     then NotificationPriorityNormal
     else req_Priority (overridden req item)) /\
  TemplateID n = req_TemplateID (overridden req item).

Definition is_send_of (e : Event) (item : CreateNotificationRequest)
    : Prop :=
  exists r, e = EvSendEmail (email_of item) r.

End SendSpec.

(* ------------------------------------------------------------------ *)
(** ** What is observed of the event notifications and of the queue
    processor *)

Module QueueSpec.

Import model service.

(** The outcomes of the sends made to queue [url], in order. *)
Definition enqueue_outcomes (url : string) (evs : list Event)
    : list (option error) :=
  omap (fun e => match e with
                 | EvSendMessage i r =>
                     if bool_decide (sqs.send_QueueUrl i = url)
                     then Some r else None
                 | _ => None
                 end) evs.

(** The SendMessage request SendEventNotification builds for an event. *)
Definition event_enqueue (env : Env) (s : NotificationService)
    (req : EventNotification) (templateID : string) : sqs.SendMessageInput :=
  sqs.mkSendMessageInput (queue.QueueURL (eventQueue s))
    (queue.Marshal_EventNotificationMessage env
       (event_message env req templateID))
    (<["Type" := queue.string_attribute "event_notification"]>
     (<["EventID" := queue.string_attribute (ev_EventID req)]>
      (<["Priority" := queue.string_attribute (ev_Priority req)]> ∅))).

(** The priorities for which NotifyEventCreated also sends an email. *)
Definition immediate (p : NotificationPriority) : bool :=
  bool_decide (p = NotificationPriorityHigh)
  || bool_decide (p = NotificationPriorityUrgent).

(** The routing of one event notification, as observed on the trace:
    exactly one queue operation, a send to the events queue; when the
    queue refuses it the call returns the wrapped error and no email is
    sent; when the queue accepts it the call returns nil, whatever SES
    answers, after [emails] email sends. *)
Definition routes (env : Env) (s : NotificationService)
    (request : sqs.SendMessageInput) (prefix : string) (emails : nat)
    (w : World) (r : option error * World) : Prop :=
  let evs := events_since w r.2 in
  enqueue_outcomes (queue.QueueURL (eventQueue s)) evs
    = [sqs_SendMessage env (trace w) request] /\
  length (filter (fun e => is_queue_operation e = true) evs) = 1%nat /\
  match sqs_SendMessage env (trace w) request with
  | Some e =>
      r.1 = Some (Errorf_w prefix (Errorf_w "error sending event notification: " e)) /\
      email_outcomes evs = []
  | None => r.1 = None /\ length (email_outcomes evs) = emails
  end.

(** C5 as the specification words it, for one call. *)
Definition EventCreated_as_claimed (env : Env) (s : NotificationService)
    (req : EventNotification) (w : World) : Prop :=
  let evs := events_since w (NotifyEventCreated env s req w).2 in
  length (enqueue_outcomes (queue.QueueURL (eventQueue s)) evs) = 1%nat /\
  (length (email_outcomes evs) = 1%nat <->
   ev_Priority req = NotificationPriorityHigh \/
   ev_Priority req = NotificationPriorityUrgent).

(** C6 as the specification words it, for one call. *)
Definition EventCancelled_as_claimed (env : Env) (s : NotificationService)
    (req : EventNotification) (w : World) : Prop :=
  let evs := events_since w (NotifyEventCancelled env s req w).2 in
  length (enqueue_outcomes (queue.QueueURL (eventQueue s)) evs) = 1%nat /\
  length (email_outcomes evs) = 1%nat.

Definition valid_queue_type (queueType : string) : Prop :=
  queueType = "events" \/ queueType = "reservations" \/
  queueType = "reminders".

(** The poll ProcessNotificationQueue makes on a client's queue, and what
    SQS answers it in world [w]. *)
Definition poll_of (client : queue.SQSClient) : sqs.ReceiveMessageInput :=
  sqs.mkReceiveMessageInput (queue.QueueURL client) 10 10 ["All"].

Definition received (env : Env) (client : queue.SQSClient) (w : World)
    : list sqs.Message + error :=
  match sqs_visible env (trace w) (poll_of client) with
  | inl msgs => inl (take 10 msgs)
  | inr e => inr e
  end.

(** [e] is a DeleteMessage call on the client's queue for message [m]. *)
Definition is_delete_of (client : queue.SQSClient) (e : Event)
    (m : sqs.Message) : Prop :=
  exists receiptHandle err,
    sqs.ReceiptHandle m = Some receiptHandle /\
    e = EvDeleteMessage
          (sqs.mkDeleteMessageInput (queue.QueueURL client) receiptHandle)
          err.

(** The messages on which the loop dereferences no nil pointer: they
    carry their MessageId and their ReceiptHandle, and the handler
    returns on them. *)
Definition sound_batch (handler : sqs.Message -> string -> Run (option error))
    (queueType : string) (msgs : list sqs.Message) : Prop :=
  Forall (fun m => is_Some (sqs.MessageId m) /\
                   is_Some (sqs.ReceiptHandle m) /\
                   exists r, handler m queueType = Returns r) msgs.




(** A message that carries the three fields the service reads. *)
Definition complete (m : sqs.Message) : Prop :=
  is_Some (sqs.MessageId m) /\ is_Some (sqs.ReceiptHandle m) /\
  is_Some (sqs.Body m).



End QueueSpec.

(* ------------------------------------------------------------------ *)
(** ** What is observed of UpdateNotification *)

Module DbSpec.

Import dynamodb db.

Definition name_placeholder (key : string) : string := "#" +:+ key.
Definition value_placeholder (key : string) : string := ":" +:+ key.

(** The SET action the loop appends for a key. *)
Definition action_of (key : string) : SetAction :=
  (name_placeholder key, value_placeholder key).

(** The two maps the loop has filled once it has visited [entries]. *)
Definition names_after (entries : list (string * Value))
    (names : gmap string string) : gmap string string :=
  foldl (fun m kv => <[name_placeholder kv.1 := kv.1]> m) names entries.

Definition put_value (env : Env) (values : gmap string AttributeValue)
    (kv : string * Value) : gmap string AttributeValue :=
  match attribute_of env kv.2 with
  | Some av => <[value_placeholder kv.1 := av]> values
  | None => values
  end.

Definition values_after (env : Env) (entries : list (string * Value))
    (values : gmap string AttributeValue) : gmap string AttributeValue :=
  foldl (put_value env) values entries.

(** The UpdateItem request UpdateNotification sends for a non-empty
    [updates]. *)
Definition request_of (env : Env) (notificationID : string)
    (entries : list (string * Value)) (w : World) : UpdateItemInput :=
  mkUpdateItemInput "notifications"
    {[ "id" := AttributeValueMemberS notificationID ]}
    (map (fun kv => action_of kv.1) entries ++ [action_of "updated_at"])
    (Some (<[name_placeholder "updated_at" := "updated_at"]>
             (names_after entries ∅)))
    (Some (<[value_placeholder "updated_at" := update_timestamp env w]>
             (values_after env entries ∅))).

(** The second half of C10 as the specification words it: after the call
    the stored item has its [updated_at] rewritten to the time of the call
    and holds every caller-supplied field. *)
Definition stored_as_claimed (env : Env) (notificationID : string)
    (updates : gmap string Value) (w w' : World) : Prop :=
  exists item,
    notifications w' !! notificationID = Some item /\
    item !! "updated_at" = Some (update_timestamp env w) /\
    forall key value, updates !! key = Some value ->
      exists av, attribute_of env value = Some av /\ item !! key = Some av.

(** What UpdateNotification does with a non-empty [updates]: it returns
    (no panic) after one UpdateItem call, and nothing else; the request
    rewrites [updated_at] with the time of the call after one action per
    caller-supplied key; and when the store accepts the request the item
    is stored as claimed. *)
Definition updates_item (env : Env) (notificationID : string)
    (updates : gmap string Value) (entries : list (string * Value))
    (w : World) : Prop :=
  let r := UpdateNotification env notificationID entries w in
  let request := request_of env notificationID entries w in
  exists err,
    r.1 = Returns err /\
    events_since w r.2 = [EvUpdateItem request err] /\
    last (UpdateExpression request) = Some (action_of "updated_at") /\
    default ∅ (ExpressionAttributeNames request)
      !! name_placeholder "updated_at" = Some "updated_at" /\
    default ∅ (ExpressionAttributeValues request)
      !! value_placeholder "updated_at" = Some (update_timestamp env w) /\
    (forall key value, updates !! key = Some value ->
       action_of key ∈ UpdateExpression request /\
       default ∅ (ExpressionAttributeNames request)
         !! name_placeholder key = Some key) /\
    (err = None -> stored_as_claimed env notificationID updates w r.2).

End DbSpec.

(* ------------------------------------------------------------------ *)
(** ** Concrete environments and inputs *)

Module Examples.

Import model service.

(** Plain stand-ins for the two text functions of the libraries. *)
Definition show_time (layout : string) (t : time.Time) : string :=
  if decide (layout = time.RFC3339) then "2026-01-01T00:00:00Z"
  else "01/01/2026 00:00".

Definition quote (v : string) : string :=
  queue.dquote +:+ v +:+ queue.dquote.

(** Every service answers; the wall clock steps back between readings
    while the monotonic clock advances. *)
Definition env_ok : Env :=
  mkEnv (fun n => 1000 - Z.of_nat n) (fun _ => 5%N)
    (fun n i => Z.of_nat (n + i) * 37) show_time quote
    (fun _ _ => None) (fun _ _ => None)
    (fun _ _ => inl [sqs.mkMessage (Some "m1") (Some "h1") (Some "b1");
                     sqs.mkMessage (Some "m2") (Some "h2") (Some "b2");
                     sqs.mkMessage (Some "m3") (Some "h3") (Some "b3")])
    (fun _ _ => None) (fun _ _ => None).

(** SES refuses every second email (the calls made when the trace has odd
    length). *)
Definition env_flaky_ses : Env :=
  mkEnv (wall_clock env_ok) (elapsed env_ok) (rand_byte env_ok)
    show_time quote
    (fun tr _ => if Nat.even (length tr) then None else Some "Throttling")
    (fun _ _ => None) (sqs_visible env_ok) (fun _ _ => None)
    (fun _ _ => None).

(** The queue refuses every send. *)
Definition env_queue_down : Env :=
  mkEnv (wall_clock env_ok) (elapsed env_ok) (rand_byte env_ok)
    show_time quote (fun _ _ => None)
    (fun _ _ => Some "QueueDoesNotExist") (sqs_visible env_ok)
    (fun _ _ => None) (fun _ _ => None).

Definition svc : NotificationService :=
  mkNotificationService (queue.mkSQSClient "http://sqs/events")
    (queue.mkSQSClient "http://sqs/reservations")
    (queue.mkSQSClient "http://sqs/reminders").

Definition item_old : dynamodb.Item :=
  <["id" := dynamodb.AttributeValueMemberS "n1"]>
    (<["updated_at" := dynamodb.AttributeValueMemberS "2020-01-01T00:00:00Z"]> ∅).

Definition w0 : World := mkWorld 0 0 0 [] (<["n1" := item_old]> ∅).

Definition welcome : CreateNotificationRequest :=
  mkCreateNotificationRequest "welcome" "low" "ana@example.org" "Hola"
    "Bienvenida" "tpl-item" None.

Definition batch : BulkNotificationRequest :=
  mkBulkNotificationRequest [welcome; welcome; welcome; welcome]
    "tpl-batch" "urgent".

Definition concert (priority : NotificationPriority) : EventNotification :=
  mkEventNotification "e1" "Concierto" (time.mkTime 1700000000 None)
    "Teatro" "ana@example.org" "event_created" priority.

(** An update whose only field is a nil [*time.Time]. *)
Definition nil_sent_at : gmap string db.Value :=
  {[ "sent_at" := db.VTimePtr None ]}.

(** The update the HTTP handler builds for a status change. *)
Definition mark_read : gmap string db.Value :=
  {[ "status" := db.VString "read" ]}.

(** A handler that fails on the message with id m2. *)
Definition fails_on_m2 (m : sqs.Message) (queueType : string)
    : Run (option error) :=
  if decide (sqs.MessageId m = Some "m2") then Returns (Some "cannot decode")
  else Returns None.

(** A message whose MessageId is nil, and one that carries all fields. *)
Definition no_id : sqs.Message := sqs.mkMessage None (Some "h1") (Some "b1").

Definition with_id : sqs.Message :=
  sqs.mkMessage (Some "m2") (Some "h2") (Some "b2").

(** The queue hands out [no_id], then [with_id]. *)
Definition env_nil_id : Env :=
  mkEnv (wall_clock env_ok) (elapsed env_ok) (rand_byte env_ok)
    show_time quote (fun _ _ => None) (fun _ _ => None)
    (fun _ _ => inl [no_id; with_id]) (fun _ _ => None) (fun _ _ => None).

End Examples.

(* ------------------------------------------------------------------ *)
(** ** Reservations and reminders: internal/model, internal/queue/sqs.go
    and internal/service/notification.go *)

Module reservation.

Import model.

(** [model.ReservationNotification] *)
Record ReservationNotification := mkReservationNotification {
  rv_ReservationID : string;
  rv_EventID : string;
  rv_EventName : string;
  rv_EventDate : time.Time;
  rv_Location : string;
  rv_Recipient : string;
  rv_Type : NotificationType;
  rv_Priority : NotificationPriority
}.

(** [queue.ReservationNotificationMessage] *)
Record ReservationNotificationMessage := mkReservationNotificationMessage {
  ReservationID : string;
  EventID : string;
  EventName : string;
  EventDate : string;
  Location : string;
  Recipient : string;
  Type_ : string;
  Priority : string;
  TemplateID : string
}.

(** [queue.ReminderMessage] *)
Record ReminderMessage := mkReminderMessage {
  rm_EventID : string;
  rm_EventName : string;
  rm_EventDate : string;
  rm_Location : string;
  rm_Recipient : string;
  rm_ReminderType : string;
  rm_TemplateID : string
}.

Section WithEnv.

Context (env : Env) (s : service.NotificationService).

Definition Marshal_ReservationNotificationMessage
    (msg : ReservationNotificationMessage) : string :=
  "{" +:+ queue.json_field env "reservation_id" (ReservationID msg) +:+ "," +:+
  queue.json_field env "event_id" (EventID msg) +:+ "," +:+
  queue.json_field env "event_name" (EventName msg) +:+ "," +:+
  queue.json_field env "event_date" (EventDate msg) +:+ "," +:+
  queue.json_field env "location" (Location msg) +:+ "," +:+
  queue.json_field env "recipient" (Recipient msg) +:+ "," +:+
  queue.json_field env "type" (Type_ msg) +:+ "," +:+
  queue.json_field env "priority" (Priority msg) +:+ "," +:+
  queue.json_field env "template_id" (TemplateID msg) +:+ "}".

Definition Marshal_ReminderMessage (msg : ReminderMessage) : string :=
  "{" +:+ queue.json_field env "event_id" (rm_EventID msg) +:+ "," +:+
  queue.json_field env "event_name" (rm_EventName msg) +:+ "," +:+
  queue.json_field env "event_date" (rm_EventDate msg) +:+ "," +:+
  queue.json_field env "location" (rm_Location msg) +:+ "," +:+
  queue.json_field env "recipient" (rm_Recipient msg) +:+ "," +:+
  queue.json_field env "reminder_type" (rm_ReminderType msg) +:+ "," +:+
  queue.json_field env "template_id" (rm_TemplateID msg) +:+ "}".

(** [SQSClient.SendReservationNotification] *)
Definition SendReservationNotification (c : queue.SQSClient)
    (msg : ReservationNotificationMessage) : M (option error) :=
  let body := Marshal_ReservationNotificationMessage msg in
  let* err := Client_SendMessage env
    (sqs.mkSendMessageInput (queue.QueueURL c) body
       (<["Type" := queue.string_attribute "reservation_notification"]>
        (<["ReservationID" := queue.string_attribute (ReservationID msg)]>
         (<["Priority" := queue.string_attribute (Priority msg)]> ∅)))) in
  match err with
  | Some e =>
      ret (Some (Errorf_w "error sending reservation notification: " e))
  | None => ret None
  end.

(** [SQSClient.SendReminderMessage] *)
Definition SendReminderMessage (c : queue.SQSClient) (msg : ReminderMessage)
    : M (option error) :=
  let body := Marshal_ReminderMessage msg in
  let* err := Client_SendMessage env
    (sqs.mkSendMessageInput (queue.QueueURL c) body
       (<["Type" := queue.string_attribute "reminder"]>
        (<["EventID" := queue.string_attribute (rm_EventID msg)]>
         (<["ReminderType" := queue.string_attribute (rm_ReminderType msg)]>
            ∅)))) in
  match err with
  | Some e => ret (Some (Errorf_w "error sending reminder message: " e))
  | None => ret None
  end.

(** [NotificationService.SendEventReminder] *)
Definition SendEventReminder (req : EventNotification) : M (option error) :=
  let msg :=
    mkReminderMessage (ev_EventID req) (ev_EventName req)
      (Format env time.RFC3339 (ev_EventDate req)) (ev_Location req)
      (ev_Recipient req) "event_reminder" "event_reminder_template" in
  let* err := SendReminderMessage (service.reminderQueue s) msg in
  match err with
  | Some e => ret (Some (Errorf_w "error sending reminder to queue: " e))
  | None => ret None
  end.

Definition reservation_message (req : ReservationNotification)
    (templateID : string) : ReservationNotificationMessage :=
  mkReservationNotificationMessage (rv_ReservationID req) (rv_EventID req)
    (rv_EventName req) (Format env time.RFC3339 (rv_EventDate req))
    (rv_Location req) (rv_Recipient req) (rv_Type req) (rv_Priority req)
    templateID.

(** [NotificationService.NotifyReservationCreated] *)
Definition NotifyReservationCreated (req : ReservationNotification)
    : M (option error) :=
  let msg := reservation_message req "reservation_created_template" in
  let* err := SendReservationNotification (service.reservationQueue s) msg in
  match err with
  | Some e =>
      ret (Some (Errorf_w
                   "error sending reservation notification to queue: " e))
  | None =>
      let* id := uuid_New env in
      let* createdAt := time_Now env in
      let* updatedAt := time_Now env in
      let notification :=
        mkNotification id (rv_Type req) NotificationStatusPending
          (rv_Priority req) (rv_Recipient req)
          ("Reserva Confirmada: " +:+ rv_EventName req)
          ("Tu reserva para el evento '" +:+ rv_EventName req +:+
           "' el " +:+ Format env "02/01/2006 15:04" (rv_EventDate req) +:+
           " en " +:+ rv_Location req +:+
           " ha sido confirmada. ID de reserva: " +:+ rv_ReservationID req)
          EmptyString None None None createdAt updatedAt in
      let* _ := service.sendEmailNotification env notification in
      ret None
  end.

(** [NotificationService.NotifyReservationConfirmed] *)
Definition NotifyReservationConfirmed (req : ReservationNotification)
    : M (option error) :=
  let msg := reservation_message req "reservation_confirmed_template" in
  let* err := SendReservationNotification (service.reservationQueue s) msg in
  match err with
  | Some e =>
      ret (Some (Errorf_w
                   "error sending reservation confirmation to queue: " e))
  | None => ret None
  end.

(** [NotificationService.NotifyReservationCancelled] *)
Definition NotifyReservationCancelled (req : ReservationNotification)
    : M (option error) :=
  let msg := reservation_message req "reservation_cancelled_template" in
  let* err := SendReservationNotification (service.reservationQueue s) msg in
  match err with
  | Some e =>
      ret (Some (Errorf_w
                   "error sending reservation cancellation to queue: " e))
  | None =>
      let* id := uuid_New env in
      let* createdAt := time_Now env in
      let* updatedAt := time_Now env in
      let notification :=
        mkNotification id (rv_Type req) NotificationStatusPending
          (rv_Priority req) (rv_Recipient req)
          ("Reserva Cancelada: " +:+ rv_EventName req)
          ("Tu reserva para el evento '" +:+ rv_EventName req +:+
           "' el " +:+ Format env "02/01/2006 15:04" (rv_EventDate req) +:+
           " en " +:+ rv_Location req +:+
           " ha sido cancelada. ID de reserva: " +:+ rv_ReservationID req)
          EmptyString None None None createdAt updatedAt in
      let* _ := service.sendEmailNotification env notification in
      ret None
  end.

(** The SendMessage requests the two senders build. *)
Definition reservation_enqueue (req : ReservationNotification)
    (templateID : string) : sqs.SendMessageInput :=
  sqs.mkSendMessageInput (queue.QueueURL (service.reservationQueue s))
    (Marshal_ReservationNotificationMessage
       (reservation_message req templateID))
    (<["Type" := queue.string_attribute "reservation_notification"]>
     (<["ReservationID" := queue.string_attribute (rv_ReservationID req)]>
      (<["Priority" := queue.string_attribute (rv_Priority req)]> ∅))).

Definition reminder_enqueue (req : EventNotification) : sqs.SendMessageInput :=
  sqs.mkSendMessageInput (queue.QueueURL (service.reminderQueue s))
    (Marshal_ReminderMessage
       (mkReminderMessage (ev_EventID req) (ev_EventName req)
          (Format env time.RFC3339 (ev_EventDate req)) (ev_Location req)
          (ev_Recipient req) "event_reminder" "event_reminder_template"))
    (<["Type" := queue.string_attribute "reminder"]>
     (<["EventID" := queue.string_attribute (ev_EventID req)]>
      (<["ReminderType" := queue.string_attribute "event_reminder"]> ∅))).

End WithEnv.

(** The plain-text email sendEmailNotification submits: one recipient,
    the fixed sender. *)
Definition email (recipient subject content : string) : ses.SendEmailInput :=
  ses.mkSendEmailInput "notifications@ticket-system.com" [recipient]
    subject "UTF-8" content "UTF-8".

End reservation.

(* ------------------------------------------------------------------ *)
(** ** Sending in sequence *)

Module Sequence.

Import model service.

(** SendNotification on each request in turn, collecting the
    notifications. *)
Fixpoint send_each (env : Env) (items : list CreateNotificationRequest)
    : M (list Notification) :=
  match items with
  | [] => ret []
  | item :: rest =>
      let* r := SendNotification env item in
      let* ns := send_each env rest in
      ret (r.1 :: ns)
  end.

(** The monotonic reading of a time taken with [time.Now]. *)
Definition reading (t : time.Time) : Z := default 0 (time.mono t).

End Sequence.

(* ------------------------------------------------------------------ *)
(** ** Updates the store accepts *)

Module UpdateSpec.

Import dynamodb db DbSpec.

(** The entries for which the request UpdateNotification builds is well
    formed: distinct keys, none of them [id] or [updated_at], and no nil
    [*time.Time] among the values. *)
Definition well_formed (env : Env) (entries : list (string * Value)) : bool :=
  bool_decide (NoDup entries.*1)
  && bool_decide ("id" ∉ entries.*1)
  && bool_decide ("updated_at" ∉ entries.*1)
  && forallb (fun kv => bool_decide (is_Some (attribute_of env kv.2))) entries.

(** The attributes the caller's entries write. *)
Definition field_writes (env : Env) (entries : list (string * Value))
    : list (string * AttributeValue) :=
  omap (fun kv => (fun av => (kv.1, av)) <$> attribute_of env kv.2) entries.

(** The item an accepted update leaves under the key: the caller's fields
    over what was stored (or over the bare key when nothing was), and the
    time of the call under [updated_at]. *)
Definition updated_item (env : Env) (notificationID : string)
    (entries : list (string * Value)) (w : World) (old : option Item) : Item :=
  <["updated_at" := update_timestamp env w]>
    (list_to_map (field_writes env entries)
     ∪ default {[ "id" := AttributeValueMemberS notificationID ]} old).

End UpdateSpec.

(* ------------------------------------------------------------------ *)
(** ** More concrete inputs *)

Module MoreExamples.

Import model service reservation.

(** The entries of a status change, as the HTTP handler builds them. *)
Definition status_read : list (string * db.Value) :=
  [("status", db.VString "read")].

End MoreExamples.

(* ------------------------------------------------------------------ *)
(** ** package strings and package strconv, as far as the code uses them *)

Module gostrings.

(** [strings.Contains(s, substr)] *)
Fixpoint Contains (s substr : string) : bool :=
  match s with
  | EmptyString => String.prefix substr EmptyString
  | String _ rest => String.prefix substr s || Contains rest substr
  end.

(** The pieces of [s] between the leftmost non-overlapping occurrences
    of a non-empty [sep]; [skip] counts the bytes of an occurrence still
    to pass over. *)
Fixpoint split_from (sep : string) (skip : nat) (s : string) : list string :=
  match s with
  | EmptyString => [EmptyString]
  | String c rest =>
      match skip with
      | S k => split_from sep k rest
      | O =>
          if String.prefix sep s
          then EmptyString :: split_from sep (String.length sep - 1) rest
          else match split_from sep 0 rest with
               | piece :: pieces => String c piece :: pieces
               | [] => [String c EmptyString]
               end
      end
  end.

Fixpoint explode (s : string) : list string :=
  match s with
  | EmptyString => []
  | String c rest => String c EmptyString :: explode rest
  end.

(** [strings.Split(s, sep)].  With an empty separator Go splits after
    each UTF-8 sequence; a string is a sequence of bytes here, so that
    case splits after each byte. *)
Definition Split (s sep : string) : list string :=
  if decide (sep = EmptyString) then explode s else split_from sep 0 s.

End gostrings.

Module strconv.

Definition digit (c : ascii) : option Z :=
  let n := Z.of_nat (nat_of_ascii c) in
  if (48 <=? n) && (n <=? 57) then Some (n - 48) else None.

(** The value of a string of decimal digits read after [acc]; nothing
    when a byte is not a digit. *)
Fixpoint digits (s : string) (acc : Z) : option Z :=
  match s with
  | EmptyString => Some acc
  | String c rest =>
      match digit c with
      | Some d => digits rest (acc * 10 + d)
      | None => None
      end
  end.

(** [strconv.Atoi(s)] on a 64-bit platform: an optional sign and at
    least one decimal digit, the value within the range of [int]; [None]
    stands for a syntax or range error. *)
Definition Atoi (s : string) : option Z :=
  let unsigned (t : string) :=
    match t with
    | EmptyString => None
    | _ => digits t 0
    end in
  let value :=
    match s with
    | String "-" rest => Z.opp <$> unsigned rest
    | String "+" rest => unsigned rest
    | _ => unsigned s
    end in
  match value with
  | Some n =>
      if (- 9223372036854775808 <=? n) && (n <=? 9223372036854775807)
      then Some n else None
  | None => None
  end.

End strconv.

(* ------------------------------------------------------------------ *)
(** ** internal/db/dynamo.go: saving, reading and deleting *)

Module dbstore.

Import model dynamodb.

(** Library functions the record-store code calls. *)
Record Lib := mkLib {
  (** [uuid.Parse(s)] *)
  uuid_Parse : string -> uuid.UUID + error;
  (** [time.Parse(layout, value)] *)
  time_Parse : string -> string -> time.Time + error;
  (** [fmt.Sprintf("%v", data)] on the data bag *)
  Sprint_data : gmap string DataValue -> string;
  (** [fmt.Errorf(format)] with no operand: the text of the error *)
  Errorf_plain : string -> error;
  (** the zero [time.Time] *)
  zero_Time : time.Time
}.

(** [dynamodb.ScanInput], with the fields GetNotifications fills in. *)
Record ScanInput := mkScanInput {
  scan_TableName : string;
  Limit : Z;
  FilterExpression : option string;
  scan_ExpressionAttributeNames : option (gmap string string);
  scan_ExpressionAttributeValues : option (gmap string AttributeValue)
}.

(** What DynamoDB answers on the [notifications] table: the refusal of a
    call (unreachable, missing table, rejected request), and what a scan
    returns. *)
Record Store := mkStore {
  PutItem_refuses : World -> Item -> option error;
  GetItem_refuses : World -> string -> option error;
  DeleteItem_refuses : World -> string -> option error;
  Scan_answers : World -> ScanInput -> list Item + error
}.

(** The conversion [int32(n)] of an [int]. *)
Definition int32 (n : Z) : Z := (n + 2147483648) mod 4294967296 - 2147483648.

Section WithEnv.

Context (env : Env) (lib : Lib) (store : Store).

Definition set_notifications (table : gmap string Item) (w : World) : World :=
  mkWorld (monotonic w) (clock_reads w) (uuids_drawn w) (trace w) table.

(** [Client.PutItem] on the [notifications] table: the item replaces
    whatever was stored under its [id]. *)
Definition Client_PutItem (item : Item) : M (option error) :=
  fun w =>
    match PutItem_refuses store w item with
    | Some e => (Some e, w)
    | None =>
        match item !! "id" with
        | Some (AttributeValueMemberS id) =>
            (None, set_notifications (<[id := item]> (notifications w)) w)
        | _ => (Some (ValidationException
                        "One of the required keys was not given a value"), w)
        end
    end.

(** [Client.GetItem] on the [notifications] table: the item, or nil. *)
Definition Client_GetItem (id : string) : M (option Item + error) :=
  fun w =>
    match GetItem_refuses store w id with
    | Some e => (inr e, w)
    | None => (inl (notifications w !! id), w)
    end.

(** [Client.DeleteItem] on the [notifications] table. *)
Definition Client_DeleteItem (id : string) : M (option error) :=
  fun w =>
    match DeleteItem_refuses store w id with
    | Some e => (Some e, w)
    | None => (None, set_notifications (delete id (notifications w)) w)
    end.

(** The item SaveNotification writes. *)
Definition notification_item (notification : Notification) : Item :=
  let S := AttributeValueMemberS in
  let item : Item :=
    <["id" := S (uuid.String (ID notification))]>
    (<["type" := S (model.Type_ notification)]>
    (<["status" := S (Status notification)]>
    (<["priority" := S (Priority notification)]>
    (<["recipient" := S (Recipient notification)]>
    (<["subject" := S (Subject notification)]>
    (<["content" := S (Content notification)]>
    (<["template_id" := S (TemplateID notification)]>
    (<["created_at" :=
         S (Format env time.RFC3339 (CreatedAt notification))]>
    (<["updated_at" :=
         S (Format env time.RFC3339 (UpdatedAt notification))]> ∅))))))))) in
  let item :=
    match SentAt notification with
    | Some t => <["sent_at" := S (Format env time.RFC3339 t)]> item
    | None => item
    end in
  let item :=
    match ReadAt notification with
    | Some t => <["read_at" := S (Format env time.RFC3339 t)]> item
    | None => item
    end in
  match Data notification with
  | Some data =>
      if decide (data = ∅) then item
      else <["data" := S (Sprint_data lib data)]> item
  | None => item
  end.

(** The message SaveNotification picks for a failed PutItem. *)
Definition save_error_message (err : error) : string :=
  if gostrings.Contains err "ResourceNotFoundException"
  then "La tabla 'notifications' no existe en DynamoDB. Verifique que LocalStack esté ejecutándose y la tabla haya sido creada."
  else if gostrings.Contains err "RequestCanceled"
  then "Error de conexión con DynamoDB. Verifique que LocalStack esté ejecutándose en http://localhost:4566."
  else if gostrings.Contains err "ConditionalCheckFailedException"
  then "La notificación ya existe en la base de datos."
  else "Error guardando notificación en DynamoDB: " +:+ err.

(** [DynamoClient.SaveNotification] *)
Definition SaveNotification (notification : Notification) : M (option error) :=
  let* err := Client_PutItem (notification_item notification) in
  match err with
  | Some e => ret (Some (Errorf_plain lib (save_error_message e)))
  | None => ret None
  end.

(** The string stored under [key], when there is one: the type
    assertion of [item[key]] to [AttributeValueMemberS]. *)
Definition string_at (item : Item) (key : string) : option string :=
  match item !! key with
  | Some (AttributeValueMemberS v) => Some v
  | _ => None
  end.

Definition zero_Notification : Notification :=
  mkNotification uuid.Nil EmptyString EmptyString EmptyString EmptyString
    EmptyString EmptyString EmptyString None None None
    (zero_Time lib) (zero_Time lib).

(** A timestamp that is dropped when it does not parse. *)
Definition optional_time (item : Item) (key : string) : option time.Time :=
  match string_at item key with
  | Some v =>
      match time_Parse lib time.RFC3339 v with
      | inl t => Some t
      | inr _ => None
      end
  | None => None
  end.

(** [DynamoClient.unmarshalNotification] *)
Definition unmarshalNotification (item : Item) : Notification + error :=
  match
    match string_at item "id" with
    | Some v =>
        match uuid_Parse lib v with
        | inl id => inl id
        | inr err => inr ("invalid notification ID: " +:+ err)
        end
    | None => inl uuid.Nil
    end
  with
  | inr err => inr err
  | inl id =>
      match
        match string_at item "created_at" with
        | Some v =>
            match time_Parse lib time.RFC3339 v with
            | inl t => inl t
            | inr err => inr ("invalid created_at time: " +:+ err)
            end
        | None => inl (zero_Time lib)
        end
      with
      | inr err => inr err
      | inl createdAt =>
          match
            match string_at item "updated_at" with
            | Some v =>
                match time_Parse lib time.RFC3339 v with
                | inl t => inl t
                | inr err => inr ("invalid updated_at time: " +:+ err)
                end
            | None => inl (zero_Time lib)
            end
          with
          | inr err => inr err
          | inl updatedAt =>
              inl (mkNotification id
                     (default EmptyString (string_at item "type"))
                     (default EmptyString (string_at item "status"))
                     (default EmptyString (string_at item "priority"))
                     (default EmptyString (string_at item "recipient"))
                     (default EmptyString (string_at item "subject"))
                     (default EmptyString (string_at item "content"))
                     (default EmptyString (string_at item "template_id"))
                     None
                     (optional_time item "sent_at")
                     (optional_time item "read_at")
                     createdAt updatedAt)
          end
      end
  end.

(** [DynamoClient.GetNotificationByID] *)
Definition GetNotificationByID (notificationID : string)
    : M (Notification + error) :=
  let* result := Client_GetItem notificationID in
  match result with
  | inr err => ret (inr err)
  | inl None => ret (inr "notification not found")
  | inl (Some item) => ret (unmarshalNotification item)
  end.

(** [DynamoClient.DeleteNotification] *)
Definition DeleteNotification (notificationID : string) : M (option error) :=
  Client_DeleteItem notificationID.

(** The loop of GetNotifications over the scanned items: the first item
    that does not unmarshal ends the call with its error. *)
Fixpoint unmarshal_all (items : list Item) (notifications : list Notification)
    : list Notification + error :=
  match items with
  | [] => inl notifications
  | item :: rest =>
      match unmarshalNotification item with
      | inr err => inr err
      | inl notification => unmarshal_all rest (notifications ++ [notification])
      end
  end.

(** The scan request GetNotifications builds. *)
Definition scan_input (recipient notificationType : string) (limit : Z)
    : ScanInput :=
  if decide (recipient = EmptyString /\ notificationType = EmptyString)
  then mkScanInput "notifications" (int32 limit) None None None
  else
    let filters : list string := [] in
    let names : gmap string string := ∅ in
    let values : gmap string AttributeValue := ∅ in
    let '(filters, names, values) :=
      if decide (recipient = EmptyString) then (filters, names, values)
      else (filters ++ ["#recipient = :recipient"],
            <["#recipient" := "recipient"]> names,
            <[":recipient" := AttributeValueMemberS recipient]> values) in
    let '(filters, names, values) :=
      if decide (notificationType = EmptyString) then (filters, names, values)
      else (filters ++ ["#type = :type"],
            <["#type" := "type"]> names,
            <[":type" := AttributeValueMemberS notificationType]> values) in
    match filters with
    | [] => mkScanInput "notifications" (int32 limit) None None None
    | _ => mkScanInput "notifications" (int32 limit)
             (Some (Join filters " AND ")) (Some names) (Some values)
    end.

(** [DynamoClient.GetNotifications] *)
Definition GetNotifications (recipient notificationType : string) (limit : Z)
    : M (list Notification + error) :=
  fun w =>
    match Scan_answers store w (scan_input recipient notificationType limit)
    with
    | inr err => (inr err, w)
    | inl items => (unmarshal_all items [], w)
    end.

End WithEnv.

End dbstore.

(* ------------------------------------------------------------------ *)
(** ** internal/db/dynamo.go: notification templates *)

Module templates.

Import model dynamodb dbstore.

(** [model.NotificationTemplate] *)
Record NotificationTemplate := mkNotificationTemplate {
  tpl_ID : uuid.UUID;
  Name : string;
  tpl_Type : NotificationType;
  tpl_Subject : string;
  tpl_Content : string;
  Variables : list string;
  IsActive : bool;
  tpl_CreatedAt : time.Time;
  tpl_UpdatedAt : time.Time
}.

Section WithEnv.

Context (env : Env) (lib : Lib).

(** The item SaveNotificationTemplate writes. *)
Definition template_item (template : NotificationTemplate) : Item :=
  let S := AttributeValueMemberS in
  let item : Item :=
    <["id" := S (uuid.String (tpl_ID template))]>
    (<["name" := S (Name template)]>
    (<["type" := S (tpl_Type template)]>
    (<["subject" := S (tpl_Subject template)]>
    (<["content" := S (tpl_Content template)]>
    (<["is_active" := AttributeValueMemberBOOL (IsActive template)]>
    (<["created_at" :=
         S (Format env time.RFC3339 (tpl_CreatedAt template))]>
    (<["updated_at" :=
         S (Format env time.RFC3339 (tpl_UpdatedAt template))]> ∅))))))) in
  match Variables template with
  | [] => item
  | _ => <["variables" := S (Join (Variables template) ",")]> item
  end.

(** [DynamoClient.unmarshalNotificationTemplate] *)
Definition unmarshalNotificationTemplate (item : Item)
    : NotificationTemplate + error :=
  match
    match string_at item "id" with
    | Some v =>
        match uuid_Parse lib v with
        | inl id => inl id
        | inr err => inr ("invalid template ID: " +:+ err)
        end
    | None => inl uuid.Nil
    end
  with
  | inr err => inr err
  | inl id =>
      match
        match string_at item "created_at" with
        | Some v =>
            match time_Parse lib time.RFC3339 v with
            | inl t => inl t
            | inr err => inr ("invalid created_at time: " +:+ err)
            end
        | None => inl (zero_Time lib)
        end
      with
      | inr err => inr err
      | inl createdAt =>
          match
            match string_at item "updated_at" with
            | Some v =>
                match time_Parse lib time.RFC3339 v with
                | inl t => inl t
                | inr err => inr ("invalid updated_at time: " +:+ err)
                end
            | None => inl (zero_Time lib)
            end
          with
          | inr err => inr err
          | inl updatedAt =>
              inl (mkNotificationTemplate id
                     (default EmptyString (string_at item "name"))
                     (default EmptyString (string_at item "type"))
                     (default EmptyString (string_at item "subject"))
                     (default EmptyString (string_at item "content"))
                     (match string_at item "variables" with
                      | Some v => gostrings.Split v ","
                      | None => []
                      end)
                     (match item !! "is_active" with
                      | Some (AttributeValueMemberBOOL b) => b
                      | _ => false
                      end)
                     createdAt updatedAt)
          end
      end
  end.

End WithEnv.

(** No variable name contains a comma. *)
Definition comma_free (names : list string) : bool :=
  forallb (fun v => negb (gostrings.Contains v ",")) names.

End templates.

(* ------------------------------------------------------------------ *)
(** ** internal/handler: what the HTTP handlers decide

    A handler is given what gin extracted from the request (path and query
    parameters, and the outcome of [BindJSON]); of the response it writes,
    the model keeps the status code and the [error] and [details]
    fields. *)

Module handler.

Import model.

Record Response := mkResponse {
  StatusCode : Z;
  ErrorText : option string;
  Details : option string
}.

Definition StatusOK : Z := 200.
Definition StatusCreated : Z := 201.
Definition StatusBadRequest : Z := 400.
Definition StatusNotFound : Z := 404.
Definition StatusInternalServerError : Z := 500.

Definition success (code : Z) : Response := mkResponse code None None.

Definition failure (code : Z) (msg : string) (details : option string)
    : Response :=
  mkResponse code (Some msg) details.

(** [model.UpdateNotificationRequest] *)
Record UpdateNotificationRequest := mkUpdateNotificationRequest {
  upd_Status : option NotificationStatus;
  upd_SentAt : option time.Time;
  upd_ReadAt : option time.Time
}.

(** The [updates] map the UpdateNotification handler prepares. *)
Definition updates_of (req : UpdateNotificationRequest)
    : gmap string db.Value :=
  let updates : gmap string db.Value := ∅ in
  let updates :=
    match upd_Status req with
    | Some status => <["status" := db.VString status]> updates
    | None => updates
    end in
  let updates :=
    match upd_SentAt req with
    | Some t => <["sent_at" := db.VTime t]> updates
    | None => updates
    end in
  match upd_ReadAt req with
  | Some t => <["read_at" := db.VTime t]> updates
  | None => updates
  end.

(** The [validTypes] map of the queue handlers. *)
Definition validTypes : gmap string bool :=
  <["events" := true]> (<["reservations" := true]> (<["reminders" := true]> ∅)).

(** The check the event handlers make on the bound request:
    [req.EventID == "" || req.EventName == "" || req.Recipient == ""]
    rejects it. *)
Definition valid_event (req : EventNotification) : bool :=
  negb (bool_decide (ev_EventID req = EmptyString)
        || bool_decide (ev_EventName req = EmptyString)
        || bool_decide (ev_Recipient req = EmptyString)).

(** [if req.Priority == "" { req.Priority = model.NotificationPriorityNormal }] *)
Definition defaulted (req : EventNotification) : EventNotification :=
  if decide (ev_Priority req = EmptyString)
  then mkEventNotification (ev_EventID req) (ev_EventName req)
         (ev_EventDate req) (ev_Location req) (ev_Recipient req)
         (ev_Type req) NotificationPriorityNormal
  else req.

(** The limit ListNotifications passes on: 50 unless the query gives a
    number from 1 to 100. *)
Definition limit_of (limitStr : string) : Z :=
  if decide (limitStr = EmptyString) then 50
  else match strconv.Atoi limitStr with
       | Some l => if (0 <? l) && (l <=? 100) then l else 50
       | None => 50
       end.

Section WithEnv.

Context (env : Env) (lib : dbstore.Lib) (store : dbstore.Store)
        (s : service.NotificationService).

(** The order in which [range] yields the entries of a map. *)
Context (range : gmap string db.Value -> list (string * db.Value)).

(** [NotificationHandler.SendNotification] *)
Definition SendNotification (body : CreateNotificationRequest + error)
    : M Response :=
  match body with
  | inr err =>
      ret (failure StatusBadRequest "Datos de notificación inválidos"
             (Some err))
  | inl req =>
      if negb (service.valid_request req)
      then ret (failure StatusBadRequest
                  "Recipient, subject y content son campos requeridos" None)
      else
        let* r := service.SendNotification env req in
        match r.2 with
        | Some err =>
            ret (failure StatusInternalServerError
                   "Error enviando notificación" (Some err))
        | None =>
            let* _ := dbstore.SaveNotification env lib store r.1 in
            ret (success StatusCreated)
        end
  end.

(** The loop of SendBulkNotifications that stores the notifications; a
    failed save is only logged. *)
Fixpoint save_each (notifications : list Notification) : M unit :=
  match notifications with
  | [] => ret tt
  | notification :: rest =>
      let* _ := dbstore.SaveNotification env lib store notification in
      save_each rest
  end.

(** [NotificationHandler.SendBulkNotifications] *)
Definition SendBulkNotifications (body : BulkNotificationRequest + error)
    : M Response :=
  match body with
  | inr err =>
      ret (failure StatusBadRequest "Datos de notificaciones inválidos"
             (Some err))
  | inl req =>
      if decide (length (bulk_Notifications req) = 0%nat)
      then ret (failure StatusBadRequest
                  "Debe especificar al menos una notificación" None)
      else
        let* r := service.SendBulkNotifications env req in
        match r.2 with
        | Some err =>
            ret (failure StatusInternalServerError
                   "Error enviando notificaciones en lote" (Some err))
        | None =>
            let* _ := save_each r.1 in
            ret (success StatusCreated)
        end
  end.

(** [NotificationHandler.NotifyEventCreated] *)
Definition NotifyEventCreated (body : EventNotification + error)
    : M Response :=
  match body with
  | inr err =>
      ret (failure StatusBadRequest
             "Datos de notificación de evento inválidos" (Some err))
  | inl req =>
      if negb (valid_event req)
      then ret (failure StatusBadRequest
                  "EventID, EventName y Recipient son campos requeridos"
                  None)
      else
        let req := defaulted req in
        let* err := service.NotifyEventCreated env s req in
        match err with
        | Some e =>
            ret (failure StatusInternalServerError
                   "Error enviando notificación de evento" (Some e))
        | None => ret (success StatusOK)
        end
  end.

(** [NotificationHandler.GetNotification] *)
Definition GetNotification (notificationID : string) : M Response :=
  if decide (notificationID = EmptyString)
  then ret (failure StatusBadRequest "ID de notificación requerido" None)
  else
    let* r := dbstore.GetNotificationByID lib store notificationID in
    match r with
    | inr err =>
        if gostrings.Contains err "not found"
        then ret (failure StatusNotFound "Notificación no encontrada" None)
        else ret (failure StatusInternalServerError
                    "Error obteniendo notificación" (Some err))
    | inl _ => ret (success StatusOK)
    end.

(** [NotificationHandler.ListNotifications] *)
Definition ListNotifications (recipient notificationType limitStr : string)
    : M Response :=
  let limit := limit_of limitStr in
  let* r := dbstore.GetNotifications lib store recipient notificationType
              limit in
  match r with
  | inr err =>
      ret (failure StatusInternalServerError
             "Error obteniendo notificaciones" (Some err))
  | inl _ => ret (success StatusOK)
  end.

(** [NotificationHandler.UpdateNotification] *)
Definition UpdateNotification (notificationID : string)
    (body : UpdateNotificationRequest + error) : M (Run Response) :=
  if decide (notificationID = EmptyString)
  then ret (Returns
              (failure StatusBadRequest "ID de notificación requerido" None))
  else
    match body with
    | inr err =>
        ret (Returns
               (failure StatusBadRequest "Datos de actualización inválidos"
                  (Some err)))
    | inl req =>
        let updates := updates_of req in
        if decide (size updates = 0%nat)
        then ret (Returns
                    (failure StatusBadRequest
                       "Debe especificar al menos un campo para actualizar"
                       None))
        else
          let* r := db.UpdateNotification env notificationID (range updates) in
          match r with
          | Panics msg => ret (Panics msg)
          | Returns (Some err) =>
              ret (Returns
                     (failure StatusInternalServerError
                        "Error actualizando notificación" (Some err)))
          | Returns None => ret (Returns (success StatusOK))
          end
    end.

(** [NotificationHandler.DeleteNotification] *)
Definition DeleteNotification (notificationID : string) : M Response :=
  if decide (notificationID = EmptyString)
  then ret (failure StatusBadRequest "ID de notificación requerido" None)
  else
    let* err := dbstore.DeleteNotification store notificationID in
    match err with
    | Some e =>
        ret (failure StatusInternalServerError
               "Error eliminando notificación" (Some e))
    | None => ret (success StatusOK)
    end.

(** [QueueHandler.ProcessNotificationQueue]; a panic of the service is
    not recovered in the handler. *)
Definition ProcessNotificationQueue (queueType : string)
    : M (Run Response) :=
  if decide (queueType = EmptyString)
  then ret (Returns
              (failure StatusBadRequest
                 "El parámetro 'type' es requerido (events, reservations, reminders)"
                 None))
  else if negb (default false (validTypes !! queueType))
  then ret (Returns
              (failure StatusBadRequest
                 "Tipo de cola inválido. Debe ser: events, reservations, o reminders"
                 None))
  else
    let* r := service.ProcessNotificationQueue env s queueType in
    match r with
    | Panics msg => ret (Panics msg)
    | Returns (Some e) =>
        ret (Returns
               (failure StatusInternalServerError
                  "Error procesando cola de notificaciones" (Some e)))
    | Returns None =>
        let* _ := time_Now env in
        ret (Returns (success StatusOK))
    end.

End WithEnv.

End handler.

(* ------------------------------------------------------------------ *)
(** ** Concrete libraries and store *)

Module StoreExamples.

Import model dbstore.

(** A parser that accepts the one timestamp [Examples.show_time] prints. *)
Definition parse_time (layout value : string) : time.Time + error :=
  if decide (value = "2026-01-01T00:00:00Z")
  then inl (time.mkTime 1767225600 None)
  else inr ("parsing time: " +:+ value).

(** A parser that accepts the text of one id. *)
Definition parse_uuid (s : string) : uuid.UUID + error :=
  if decide (s = uuid.String (replicate 16 7%Z)) then inl (replicate 16 7%Z)
  else inr "invalid UUID format".

Definition lib_ok : Lib :=
  mkLib parse_uuid parse_time (fun _ => "map[]") (fun msg => msg)
    (time.mkTime 0 None).

(** A store that answers every call and scans nothing. *)
Definition store_ok : Store :=
  mkStore (fun _ _ => None) (fun _ _ => None) (fun _ _ => None)
    (fun _ _ => inl []).

(** A notification that was sent, with a data bag. *)
Definition sent : Notification :=
  mkNotification (replicate 16 7%Z) "welcome" "sent" "normal"
    "ana@example.org" "Hola" "Bienvenida" "tpl" (Some {[ "k" := DBool true ]})
    (Some (time.mkTime 3 (Some 3))) None
    (time.mkTime 1 (Some 1)) (time.mkTime 2 (Some 2)).

End StoreExamples.

(* ------------------------------------------------------------------ *)
(** ** What is observed of the record store *)

Module StoreSpec.

Import model dynamodb dbstore.

(** A timestamp after it was formatted and parsed back; it is dropped
    when the parser rejects it. *)
Definition reread (env : Env) (lib : Lib) (t : option time.Time)
    : option time.Time :=
  t ≫= fun t =>
    match time_Parse lib time.RFC3339 (Format env time.RFC3339 t) with
    | inl t' => Some t'
    | inr _ => None
    end.

(** The effect on a result of replacing [sent_at]. *)
Definition with_sent_at (t : option time.Time) (r : Notification + error)
    : Notification + error :=
  match r with
  | inl n => inl (with_SentAt t n)
  | inr err => inr err
  end.

End StoreSpec.

(* ------------------------------------------------------------------ *)
(** ** A concrete template *)

Module TemplateExamples.

Import templates.

Definition reminder_template : NotificationTemplate :=
  mkNotificationTemplate (replicate 16 7%Z) "reminder" "event_reminder"
    "Recordatorio" "Hola" ["name"; "event"; "date"] true
    (time.mkTime 1 None) (time.mkTime 2 None).

End TemplateExamples.

(* ------------------------------------------------------------------ *)
(** ** The clock *)

Section Clock.

Lemma time_leb_le (t u : time.Time) : time.leb t u = true <-> time.le t u.
Proof.
  unfold time.leb, time.le.
  destruct (time.mono t), (time.mono u); apply Z.leb_le.
Qed.

(** Two readings of [time.Now] compare in the order they were taken,
    whatever the wall clock did in between. *)
Lemma time_Now_monotone (env : Env) (w : World) :
  time.le (time_Now env w).1 (time_Now env (time_Now env w).2).1.
Proof. unfold time.le, time_Now. cbn. lia. Qed.

End Clock.

(* ------------------------------------------------------------------ *)
(** ** Traces *)

Section Traces.

Lemma events_since_app (w w' : World) (evs : list Event) :
  trace w' = trace w ++ evs -> events_since w w' = evs.
Proof.
  intros H. unfold events_since. rewrite H.
  by rewrite drop_app_length.
Qed.

Lemma events_since_refl (w : World) : events_since w w = [].
Proof. apply events_since_app. by rewrite app_nil_r. Qed.

End Traces.

(* ------------------------------------------------------------------ *)
(** ** Notification ids *)

Section Ids.

Lemma uuid_String_nonempty (u : uuid.UUID) : uuid.String u <> EmptyString.
Proof.
  unfold uuid.String.
  destruct (uuid.hex (take 4 u)); simpl; discriminate.
Qed.

Lemma uuid_String_length (u : uuid.UUID) :
  length u = 16%nat -> String.length (uuid.String u) = 36%nat.
Proof.
  intros H.
  do 17 (destruct u as [|? u]; simpl in H; try discriminate).
  reflexivity.
Qed.

Lemma NewRandom_length (rnd : nat -> Z) :
  length (uuid.NewRandom rnd) = 16%nat.
Proof. reflexivity. Qed.

(** The version nibble makes byte 6 non-zero. *)
Lemma NewRandom_not_Nil (rnd : nat -> Z) : uuid.NewRandom rnd <> uuid.Nil.
Proof.
  intros H.
  assert (Hb : uuid.byte_at (uuid.NewRandom rnd) 6 = 0)
    by (rewrite H; reflexivity).
  cbn in Hb. apply Z.lor_eq_0_iff in Hb as [_ Hb]. discriminate.
Qed.

End Ids.

(* ------------------------------------------------------------------ *)
(** ** SendNotification *)

Module SendProps.

Import model service SendSpec.

Section WithEnv.

Context (env : Env).

Lemma SendNotification_does (req : CreateNotificationRequest) (w : World) :
  SendNotification_post env req w
    (SendNotification env req w).1.1
    (SendNotification env req w).1.2
    (SendNotification env req w).2.
Proof.
  unfold SendNotification, sendEmailNotification, bind, ret,
    Client_SendEmail, emit, uuid_New, time_Now.
  cbv zeta. cbn [Priority].
  destruct (decide (req_Priority req = EmptyString)) as [Hp|Hp];
    cbn [with_Priority Priority Recipient Subject Content trace
         monotonic clock_reads uuids_drawn notifications];
    fold (email_of req);
    destruct (ses_SendEmail env (trace w) (email_of req)) as [e|] eqn:Hr;
    cbn [fst snd trace with_Status with_SentAt with_Priority
         monotonic clock_reads uuids_drawn notifications];
    (split; rewrite ?Hr;
     cbn [ID Status SentAt CreatedAt UpdatedAt Recipient Priority
          TemplateID records_outcome trace
          with_Status with_SentAt with_Priority];
     rewrite ?decide_True, ?decide_False by done;
     [ reflexivity | reflexivity | eauto
     | split; [apply uuid_String_nonempty | apply NewRandom_not_Nil]
     | unfold time.le; cbn [time.mono]; lia
     | reflexivity | reflexivity | reflexivity ]).
Qed.

Lemma email_of_overridden req item :
  email_of (overridden req item) = email_of item.
Proof. unfold overridden. by repeat case_decide. Qed.

Lemma email_outcomes_app evs1 evs2 :
  email_outcomes (evs1 ++ evs2) = email_outcomes evs1 ++ email_outcomes evs2.
Proof. unfold email_outcomes. apply omap_app. Qed.

(** The loop keeps what it was given, appends one notification per
    item, in order, and sends one email per item. *)
Lemma SendBulkNotifications_loop_does req items :
  forall ns errs w,
  exists ns' evs,
    (SendBulkNotifications_loop env req items ns errs w).1
      = (ns ++ ns', errs) /\
    trace (SendBulkNotifications_loop env req items ns errs w).2
      = trace w ++ evs /\
    Forall2 (made_from req) ns' items /\
    Forall2 is_send_of evs items /\
    Forall2 records_outcome ns' (email_outcomes evs).
Proof.
  induction items as [|item rest IH]; intros ns errs w.
  - exists [], []. cbn. rewrite !app_nil_r. repeat split; constructor.
  - cbn [SendBulkNotifications_loop]. unfold bind.
    fold (overridden req item).
    pose proof (SendNotification_does (overridden req item) w) as P.
    destruct (SendNotification env (overridden req item) w)
      as [[n e] w1] eqn:HS.
    cbn [fst snd] in P |- *. destruct P as [He Htr Hout Hid Ht Hrc Hp Htp].
    subst e.
    destruct (IH (ns ++ [n]) errs w1) as (ns' & evs & E1 & E2 & F1 & F2 & F3).
    exists (n :: ns'), (EvSendEmail (email_of (overridden req item))
                          (ses_SendEmail env (trace w)
                             (email_of (overridden req item))) :: evs).
    rewrite E1, E2, Htr, <- !app_assoc. cbn [app].
    repeat split; try done.
    + constructor; [|done]. unfold made_from.
      rewrite Hrc. split; [|done]. unfold overridden.
      by repeat case_decide.
    + constructor; [|done]. rewrite email_of_overridden. by eexists.
    + cbn. by constructor.
Qed.

Lemma SendBulkNotifications_does req w :
  exists evs,
    (SendBulkNotifications env req w).1.2 = None /\
    events_since w (SendBulkNotifications env req w).2 = evs /\
    Forall2 (made_from req) (SendBulkNotifications env req w).1.1
      (bulk_Notifications req) /\
    Forall2 is_send_of evs (bulk_Notifications req) /\
    Forall2 records_outcome (SendBulkNotifications env req w).1.1
      (email_outcomes evs).
Proof.
  unfold SendBulkNotifications, bind, ret.
  destruct (SendBulkNotifications_loop_does req (bulk_Notifications req)
              [] [] w) as (ns' & evs & E1 & E2 & F1 & F2 & F3).
  destruct (SendBulkNotifications_loop env req (bulk_Notifications req)
              [] [] w) as [[ns errs] w1].
  cbn [fst snd] in *. injection E1 as -> ->.
  exists evs. repeat split; try done. by apply events_since_app.
Qed.

End WithEnv.

(** C1: for every valid SendNotification input (recipient, subject and
    content present) the returned Notification has a non-empty id (its
    text is not empty and it is not the nil UUID), created_at is less than
    or equal to updated_at, the status is either sent or failed, and the
    returned error is nil. *)
Theorem SendNotification_valid_result (env : Env)
    (req : CreateNotificationRequest) (w : World) :
  valid_request req = true ->
  uuid.String (ID (SendNotification env req w).1.1) <> EmptyString /\
  ID (SendNotification env req w).1.1 <> uuid.Nil /\
  time.le (CreatedAt (SendNotification env req w).1.1)
          (UpdatedAt (SendNotification env req w).1.1) /\
  (Status (SendNotification env req w).1.1 = NotificationStatusSent \/
   Status (SendNotification env req w).1.1 = NotificationStatusFailed) /\
  (SendNotification env req w).1.2 = None.
Proof.
  intros _.
  destruct (SendNotification_does env req w)
    as [He _ Hout [Hid Hnil] Ht _ _ _].
  repeat split; try done.
  unfold records_outcome in Hout.
  destruct (ses_SendEmail env (trace w) (email_of req));
    destruct Hout; auto.
Qed.

Lemma SendNotification_valid_result_witness :
  valid_request Examples.welcome = true /\
  (uuid.String (ID (SendNotification Examples.env_flaky_ses
                      Examples.welcome Examples.w0).1.1) <> EmptyString /\
   ID (SendNotification Examples.env_flaky_ses
         Examples.welcome Examples.w0).1.1 <> uuid.Nil /\
   time.le (CreatedAt (SendNotification Examples.env_flaky_ses
                         Examples.welcome Examples.w0).1.1)
           (UpdatedAt (SendNotification Examples.env_flaky_ses
                         Examples.welcome Examples.w0).1.1) /\
   (Status (SendNotification Examples.env_flaky_ses
              Examples.welcome Examples.w0).1.1 = NotificationStatusSent \/
    Status (SendNotification Examples.env_flaky_ses
              Examples.welcome Examples.w0).1.1 = NotificationStatusFailed) /\
   (SendNotification Examples.env_flaky_ses
      Examples.welcome Examples.w0).1.2 = None).
Proof.
  split; [reflexivity|].
  apply (SendNotification_valid_result Examples.env_flaky_ses
           Examples.welcome Examples.w0).
  reflexivity.
Defined.

(** C2: for every input, SendNotification makes one email send; if that
    send fails the returned Notification has status failed and a null
    sent_at, if it succeeds the status is sent and sent_at is set; either
    way the call returns no error. *)
Theorem SendNotification_records_send_outcome (env : Env)
    (req : CreateNotificationRequest) (w : World) :
  email_outcomes (events_since w (SendNotification env req w).2)
    = [ses_SendEmail env (trace w) (email_of req)] /\
  (SendNotification env req w).1.2 = None /\
  match ses_SendEmail env (trace w) (email_of req) with
  | Some _ =>
      Status (SendNotification env req w).1.1 = NotificationStatusFailed /\
      SentAt (SendNotification env req w).1.1 = None
  | None =>
      Status (SendNotification env req w).1.1 = NotificationStatusSent /\
      SentAt (SendNotification env req w).1.1 <> None
  end.
Proof.
  destruct (SendNotification_does env req w) as [He Htr Hout _ _ _ _ _].
  rewrite (events_since_app _ _ _ Htr).
  repeat split; try done.
  unfold records_outcome in Hout.
  destruct (ses_SendEmail env (trace w) (email_of req)); [done|].
  destruct Hout as [? [t Ht]]. split; [done|]. by rewrite Ht.
Qed.

(** C3: for every batch given to SendBulkNotifications with a non-empty
    batch-level priority, every Notification of the returned list (one
    per item) has that priority, whatever priority the items carry; the
    same holds for a non-empty batch-level template_id. *)
Theorem SendBulkNotifications_batch_overrides (env : Env)
    (req : BulkNotificationRequest) (w : World) :
  length (SendBulkNotifications env req w).1.1
    = length (bulk_Notifications req) /\
  (bulk_Priority req <> EmptyString ->
   Forall (fun n => Priority n = bulk_Priority req)
          (SendBulkNotifications env req w).1.1) /\
  (bulk_TemplateID req <> EmptyString ->
   Forall (fun n => TemplateID n = bulk_TemplateID req)
          (SendBulkNotifications env req w).1.1).
Proof.
  destruct (SendBulkNotifications_does env req w)
    as (evs & _ & _ & F & _ & _).
  split; [by eapply Forall2_length|].
  split; intros Hne.
  - eapply Forall2_Forall_l; [exact F|].
    apply Forall_forall. intros item _ n (_ & Hp & _).
    rewrite Hp. unfold overridden.
    rewrite (decide_False (P := bulk_Priority req = EmptyString)) by done.
    destruct (decide (bulk_TemplateID req = EmptyString));
      cbn [req_Priority req_with_Priority req_with_TemplateID];
      by rewrite decide_False.
  - eapply Forall2_Forall_l; [exact F|].
    apply Forall_forall. intros item _ n (_ & _ & Ht).
    rewrite Ht. unfold overridden.
    by rewrite (decide_False (P := bulk_TemplateID req = EmptyString)).
Qed.

Lemma SendBulkNotifications_batch_overrides_witness :
  Forall (fun n => Priority n = "urgent")
    (SendBulkNotifications Examples.env_flaky_ses
       Examples.batch Examples.w0).1.1 /\
  Forall (fun n => TemplateID n = "tpl-batch")
    (SendBulkNotifications Examples.env_flaky_ses
       Examples.batch Examples.w0).1.1.
Proof.
  destruct (SendBulkNotifications_batch_overrides Examples.env_flaky_ses
              Examples.batch Examples.w0) as (_ & Hp & Ht).
  split; [apply Hp | apply Ht]; discriminate.
Defined.

(** C4: for every batch of N items SendBulkNotifications returns exactly
    N Notifications and a nil error; it makes N email sends, the i-th
    for the i-th item, and the i-th Notification is that item's, with
    status failed when its send failed and status sent when it
    succeeded: a failed item never aborts the ones after it. *)
Theorem SendBulkNotifications_partial_failure (env : Env)
    (req : BulkNotificationRequest) (w : World) :
  length (SendBulkNotifications env req w).1.1
    = length (bulk_Notifications req) /\
  (SendBulkNotifications env req w).1.2 = None /\
  Forall2 (fun n item => Recipient n = req_Recipient item)
    (SendBulkNotifications env req w).1.1 (bulk_Notifications req) /\
  Forall2 is_send_of
    (events_since w (SendBulkNotifications env req w).2)
    (bulk_Notifications req) /\
  Forall2 (fun n outcome =>
             Status n = match outcome with
                        | Some _ => NotificationStatusFailed
                        | None => NotificationStatusSent
                        end)
    (SendBulkNotifications env req w).1.1
    (email_outcomes (events_since w (SendBulkNotifications env req w).2)).
Proof.
  destruct (SendBulkNotifications_does env req w)
    as (evs & He & Hev & F1 & F2 & F3).
  rewrite Hev.
  split; [by eapply Forall2_length|].
  repeat split; try done.
  - eapply Forall2_impl; [exact F1|]. by intros n item (? & _).
  - eapply Forall2_impl; [exact F3|].
    intros n [e|]; unfold records_outcome; by intros [? _].
Qed.

End SendProps.

(* ------------------------------------------------------------------ *)
(** ** NotifyEventCreated and NotifyEventCancelled *)

Module EventProps.

Import model service QueueSpec.

Ltac run_event_notification :=
  unfold queue.SendEventNotification, sendEmailNotification, bind, ret,
    Client_SendMessage, Client_SendEmail, emit, uuid_New, time_Now;
  cbn [trace monotonic clock_reads uuids_drawn notifications fst snd
       queue.EventID queue.Priority event_message].

Ltac case_email env :=
  try match goal with
      | |- context [ses_SendEmail env ?t ?i] =>
          destruct (ses_SendEmail env t i)
      end.

Ltac read_trace :=
  match goal with
  | |- context [events_since ?w ?w'] =>
      erewrite (events_since_app w w');
      [| cbn [trace]; rewrite <- ?app_assoc; reflexivity]
  end.

Section WithEnv.

Context (env : Env) (s : NotificationService).

Lemma NotifyEventCreated_routes (req : EventNotification) (w : World) :
  routes env s (event_enqueue env s req "event_created_template")
    "error sending event notification to queue: "
    (if immediate (ev_Priority req) then 1%nat else 0%nat)
    w (NotifyEventCreated env s req w).
Proof.
  unfold routes, NotifyEventCreated. run_event_notification.
  fold (event_enqueue env s req "event_created_template").
  fold (immediate (ev_Priority req)).
  destruct (sqs_SendMessage env (trace w) _) as [e|];
    [| destruct (immediate (ev_Priority req))];
    case_email env;
    cbn [fst snd trace monotonic clock_reads uuids_drawn notifications];
    read_trace; cbn; rewrite ?bool_decide_true by done; done.
Qed.

Lemma NotifyEventCancelled_routes (req : EventNotification) (w : World) :
  routes env s (event_enqueue env s req "event_cancelled_template")
    "error sending event cancellation to queue: " 1%nat
    w (NotifyEventCancelled env s req w).
Proof.
  unfold routes, NotifyEventCancelled. run_event_notification.
  fold (event_enqueue env s req "event_cancelled_template").
  destruct (sqs_SendMessage env (trace w) _) as [e|];
    case_email env;
    cbn [fst snd trace monotonic clock_reads uuids_drawn notifications];
    read_trace; cbn; rewrite ?bool_decide_true by done; done.
Qed.

End WithEnv.

(** C5, as stated, fails when the events queue refuses the message: an
    urgent event then gets no email at all. *)
Lemma NotifyEventCreated_queue_down_no_email :
  ~ EventCreated_as_claimed Examples.env_queue_down Examples.svc
      (Examples.concert "urgent") Examples.w0.
Proof.
  intros [_ H]. vm_compute in H.
  assert (E : 0%nat = 1%nat) by (apply H; right; reflexivity).
  discriminate E.
Qed.

(** C5 (amended): for every event request NotifyEventCreated makes exactly
    one queue operation, a send to the events queue.  When that send
    succeeds the call returns nil and has attempted exactly one email send
    if the priority is high or urgent and none otherwise, whatever the
    outcome of the email.  When the send is refused the call returns the
    error and attempts no email. *)
Theorem NotifyEventCreated_routing (env : Env) (s : NotificationService)
    (req : EventNotification) (w : World) :
  let request := event_enqueue env s req "event_created_template" in
  let evs := events_since w (NotifyEventCreated env s req w).2 in
  enqueue_outcomes (queue.QueueURL (eventQueue s)) evs
    = [sqs_SendMessage env (trace w) request] /\
  length (filter (fun e => is_queue_operation e = true) evs) = 1%nat /\
  match sqs_SendMessage env (trace w) request with
  | Some e =>
      (NotifyEventCreated env s req w).1
        = Some (Errorf_w "error sending event notification to queue: "
                  (Errorf_w "error sending event notification: " e)) /\
      email_outcomes evs = []
  | None =>
      (NotifyEventCreated env s req w).1 = None /\
      length (email_outcomes evs)
        = if bool_decide (ev_Priority req = NotificationPriorityHigh)
             || bool_decide (ev_Priority req = NotificationPriorityUrgent)
          then 1%nat else 0%nat
  end.
Proof. exact (NotifyEventCreated_routes env s req w). Qed.

(** C6, as stated, fails when the events queue refuses the message: the
    cancellation email is then not attempted. *)
Lemma NotifyEventCancelled_queue_down_no_email :
  ~ EventCancelled_as_claimed Examples.env_queue_down Examples.svc
      (Examples.concert "low") Examples.w0.
Proof.
  intros [_ H]. vm_compute in H. discriminate H.
Qed.

(** C6 (amended): for every event request and every priority
    NotifyEventCancelled makes exactly one queue operation, a send to the
    events queue.  When that send succeeds the call attempts exactly one
    email send and returns nil whatever the outcome of the email.  When the
    send is refused the error is returned and no email is attempted. *)
Theorem NotifyEventCancelled_routing (env : Env) (s : NotificationService)
    (req : EventNotification) (w : World) :
  let request := event_enqueue env s req "event_cancelled_template" in
  let evs := events_since w (NotifyEventCancelled env s req w).2 in
  enqueue_outcomes (queue.QueueURL (eventQueue s)) evs
    = [sqs_SendMessage env (trace w) request] /\
  length (filter (fun e => is_queue_operation e = true) evs) = 1%nat /\
  match sqs_SendMessage env (trace w) request with
  | Some e =>
      (NotifyEventCancelled env s req w).1
        = Some (Errorf_w "error sending event cancellation to queue: "
                  (Errorf_w "error sending event notification: " e)) /\
      email_outcomes evs = []
  | None =>
      (NotifyEventCancelled env s req w).1 = None /\
      length (email_outcomes evs) = 1%nat
  end.
Proof. exact (NotifyEventCancelled_routes env s req w). Qed.

(** The two cases of the specification, run: a low-priority event is
    enqueued once and sends no email; an urgent one is enqueued once and
    sends one email, whose refusal by SES the caller does not see. *)
Example NotifyEventCreated_low :
  let r := NotifyEventCreated Examples.env_ok Examples.svc
             (Examples.concert "low") Examples.w0 in
  r.1 = None /\
  length (enqueue_outcomes "http://sqs/events"
            (events_since Examples.w0 r.2)) = 1%nat /\
  email_outcomes (events_since Examples.w0 r.2) = [].
Proof. vm_compute. done. Qed.

Example NotifyEventCreated_urgent_email_refused :
  let r := NotifyEventCreated Examples.env_flaky_ses Examples.svc
             (Examples.concert "urgent") Examples.w0 in
  r.1 = None /\
  length (enqueue_outcomes "http://sqs/events"
            (events_since Examples.w0 r.2)) = 1%nat /\
  email_outcomes (events_since Examples.w0 r.2) = [Some "Throttling"].
Proof. vm_compute. done. Qed.

End EventProps.

(* ------------------------------------------------------------------ *)
(** ** ProcessNotificationQueue *)

Module ProcessorProps.

Import model service QueueSpec.

Lemma select_client_valid (s : NotificationService) (queueType : string) :
  valid_queue_type queueType ->
  exists client, select_client s queueType = Some client.
Proof.
  unfold select_client.
  intros [-> | [-> | ->]]; repeat case_decide; by eauto.
Qed.

Lemma select_client_invalid (s : NotificationService) (queueType : string) :
  ~ valid_queue_type queueType -> select_client s queueType = None.
Proof.
  unfold select_client, valid_queue_type. intros H.
  repeat case_decide; tauto.
Qed.

Section WithEnv.

Context (env : Env) (s : NotificationService).

Section WithHandler.

Context (handler : sqs.Message -> string -> Run (option error)).

(** The loop adds delete calls only; on a batch that makes it
    dereference no nil pointer it adds one delete per message the
    handler accepted, and returns. *)
Lemma process_messages_does client queueType messages :
  forall w,
  exists dels,
    trace (process_messages env handler client queueType messages w).2
      = trace w ++ dels /\
    (sound_batch handler queueType messages ->
     Forall2 (is_delete_of client) dels
       (filter (fun m => handler m queueType = Returns None) messages) /\
     (process_messages env handler client queueType messages w).1
       = Returns tt).
Proof.
  induction messages as [|m rest IH]; intros w.
  - exists []. cbn. rewrite app_nil_r. split; [done|].
    intros _. split; [constructor | done].
  - cbn [process_messages]. rewrite filter_cons.
    destruct (handler m queueType) as [[e|]|msg] eqn:Hh.
    + rewrite decide_False by done.
      destruct (sqs.MessageId m) as [id|] eqn:Hid; cbn [deref].
      * destruct (IH w) as (dels & E & F). exists dels. split; [done|].
        intros [_ Hrest]%Forall_cons. by apply F.
      * exists []. cbn. rewrite app_nil_r. split; [done|].
        intros [([? Hi] & _) _]%Forall_cons. congruence.
    + rewrite decide_True by done.
      destruct (sqs.ReceiptHandle m) as [h|] eqn:Hh'; cbn [deref].
      2:{ exists []. cbn. rewrite app_nil_r. split; [done|].
          intros [(_ & [? Hr] & _) _]%Forall_cons. congruence. }
      unfold bind, queue.DeleteMessage, bind, Client_DeleteMessage, emit,
        ret.
      set (del := sqs.mkDeleteMessageInput (queue.QueueURL client) h).
      destruct (sqs_DeleteMessage env (trace w) del) as [e|].
      * destruct (sqs.MessageId m) as [id|] eqn:Hid; cbn [deref].
        -- match goal with
           | |- context [process_messages _ _ _ _ rest ?w1] =>
               destruct (IH w1) as (dels & E & F)
           end.
           cbn [trace] in E.
           eexists (EvDeleteMessage del _ :: dels). split.
           { rewrite E, <- app_assoc. reflexivity. }
           intros [_ Hrest]%Forall_cons.
           destruct (F Hrest) as [F' R]. split; [|done].
           constructor; [by eexists _, _ | done].
        -- eexists [EvDeleteMessage del _]. split; [done|].
           intros [([? Hi] & _) _]%Forall_cons. congruence.
      * match goal with
        | |- context [process_messages _ _ _ _ rest ?w1] =>
            destruct (IH w1) as (dels & E & F)
        end.
        cbn [trace] in E.
        eexists (EvDeleteMessage del _ :: dels). split.
        { rewrite E, <- app_assoc. reflexivity. }
        intros [_ Hrest]%Forall_cons.
        destruct (F Hrest) as [F' R]. split; [|done].
        constructor; [by eexists _, _ | done].
    + exists []. cbn. rewrite app_nil_r. split; [done|].
      intros [(_ & _ & [r Hr]) _]%Forall_cons. congruence.
Qed.

Lemma ProcessNotificationQueue_with_does queueType client w :
  select_client s queueType = Some client ->
  exists dels,
    trace (ProcessNotificationQueue_with env s handler queueType w).2
      = trace w ++ EvReceiveMessage (poll_of client) (received env client w)
                     :: dels /\
    match received env client w with
    | inl msgs =>
        sound_batch handler queueType msgs ->
        Forall2 (is_delete_of client) dels
          (filter (fun m => handler m queueType = Returns None) msgs) /\
        (ProcessNotificationQueue_with env s handler queueType w).1
          = Returns None
    | inr e =>
        dels = [] /\
        (ProcessNotificationQueue_with env s handler queueType w).1
          = Returns (Some (Errorf_w "error receiving messages: "
                             (Errorf_w "error receiving SQS messages: " e)))
    end.
Proof.
  intros Hc. unfold ProcessNotificationQueue_with. rewrite Hc.
  unfold bind, queue.ReceiveMessages, bind, Client_ReceiveMessage, emit, ret.
  cbn [sqs.MaxNumberOfMessages].
  change (Z.to_nat 10) with 10%nat. fold (poll_of client).
  change (match sqs_visible env (trace w) (poll_of client) with
          | inl msgs => inl (take 10 msgs)
          | inr e => inr e
          end) with (received env client w).
  destruct (received env client w) as [msgs|e].
  - match goal with
    | |- context [process_messages _ _ _ _ msgs ?w1] =>
        destruct (process_messages_does client queueType msgs w1)
          as (dels & E & F);
        destruct (process_messages env handler client queueType msgs w1)
          as [r w2]
    end.
    cbn [fst snd trace] in *. exists dels. split.
    + destruct r; cbn [snd]; by rewrite E, <- app_assoc.
    + intros Hs. destruct (F Hs) as [F' ->]. done.
  - exists []. cbn. done.
Qed.

(** Once the poll succeeded the call returns nil, unless it panics. *)
Lemma ProcessNotificationQueue_with_polled queueType client w msgs :
  select_client s queueType = Some client ->
  received env client w = inl msgs ->
  (ProcessNotificationQueue_with env s handler queueType w).1 = Returns None \/
  exists msg,
    (ProcessNotificationQueue_with env s handler queueType w).1 = Panics msg.
Proof.
  intros Hc Hr. unfold ProcessNotificationQueue_with. rewrite Hc.
  unfold bind, queue.ReceiveMessages, bind, Client_ReceiveMessage, emit, ret.
  cbn [sqs.MaxNumberOfMessages].
  change (Z.to_nat 10) with 10%nat. fold (poll_of client).
  change (match sqs_visible env (trace w) (poll_of client) with
          | inl msgs => inl (take 10 msgs)
          | inr e => inr e
          end) with (received env client w).
  rewrite Hr.
  match goal with
  | |- context [process_messages _ _ _ _ msgs ?w1] =>
      destruct (process_messages env handler client queueType msgs w1)
        as [[[]|msg] w2]
  end; cbn [fst]; eauto.
Qed.

End WithHandler.




Lemma processMessage_complete (message : sqs.Message) (queueType : string) :
  complete message -> processMessage message queueType = Returns None.
Proof.
  intros ([id Hi] & _ & [body Hb]). unfold processMessage.
  rewrite Hi, Hb. cbn [deref]. by repeat case_decide.
Qed.

Lemma complete_sound_batch (queueType : string) (msgs : list sqs.Message) :
  Forall complete msgs -> sound_batch processMessage queueType msgs.
Proof.
  unfold sound_batch. intros Hall. eapply Forall_impl; [exact Hall|].
  intros m Hm. pose proof (processMessage_complete m queueType Hm) as Hp.
  destruct Hm as (? & ? & ?). eauto.
Qed.

End WithEnv.

(** C7: for every queueType that is not events, reservations or reminders,
    ProcessNotificationQueue returns the invalid-queue-type error and
    leaves the world as it was: no receive, no delete, no call at all. *)
Theorem ProcessNotificationQueue_invalid_type (env : Env)
    (s : NotificationService) (queueType : string) (w : World) :
  ~ valid_queue_type queueType ->
  ProcessNotificationQueue env s queueType w
    = (Returns (Some ("invalid queue type: " +:+ queueType)), w) /\
  events_since w (ProcessNotificationQueue env s queueType w).2 = [].
Proof.
  intros H. unfold ProcessNotificationQueue, ProcessNotificationQueue_with.
  rewrite (select_client_invalid s queueType H). cbn.
  split; [done | apply events_since_refl].
Qed.

Lemma ProcessNotificationQueue_invalid_type_witness :
  ~ valid_queue_type "invalid" /\
  (ProcessNotificationQueue Examples.env_ok Examples.svc "invalid" Examples.w0
     = (Returns (Some ("invalid queue type: " +:+ "invalid")), Examples.w0) /\
   events_since Examples.w0
     (ProcessNotificationQueue Examples.env_ok Examples.svc "invalid"
        Examples.w0).2 = []).
Proof.
  assert (H : ~ valid_queue_type "invalid")
    by (intros [H | [H | H]]; discriminate H).
  split; [exact H|].
  exact (ProcessNotificationQueue_invalid_type Examples.env_ok Examples.svc
           "invalid" Examples.w0 H).
Defined.


(** The run of that case: the handler accepts the second message, the
    call panics on the first, and no delete is made. *)
Example ProcessNotificationQueue_nil_id_run :
  processMessage Examples.with_id "events" = Returns None /\
  (ProcessNotificationQueue Examples.env_nil_id Examples.svc "events"
     Examples.w0).1 = Panics nil_dereference /\
  deleted_handles "http://sqs/events"
    (events_since Examples.w0
       (ProcessNotificationQueue Examples.env_nil_id Examples.svc "events"
          Examples.w0).2) = [].
Proof. repeat split; vm_compute; reflexivity. Qed.



(** The case of the specification, run: three messages received, the
    handler fails on the second, the first and the third are deleted. *)
Example ProcessNotificationQueue_skips_failed :
  deleted_handles "http://sqs/events"
    (events_since Examples.w0
       (ProcessNotificationQueue_with Examples.env_ok Examples.svc
          Examples.fails_on_m2 "events" Examples.w0).2)
  = ["h1"; "h3"].
Proof. vm_compute. reflexivity. Qed.




(** The service's own processor on the three complete messages of the
    example queue, run: every one of them is deleted. *)
Example ProcessNotificationQueue_deletes_all_run :
  deleted_handles "http://sqs/reminders"
    (events_since Examples.w0
       (ProcessNotificationQueue Examples.env_ok Examples.svc "reminders"
          Examples.w0).2)
  = ["h1"; "h2"; "h3"].
Proof. vm_compute. reflexivity. Qed.

End ProcessorProps.

(* ------------------------------------------------------------------ *)
(** ** UpdateNotification *)

Module DbProps.

Import dynamodb db DbSpec.

Section WithEnv.

Context (env : Env).

(** Once the three locals are allocated the loop cannot panic. *)
Lemma UpdateNotification_loop_allocated entries :
  forall exprs names values,
  UpdateNotification_loop env entries
    (mkLocals (Some exprs) (Some names) (Some values))
  = Returns (mkLocals
               (Some (exprs ++ map (fun kv => action_of kv.1) entries))
               (Some (names_after entries names))
               (Some (values_after env entries values))).
Proof.
  induction entries as [|[key value] rest IH]; intros exprs names values.
  - cbn. by rewrite app_nil_r.
  - cbn [UpdateNotification_loop]. unfold UpdateNotification_step, db.append.
    cbn [updateExpressions expressionAttributeNames
         expressionAttributeValues map_assign db.append default].
    change (values_after env ((key, value) :: rest) values)
      with (values_after env rest (put_value env values (key, value))).
    unfold put_value at 1. cbn [fst snd].
    destruct (attribute_of env value) as [av|];
      cbn [map_assign]; rewrite IH, <- app_assoc; reflexivity.
Qed.

(** The first iteration allocates them. *)
Lemma UpdateNotification_loop_first entries :
  entries <> [] ->
  UpdateNotification_loop env entries (mkLocals None None None)
  = UpdateNotification_loop env entries (mkLocals (Some []) (Some ∅) (Some ∅)).
Proof. destruct entries as [|[key value] rest]; [done|]. reflexivity. Qed.

Lemma UpdateNotification_empty (notificationID : string) (w : World) :
  UpdateNotification env notificationID [] w = (Panics nil_map_panic, w).
Proof. reflexivity. Qed.

Lemma UpdateNotification_nonempty notificationID entries w :
  entries <> [] ->
  UpdateNotification env notificationID entries w
  = (Returns (Client_UpdateItem env
                (request_of env notificationID entries w)
                (time_Now env w).2).1,
     (Client_UpdateItem env (request_of env notificationID entries w)
        (time_Now env w).2).2).
Proof.
  intros Hne. unfold UpdateNotification.
  rewrite UpdateNotification_loop_first, UpdateNotification_loop_allocated
    by done.
  unfold db.append.
  cbn [updateExpressions expressionAttributeNames expressionAttributeValues
       map_assign default app].
  unfold bind, ret.
  destruct (time_Now env w) as [now w1] eqn:Hnow.
  cbn [map_assign].
  replace (AttributeValueMemberS (Format env time.RFC3339 now))
    with (update_timestamp env w)
    by (unfold update_timestamp; by rewrite Hnow).
  match goal with
  | |- (let (a, w') := ?c in _) = _ =>
      change c with (Client_UpdateItem env
                       (request_of env notificationID entries w) w1)
  end.
  cbn [snd].
  by destruct (Client_UpdateItem env
                 (request_of env notificationID entries w) w1).
Qed.

(** *** The maps the loop fills *)

Lemma name_placeholder_inj key key' :
  name_placeholder key = name_placeholder key' -> key = key'.
Proof.
  intros H. cbv [name_placeholder String.append] in H. by injection H.
Qed.

Lemma value_placeholder_inj key key' :
  value_placeholder key = value_placeholder key' -> key = key'.
Proof.
  intros H. cbv [value_placeholder String.append] in H. by injection H.
Qed.

Lemma names_after_keeps entries :
  forall names key,
  names !! name_placeholder key = Some key ->
  names_after entries names !! name_placeholder key = Some key.
Proof.
  induction entries as [|[k v] rest IH]; intros names key H; [done|].
  change (names_after ((k, v) :: rest) names)
    with (names_after rest (<[name_placeholder k := k]> names)).
  apply IH.
  destruct (decide (k = key)) as [->|Hne].
  - apply lookup_insert_eq.
  - rewrite lookup_insert_ne; [done|].
    intros E. by apply name_placeholder_inj in E.
Qed.

Lemma names_after_lookup entries :
  forall names key,
  key ∈ entries.*1 ->
  names_after entries names !! name_placeholder key = Some key.
Proof.
  induction entries as [|[k v] rest IH]; intros names key H.
  - by apply elem_of_nil in H.
  - cbn in H.
    change (names_after ((k, v) :: rest) names)
      with (names_after rest (<[name_placeholder k := k]> names)).
    apply elem_of_cons in H as [->|H].
    + apply names_after_keeps. apply lookup_insert_eq.
    + by apply IH.
Qed.

Lemma put_value_other values k v key :
  k <> key ->
  put_value env values (k, v) !! value_placeholder key
  = values !! value_placeholder key.
Proof.
  intros Hne. unfold put_value. cbn [fst snd].
  destruct (attribute_of env v); [|done].
  rewrite lookup_insert_ne; [done|].
  intros E. by apply value_placeholder_inj in E.
Qed.

Lemma values_after_absent entries :
  forall values key,
  key ∉ entries.*1 ->
  values_after env entries values !! value_placeholder key
  = values !! value_placeholder key.
Proof.
  induction entries as [|[k v] rest IH]; intros values key H; [done|].
  cbn in H. apply not_elem_of_cons in H as [Hne H].
  change (values_after env ((k, v) :: rest) values)
    with (values_after env rest (put_value env values (k, v))).
  rewrite IH by done. by apply put_value_other.
Qed.

Lemma values_after_lookup entries :
  forall values key value,
  NoDup entries.*1 ->
  (key, value) ∈ entries ->
  values_after env entries values !! value_placeholder key
  = match attribute_of env value with
    | Some av => Some av
    | None => values !! value_placeholder key
    end.
Proof.
  induction entries as [|[k v] rest IH]; intros values key value Hnd H.
  - by apply elem_of_nil in H.
  - cbn in Hnd. apply NoDup_cons in Hnd as [Hk Hnd].
    change (values_after env ((k, v) :: rest) values)
      with (values_after env rest (put_value env values (k, v))).
    apply elem_of_cons in H as [[= -> ->]|H].
    + rewrite values_after_absent by done.
      unfold put_value. cbn [fst snd].
      destruct (attribute_of env v); [apply lookup_insert_eq | done].
    + rewrite (IH _ key value) by done.
      destruct (attribute_of env value); [done|].
      apply put_value_other. intros ->.
      apply Hk. apply list_elem_of_fmap. by exists (key, value).
Qed.

(** *** The store *)

Lemma writes_absent (writes : list (string * AttributeValue)) :
  forall (item : Item) attr,
  attr ∉ writes.*1 ->
  foldl (fun item kv => <[kv.1 := kv.2]> item) item writes !! attr
  = item !! attr.
Proof.
  induction writes as [|[a v] rest IH]; intros item attr H; [done|].
  cbn in H. apply not_elem_of_cons in H as [Hne H].
  cbn [foldl fst snd]. rewrite IH by done. by apply lookup_insert_ne.
Qed.

Lemma writes_lookup (writes : list (string * AttributeValue)) :
  forall (item : Item) attr v,
  NoDup writes.*1 ->
  (attr, v) ∈ writes ->
  foldl (fun item kv => <[kv.1 := kv.2]> item) item writes !! attr = Some v.
Proof.
  induction writes as [|[a x] rest IH]; intros item attr v Hnd H.
  - by apply elem_of_nil in H.
  - cbn in Hnd. apply NoDup_cons in Hnd as [Ha Hnd]. cbn [foldl fst snd].
    apply elem_of_cons in H as [[= -> ->]|H].
    + rewrite writes_absent by done. apply lookup_insert_eq.
    + by apply IH.
Qed.

Lemma validate_UpdateItem_accepts input id writes :
  validate_UpdateItem input = inl (id, writes) ->
  key_id input = Some id /\ resolve_actions input = Some writes /\
  NoDup writes.*1.
Proof.
  unfold validate_UpdateItem.
  destruct (key_id input) as [id'|]; [|done].
  destruct (resolve_actions input) as [ws|]; [|done].
  repeat case_bool_decide; try done.
  by intros [= -> ->].
Qed.

Lemma Client_UpdateItem_does input w :
  trace (Client_UpdateItem env input w).2
    = trace w ++ [EvUpdateItem input (Client_UpdateItem env input w).1] /\
  ((Client_UpdateItem env input w).1 = None ->
   exists id writes,
     validate_UpdateItem input = inl (id, writes) /\
     notifications (Client_UpdateItem env input w).2
       = <[id := apply_writes id writes (notifications w !! id)]>
           (notifications w)).
Proof.
  unfold Client_UpdateItem, emit.
  destruct (validate_UpdateItem input) as [[id writes]|e]; [|done].
  destruct (dynamodb_refuses env (trace w) input); [done|].
  cbn. split; [done|]. intros _. by exists id, writes.
Qed.

Lemma time_Now_keeps w :
  trace (time_Now env w).2 = trace w /\
  notifications (time_Now env w).2 = notifications w.
Proof. done. Qed.

Lemma request_names notificationID entries w key :
  key = "updated_at" \/ key ∈ entries.*1 ->
  default ∅ (ExpressionAttributeNames
               (request_of env notificationID entries w))
    !! name_placeholder key = Some key.
Proof.
  intros H.
  change (default ∅ (ExpressionAttributeNames
                       (request_of env notificationID entries w)))
    with (<[name_placeholder "updated_at" := "updated_at"]>
            (names_after entries ∅)).
  destruct (decide (key = "updated_at")) as [->|Hne].
  - apply lookup_insert_eq.
  - destruct H as [H|H]; [done|].
    rewrite lookup_insert_ne; [by apply names_after_lookup|].
    intros E. by apply name_placeholder_inj in E.
Qed.

(** What an accepted request leaves in the table. *)
Lemma accepted_request_stored notificationID entries w writes
    (old : option Item) :
  NoDup entries.*1 ->
  resolve_actions (request_of env notificationID entries w) = Some writes ->
  NoDup writes.*1 ->
  apply_writes notificationID writes old !! "updated_at"
    = Some (update_timestamp env w) /\
  forall key value, (key, value) ∈ entries ->
    exists av, attribute_of env value = Some av /\
               apply_writes notificationID writes old !! key = Some av.
Proof.
  intros Hnd Hres Hw. unfold resolve_actions in Hres.
  apply mapM_Some in Hres. cbn [request_of UpdateExpression] in Hres.
  assert (Hlast : writes !! length entries
                  = Some ("updated_at", update_timestamp env w)).
  { destruct (Forall2_lookup_l _ _ _ (length entries)
                (action_of "updated_at") Hres) as (wr & Hwr & Hr).
    - rewrite lookup_app_r by (by rewrite length_fmap).
      by rewrite length_fmap, Nat.sub_diag.
    - rewrite Hwr. f_equal. unfold resolve_action in Hr.
      cbn [fst snd action_of] in Hr.
      rewrite (request_names notificationID entries w "updated_at") in Hr
        by (by left).
      change (default ∅ (ExpressionAttributeValues
                       (request_of env notificationID entries w)))
        with (<[value_placeholder "updated_at" := update_timestamp env w]>
                (values_after env entries ∅)) in Hr.
      rewrite lookup_insert_eq in Hr. by injection Hr as <-. }
  split.
  - apply writes_lookup; [done|].
    apply list_elem_of_lookup. by exists (length entries).
  - intros key value Hin.
    apply list_elem_of_lookup in Hin as [i Hi].
    destruct (Forall2_lookup_l _ _ _ i (action_of key) Hres)
      as (wr & Hwr & Hr).
    { rewrite lookup_app_l
        by (rewrite length_fmap; by eapply lookup_lt_Some).
      by rewrite list_lookup_fmap, Hi. }
    unfold resolve_action in Hr. cbn [fst snd action_of] in Hr.
    rewrite (request_names notificationID entries w key) in Hr.
    2:{ right. apply list_elem_of_fmap. exists (key, value).
        split; [done|]. apply list_elem_of_lookup. by exists i. }
    destruct (default ∅ (ExpressionAttributeValues
                       (request_of env notificationID entries w))
                !! value_placeholder key) as [av|] eqn:Hv; [|done].
    injection Hr as <-.
    assert (Hkey : key <> "updated_at").
    { intros ->.
      assert (i = length entries).
      { eapply (NoDup_lookup _ _ _ "updated_at" Hw).
        - by rewrite list_lookup_fmap, Hwr.
        - by rewrite list_lookup_fmap, Hlast. }
      apply lookup_lt_Some in Hi. lia. }
    change (default ∅ (ExpressionAttributeValues
                       (request_of env notificationID entries w)))
      with (<[value_placeholder "updated_at" := update_timestamp env w]>
              (values_after env entries ∅)) in Hv.
    rewrite lookup_insert_ne in Hv
      by (intros E; by apply value_placeholder_inj in E).
    rewrite (values_after_lookup entries ∅ key value) in Hv.
    2: done.
    2:{ apply list_elem_of_lookup. by exists i. }
    exists av. split.
    + by destruct (attribute_of env value).
    + apply writes_lookup; [done|].
      apply list_elem_of_lookup. by exists i.
Qed.

Lemma UpdateNotification_updates_item notificationID
    (updates : gmap string Value) entries w :
  entries ≡ₚ map_to_list updates ->
  updates <> ∅ ->
  updates_item env notificationID updates entries w.
Proof.
  intros Hp Hne.
  assert (Hentries : entries <> []).
  { intros ->. symmetry in Hp. apply Permutation_nil_r in Hp.
    by apply map_to_list_empty_iff in Hp. }
  assert (Hnd : NoDup entries.*1).
  { rewrite Hp. apply NoDup_fst_map_to_list. }
  assert (Hin : forall key value,
            updates !! key = Some value -> (key, value) ∈ entries).
  { intros key value H. rewrite Hp. by apply elem_of_map_to_list. }
  unfold updates_item. rewrite UpdateNotification_nonempty by done.
  cbn [fst snd].
  set (request := request_of env notificationID entries w).
  destruct (time_Now_keeps w) as [Htr Hnot].
  destruct (Client_UpdateItem_does request (time_Now env w).2)
    as [Htrace Hstore].
  rewrite Htr in Htrace. rewrite Hnot in Hstore.
  exists (Client_UpdateItem env request (time_Now env w).2).1.
  split; [done|]. split; [by apply events_since_app|].
  split; [apply last_snoc|].
  split; [apply request_names; by left|].
  split; [apply lookup_insert_eq|].
  split.
  - intros key value H. apply Hin in H. split.
    + cbn [request request_of UpdateExpression].
      apply elem_of_app. left. apply list_elem_of_fmap. by exists (key, value).
    + apply request_names. right. apply list_elem_of_fmap.
      by exists (key, value).
  - intros Hok. destruct (Hstore Hok) as (id & writes & Hval & Hnew).
    apply validate_UpdateItem_accepts in Hval as (Hid & Hres & Hw).
    assert (id = notificationID) as ->.
    { unfold key_id in Hid. cbn [request request_of Key] in Hid.
      rewrite lookup_singleton_eq in Hid. by injection Hid. }
    destruct (accepted_request_stored notificationID entries w writes
                (notifications w !! notificationID) Hnd Hres Hw)
      as [Hts Hfields].
    exists (apply_writes notificationID writes
              (notifications w !! notificationID)).
    split; [rewrite Hnew; apply lookup_insert_eq|].
    split; [done|].
    intros key value H. apply Hfields. by apply Hin.
Qed.

End WithEnv.

(** C10, as stated, fails on a non-empty [updates] whose value is a nil
    [*time.Time]: the type switch stores no value for the placeholder the
    expression uses, DynamoDB rejects the request, and the stored item
    keeps its old [updated_at]. *)
Lemma UpdateNotification_nil_time_not_stored :
  ~ stored_as_claimed Examples.env_ok "n1" Examples.nil_sent_at Examples.w0
      (UpdateNotification Examples.env_ok "n1"
         (map_to_list Examples.nil_sent_at) Examples.w0).2.
Proof.
  intros (item & Hitem & Hts & _).
  assert (Hold : notifications
                   (UpdateNotification Examples.env_ok "n1"
                      (map_to_list Examples.nil_sent_at) Examples.w0).2
                 !! "n1" = Some Examples.item_old)
    by (vm_compute; reflexivity).
  rewrite Hold in Hitem. injection Hitem as <-.
  assert (Hkept : Examples.item_old !! "updated_at"
                  = Some (AttributeValueMemberS "2020-01-01T00:00:00Z"))
    by (vm_compute; reflexivity).
  rewrite Hkept in Hts. vm_compute in Hts. discriminate Hts.
Qed.

(** The same call, run: it returns the error of the store and the table is
    as it was. *)
Example UpdateNotification_nil_time_rejected :
  let r := UpdateNotification Examples.env_ok "n1"
             (map_to_list Examples.nil_sent_at) Examples.w0 in
  r.1 = Returns (Some (ValidationException
           "An expression attribute used in expression is not defined")) /\
  notifications r.2 !! "n1" = Some Examples.item_old /\
  default ∅ (ExpressionAttributeValues
               (request_of Examples.env_ok "n1"
                  (map_to_list Examples.nil_sent_at) Examples.w0))
    !! value_placeholder "sent_at" = None.
Proof. cbv zeta. repeat apply conj; vm_compute; reflexivity. Qed.

(** C10 (amended): calling UpdateNotification with an empty updates map
    panics on the write of the updated_at name into the nil map, before
    anything is sent.  For every non-empty updates map the call does not
    panic: it sends one UpdateItem request whose SET clause ends with the
    updated_at action, with its name and the time of the call as its
    value, after one action per caller-supplied key; and whenever the
    store accepts that request (the call returns nil) the stored item has
    its updated_at rewritten and holds every caller-supplied field.
    [entries] is [updates] in the order [range] yields it. *)
Theorem UpdateNotification_empty_panics_else_updated_at (env : Env)
    (notificationID : string) (updates : gmap string Value)
    (entries : list (string * Value)) (w : World) :
  entries ≡ₚ map_to_list updates ->
  (updates = ∅ ->
   UpdateNotification env notificationID entries w
     = (Panics nil_map_panic, w)) /\
  (updates <> ∅ -> updates_item env notificationID updates entries w).
Proof.
  intros Hp. split.
  - intros ->. rewrite map_to_list_empty in Hp.
    apply Permutation_nil_r in Hp as ->. apply UpdateNotification_empty.
  - by apply UpdateNotification_updates_item.
Qed.

Lemma UpdateNotification_empty_panics_else_updated_at_witness :
  UpdateNotification Examples.env_ok "n1" [] Examples.w0
    = (Panics nil_map_panic, Examples.w0) /\
  updates_item Examples.env_ok "n1" Examples.mark_read
    (map_to_list Examples.mark_read) Examples.w0.
Proof.
  assert (P0 : @nil (string * Value) ≡ₚ map_to_list (∅ : gmap string Value))
    by (rewrite map_to_list_empty; reflexivity).
  assert (P1 : map_to_list Examples.mark_read
               ≡ₚ map_to_list Examples.mark_read) by reflexivity.
  split.
  - apply (proj1 (UpdateNotification_empty_panics_else_updated_at
                    Examples.env_ok "n1" ∅ [] Examples.w0 P0)).
    reflexivity.
  - apply (proj2 (UpdateNotification_empty_panics_else_updated_at
                    Examples.env_ok "n1" Examples.mark_read
                    (map_to_list Examples.mark_read) Examples.w0 P1)).
    apply map_non_empty_singleton.
Defined.

(** The update the HTTP handler sends for a status change, run: the item
    gets the new status and the time of the call. *)
Example UpdateNotification_mark_read :
  let r := UpdateNotification Examples.env_ok "n1"
             (map_to_list Examples.mark_read) Examples.w0 in
  r.1 = Returns None /\
  (notifications r.2 !! "n1") ≫= (fun item => item !! "status")
    = Some (AttributeValueMemberS "read") /\
  (notifications r.2 !! "n1") ≫= (fun item => item !! "updated_at")
    = Some (AttributeValueMemberS "2026-01-01T00:00:00Z") /\
  UpdateExpression_text
    (request_of Examples.env_ok "n1" (map_to_list Examples.mark_read)
       Examples.w0)
    = "SET #status = :status, #updated_at = :updated_at".
Proof. cbv zeta. repeat apply conj; vm_compute; reflexivity. Qed.

End DbProps.

(* ------------------------------------------------------------------ *)
(** ** Reminders and reservation notifications *)

Module ReservationProps.

Import model service reservation.

Ltac run_notification :=
  unfold SendReservationNotification, SendReminderMessage,
    sendEmailNotification, bind, ret, Client_SendMessage, Client_SendEmail,
    emit, uuid_New, time_Now;
  cbn [trace monotonic clock_reads uuids_drawn notifications fst snd
       ReservationID Priority rm_EventID rm_ReminderType reservation_message
       model.Recipient model.Subject model.Content].

Ltac settle_trace :=
  cbn [fst snd trace monotonic clock_reads uuids_drawn notifications];
  split; [reflexivity|];
  apply events_since_app; cbn [trace]; rewrite <- ?app_assoc; reflexivity.

(** X1: SendEventReminder makes exactly one call, a send to the reminders
    queue, and never sends an email; it returns the wrapped error of the
    queue, or nil. *)
Theorem SendEventReminder_enqueues_only (env : Env)
    (s : NotificationService) (req : EventNotification) (w : World) :
  events_since w (SendEventReminder env s req w).2
    = [EvSendMessage (reminder_enqueue env s req)
         (sqs_SendMessage env (trace w) (reminder_enqueue env s req))] /\
  (SendEventReminder env s req w).1
    = match sqs_SendMessage env (trace w) (reminder_enqueue env s req) with
      | Some e =>
          Some (Errorf_w "error sending reminder to queue: "
                  (Errorf_w "error sending reminder message: " e))
      | None => None
      end.
Proof.
  unfold SendEventReminder. run_notification.
  fold (reminder_enqueue env s req).
  destruct (sqs_SendMessage env (trace w) (reminder_enqueue env s req));
    cbn [fst snd trace]; (split; [|reflexivity]);
    apply events_since_app; reflexivity.
Qed.

(** X2: NotifyReservationConfirmed makes exactly one call, a send to the
    reservations queue, and never sends an email. *)
Theorem NotifyReservationConfirmed_enqueues_only (env : Env)
    (s : NotificationService) (req : ReservationNotification) (w : World) :
  let request :=
    reservation_enqueue env s req "reservation_confirmed_template" in
  events_since w (NotifyReservationConfirmed env s req w).2
    = [EvSendMessage request (sqs_SendMessage env (trace w) request)] /\
  (NotifyReservationConfirmed env s req w).1
    = match sqs_SendMessage env (trace w) request with
      | Some e =>
          Some (Errorf_w "error sending reservation confirmation to queue: "
                  (Errorf_w "error sending reservation notification: " e))
      | None => None
      end.
Proof.
  cbv zeta. unfold NotifyReservationConfirmed. run_notification.
  fold (reservation_enqueue env s req "reservation_confirmed_template").
  destruct (sqs_SendMessage env (trace w) _);
    cbn [fst snd trace]; (split; [|reflexivity]);
    apply events_since_app; reflexivity.
Qed.

(** X3: NotifyReservationCreated first sends to the reservations queue.  When
    the queue refuses, it returns the wrapped error and does nothing else.
    When the queue accepts, it sends one email to the recipient of the
    request and returns nil whatever SES answers. *)
Theorem NotifyReservationCreated_trace (env : Env)
    (s : NotificationService) (req : ReservationNotification) (w : World) :
  let request :=
    reservation_enqueue env s req "reservation_created_template" in
  let mail :=
    email (rv_Recipient req) ("Reserva Confirmada: " +:+ rv_EventName req)
      ("Tu reserva para el evento '" +:+ rv_EventName req +:+ "' el " +:+
       Format env "02/01/2006 15:04" (rv_EventDate req) +:+ " en " +:+
       rv_Location req +:+ " ha sido confirmada. ID de reserva: " +:+
       rv_ReservationID req) in
  match sqs_SendMessage env (trace w) request with
  | Some e =>
      (NotifyReservationCreated env s req w).1
        = Some (Errorf_w "error sending reservation notification to queue: "
                  (Errorf_w "error sending reservation notification: " e)) /\
      events_since w (NotifyReservationCreated env s req w).2
        = [EvSendMessage request (Some e)]
  | None =>
      (NotifyReservationCreated env s req w).1 = None /\
      events_since w (NotifyReservationCreated env s req w).2
        = [EvSendMessage request None;
           EvSendEmail mail
             (ses_SendEmail env (trace w ++ [EvSendMessage request None])
                mail)]
  end.
Proof.
  cbv zeta. unfold NotifyReservationCreated. run_notification.
  fold (reservation_enqueue env s req "reservation_created_template").
  destruct (sqs_SendMessage env (trace w) _) as [e|].
  - settle_trace.
  - unfold email.
    cbn [trace monotonic clock_reads uuids_drawn notifications].
    match goal with
    | |- context [ses_SendEmail env ?t ?i] =>
        destruct (ses_SendEmail env t i)
    end; settle_trace.
Qed.

(** X4: NotifyReservationCancelled first sends to the reservations queue.
    When the queue refuses, it returns the wrapped error and does nothing
    else.  When the queue accepts, it sends the cancellation email to the
    recipient of the request and returns nil whatever SES answers. *)
Theorem NotifyReservationCancelled_trace (env : Env)
    (s : NotificationService) (req : ReservationNotification) (w : World) :
  let request :=
    reservation_enqueue env s req "reservation_cancelled_template" in
  let mail :=
    email (rv_Recipient req) ("Reserva Cancelada: " +:+ rv_EventName req)
      ("Tu reserva para el evento '" +:+ rv_EventName req +:+ "' el " +:+
       Format env "02/01/2006 15:04" (rv_EventDate req) +:+ " en " +:+
       rv_Location req +:+ " ha sido cancelada. ID de reserva: " +:+
       rv_ReservationID req) in
  match sqs_SendMessage env (trace w) request with
  | Some e =>
      (NotifyReservationCancelled env s req w).1
        = Some (Errorf_w "error sending reservation cancellation to queue: "
                  (Errorf_w "error sending reservation notification: " e)) /\
      events_since w (NotifyReservationCancelled env s req w).2
        = [EvSendMessage request (Some e)]
  | None =>
      (NotifyReservationCancelled env s req w).1 = None /\
      events_since w (NotifyReservationCancelled env s req w).2
        = [EvSendMessage request None;
           EvSendEmail mail
             (ses_SendEmail env (trace w ++ [EvSendMessage request None])
                mail)]
  end.
Proof.
  cbv zeta. unfold NotifyReservationCancelled. run_notification.
  fold (reservation_enqueue env s req "reservation_cancelled_template").
  destruct (sqs_SendMessage env (trace w) _) as [e|].
  - settle_trace.
  - unfold email.
    cbn [trace monotonic clock_reads uuids_drawn notifications].
    match goal with
    | |- context [ses_SendEmail env ?t ?i] =>
        destruct (ses_SendEmail env t i)
    end; settle_trace.
Qed.

End ReservationProps.

(* ------------------------------------------------------------------ *)
(** ** More on SendNotification and SendBulkNotifications *)

Module SendMoreProps.

Import model service SendSpec Sequence.

Ltac run_send env req w :=
  unfold SendNotification, sendEmailNotification, bind, ret,
    Client_SendEmail, emit, uuid_New, time_Now;
  cbv zeta; cbn [Priority];
  destruct (decide (req_Priority req = EmptyString));
  cbn [with_Priority Priority Recipient Subject Content trace
       monotonic clock_reads uuids_drawn notifications];
  fold (email_of req);
  destruct (ses_SendEmail env (trace w) (email_of req));
  cbn [fst snd trace with_Status with_SentAt with_Priority
       monotonic clock_reads uuids_drawn notifications
       ID Type_ Status Priority Recipient Subject Content TemplateID Data
       SentAt ReadAt CreatedAt UpdatedAt time.mono time.wall].

(** X5: The lifecycle of the notification SendNotification returns: it is
    never left pending; sent_at is set exactly when the status is sent, and
    is then not earlier than updated_at; read_at is never set. *)
Theorem SendNotification_lifecycle (env : Env)
    (req : CreateNotificationRequest) (w : World) :
  Status (SendNotification env req w).1.1 <> NotificationStatusPending /\
  (SentAt (SendNotification env req w).1.1 <> None <->
   Status (SendNotification env req w).1.1 = NotificationStatusSent) /\
  (forall t, SentAt (SendNotification env req w).1.1 = Some t ->
             time.le (UpdatedAt (SendNotification env req w).1.1) t) /\
  ReadAt (SendNotification env req w).1.1 = None.
Proof.
  run_send env req w; repeat split; try done.
  all: intros t [= <-]; unfold time.le; cbn [time.mono]; lia.
Qed.

(** The notification carries the request unchanged: type, recipient,
    subject, content, template_id and data; its priority is the request's,
    or normal when the request has none, so it is never empty. *)
Lemma SendNotification_payload (env : Env)
    (req : CreateNotificationRequest) (w : World) :
  Type_ (SendNotification env req w).1.1 = req_Type req /\
  Recipient (SendNotification env req w).1.1 = req_Recipient req /\
  Subject (SendNotification env req w).1.1 = req_Subject req /\
  Content (SendNotification env req w).1.1 = req_Content req /\
  TemplateID (SendNotification env req w).1.1 = req_TemplateID req /\
  Data (SendNotification env req w).1.1 = req_Data req /\
  Priority (SendNotification env req w).1.1
    = (if decide (req_Priority req = EmptyString)
       then NotificationPriorityNormal else req_Priority req) /\
  Priority (SendNotification env req w).1.1 <> EmptyString.
Proof.
  run_send env req w; rewrite ?decide_True, ?decide_False by done;
    repeat split; done.
Qed.

Lemma SendNotification_valid_times (env : Env)
    (req : CreateNotificationRequest) (w : World) :
  time.le (CreatedAt (SendNotification env req w).1.1)
          (UpdatedAt (SendNotification env req w).1.1).
Proof. apply SendProps.SendNotification_does. Qed.

Lemma SendNotification_no_error (env : Env)
    (req : CreateNotificationRequest) (w : World) :
  (SendNotification env req w).1.2 = None.
Proof. run_send env req w; reflexivity. Qed.

Lemma SendBulkNotifications_loop_is_send_each (env : Env)
    (req : BulkNotificationRequest) (items : list CreateNotificationRequest) :
  forall ns errs w,
  SendBulkNotifications_loop env req items ns errs w
  = ((ns ++ (send_each env (map (overridden req) items) w).1, errs),
     (send_each env (map (overridden req) items) w).2).
Proof.
  induction items as [|item rest IH]; intros ns errs w.
  - cbn. by rewrite app_nil_r.
  - cbn [SendBulkNotifications_loop map send_each]. unfold bind.
    fold (overridden req item).
    pose proof (SendNotification_no_error env (overridden req item) w) as He.
    destruct (SendNotification env (overridden req item) w) as [[n e] w1].
    cbn [fst snd] in He |- *. subst e. rewrite IH.
    destruct (send_each env (map (overridden req) rest) w1) as [ns' w2].
    cbn [fst snd ret]. by rewrite <- app_assoc.
Qed.

(** X6: SendBulkNotifications is SendNotification applied to the items one
    after the other, each with the batch-level overrides, every call
    starting in the world the previous one left; the error is always nil.
    In particular an empty batch returns no notification and does
    nothing. *)
Theorem SendBulkNotifications_is_sequence (env : Env)
    (req : BulkNotificationRequest) (w : World) :
  SendBulkNotifications env req w
  = (((send_each env (map (overridden req) (bulk_Notifications req)) w).1,
      None),
     (send_each env (map (overridden req) (bulk_Notifications req)) w).2).
Proof.
  unfold SendBulkNotifications, bind, ret.
  by rewrite SendBulkNotifications_loop_is_send_each.
Qed.

(** The clock readings of one SendNotification lie, in order, between the
    reading the world had before and the one it has after. *)
Lemma SendNotification_readings (env : Env)
    (req : CreateNotificationRequest) (w : World) :
  (monotonic w <= reading (CreatedAt (SendNotification env req w).1.1)) /\
  (reading (UpdatedAt (SendNotification env req w).1.1)
     <= monotonic (SendNotification env req w).2) /\
  is_Some (time.mono (CreatedAt (SendNotification env req w).1.1)) /\
  is_Some (time.mono (UpdatedAt (SendNotification env req w).1.1)).
Proof.
  run_send env req w; unfold reading; cbn [time.mono default];
    repeat split; eauto; cbn; lia.
Qed.

Lemma send_each_readings (env : Env)
    (items : list CreateNotificationRequest) :
  forall w,
  monotonic w <= monotonic (send_each env items w).2 /\
  Forall (fun n =>
            monotonic w <= reading (CreatedAt n) /\
            reading (UpdatedAt n) <= monotonic (send_each env items w).2 /\
            is_Some (time.mono (CreatedAt n)) /\
            is_Some (time.mono (UpdatedAt n)))
         (send_each env items w).1 /\
  StronglySorted (fun a b => time.le (UpdatedAt a) (CreatedAt b))
    (send_each env items w).1.
Proof.
  induction items as [|item rest IH]; intros w.
  - cbn. repeat split; [lia | constructor | constructor].
  - cbn [send_each]. unfold bind.
    destruct (SendNotification_readings env item w) as (H1 & H2 & H3 & H4).
    pose proof (SendNotification_valid_times env item w) as H0.
    destruct (SendNotification env item w) as [[n e] w1].
    cbn [fst snd] in *.
    destruct (IH w1) as (I1 & I2 & I3).
    destruct (send_each env rest w1) as [ns w2].
    cbn [fst snd ret] in *.
    assert (Hcu : reading (CreatedAt n) <= reading (UpdatedAt n)).
    { destruct H3 as [c Hc], H4 as [u Hu]. unfold reading, time.le in *.
      rewrite Hc, Hu in *. exact H0. }
    split; [lia|]. split.
    + constructor; [repeat split; try done; lia|].
      eapply Forall_impl; [exact I2|].
      intros m (? & ? & ? & ?). repeat split; try done; lia.
    + constructor; [done|].
      eapply Forall_impl; [exact I2|].
      intros m (J1 & _ & [c Hc] & _).
      destruct H4 as [u Hu]. unfold reading, time.le in *.
      rewrite Hc, Hu in *. cbn in *. lia.
Qed.

(** X7: The notifications of a batch are stamped in batch order: each one is
    created no earlier than the one before it was last updated. *)
Theorem SendBulkNotifications_stamped_in_order (env : Env)
    (req : BulkNotificationRequest) (w : World) :
  StronglySorted (fun a b => time.le (UpdatedAt a) (CreatedAt b))
    (SendBulkNotifications env req w).1.1.
Proof.
  unfold SendBulkNotifications, bind, ret.
  rewrite SendBulkNotifications_loop_is_send_each. cbn [fst app].
  apply send_each_readings.
Qed.

End SendMoreProps.

(* ------------------------------------------------------------------ *)
(** ** UpdateNotification on well-formed updates *)

Module UpdateProps.

Import dynamodb db DbSpec UpdateSpec.

Section WithEnv.

Context (env : Env).

Lemma well_formed_spec entries :
  well_formed env entries = true ->
  NoDup entries.*1 /\ ("id" ∉ entries.*1) /\
  ("updated_at" ∉ entries.*1) /\
  Forall (fun kv => is_Some (attribute_of env kv.2)) entries.
Proof.
  unfold well_formed. rewrite !andb_true_iff, !bool_decide_eq_true.
  intros [[[Hnd Hid] Hup] Hall]. repeat split; try done.
  apply Forall_forall. intros kv Hin.
  rewrite forallb_forall in Hall.
  specialize (Hall kv). rewrite bool_decide_eq_true in Hall. apply Hall.
  by apply list_elem_of_In.
Qed.

Lemma field_writes_keys entries :
  Forall (fun kv => is_Some (attribute_of env kv.2)) entries ->
  (field_writes env entries).*1 = entries.*1.
Proof.
  induction 1 as [|[k v] rest [av Hav] _ IH]; [done|].
  cbn [snd] in Hav. unfold field_writes in *.
  cbn [omap list_omap fst snd]. rewrite Hav.
  cbn [fmap option_fmap option_map list_fmap fst]. by rewrite <- IH.
Qed.

(** Every action of the request resolves to the write of its entry. *)
Lemma resolve_each notificationID entries w (l : list (string * Value)) :
  NoDup entries.*1 ->
  "updated_at" ∉ entries.*1 ->
  Forall (fun kv => kv ∈ entries) l ->
  Forall (fun kv => is_Some (attribute_of env kv.2)) l ->
  Forall2 (fun a wr =>
             resolve_action (request_of env notificationID entries w) a
             = Some wr)
    (map (fun kv => action_of kv.1) l) (field_writes env l).
Proof.
  intros Hnd Hup.
  induction l as [|[k v] rest IH]; intros Hsub Hall; [constructor|].
  apply Forall_cons in Hsub as [Hin Hsub].
  apply Forall_cons in Hall as [[av Hav] Hall].
  cbn [snd] in Hav. unfold field_writes in *.
  cbn [map omap list_omap fst snd]. rewrite Hav.
  cbn [fmap option_fmap option_map].
  constructor; [|by apply IH].
  unfold resolve_action. cbn [fst snd action_of].
  rewrite (DbProps.request_names env notificationID entries w k).
  2:{ right. apply list_elem_of_fmap. by exists (k, v). }
  change (default ∅ (ExpressionAttributeValues
                       (request_of env notificationID entries w)))
    with (<[value_placeholder "updated_at" := update_timestamp env w]>
            (values_after env entries ∅)).
  assert (k <> "updated_at").
  { intros ->. apply Hup. apply list_elem_of_fmap.
    by exists ("updated_at", v). }
  rewrite lookup_insert_ne
    by (intros E; by apply DbProps.value_placeholder_inj in E).
  rewrite (DbProps.values_after_lookup env entries ∅ k v) by done.
  by rewrite Hav.
Qed.

Lemma resolve_actions_well_formed notificationID entries w :
  well_formed env entries = true ->
  resolve_actions (request_of env notificationID entries w)
  = Some (field_writes env entries
          ++ [("updated_at", update_timestamp env w)]).
Proof.
  intros (Hnd & Hid & Hup & Hall)%well_formed_spec.
  unfold resolve_actions. apply mapM_Some.
  cbn [request_of UpdateExpression].
  apply Forall2_app.
  - apply resolve_each; try done. apply Forall_forall; auto.
  - constructor; [|constructor].
    unfold resolve_action. cbn [fst snd action_of].
    rewrite (DbProps.request_names env notificationID entries w "updated_at")
      by (by left).
    change (default ∅ (ExpressionAttributeValues
                         (request_of env notificationID entries w)))
      with (<[value_placeholder "updated_at" := update_timestamp env w]>
              (values_after env entries ∅)).
    by rewrite lookup_insert_eq.
Qed.

Lemma validate_well_formed notificationID entries w :
  well_formed env entries = true ->
  validate_UpdateItem (request_of env notificationID entries w)
  = inl (notificationID,
         field_writes env entries ++ [("updated_at", update_timestamp env w)]).
Proof.
  intros Hwf. pose proof (well_formed_spec _ Hwf) as (Hnd & Hid & Hup & Hall).
  unfold validate_UpdateItem, key_id.
  cbn [request_of Key]. rewrite lookup_singleton_eq.
  change (resolve_actions _)
    with (resolve_actions (request_of env notificationID entries w)).
  rewrite resolve_actions_well_formed by done.
  rewrite fmap_app, field_writes_keys by done. cbn [fmap list_fmap fst].
  rewrite bool_decide_eq_false_2.
  2:{ intros [H|H]%elem_of_app; [done|].
      apply list_elem_of_singleton in H. discriminate H. }
  rewrite bool_decide_eq_true_2; [done|].
  apply NoDup_app. split; [done|]. split; [|apply NoDup_singleton].
  intros k Hk ->%list_elem_of_singleton. done.
Qed.

Lemma writes_as_union (writes : list (string * AttributeValue)) :
  forall base : gmap string AttributeValue,
  NoDup writes.*1 ->
  foldl (fun item kv => <[kv.1 := kv.2]> item) base writes
  = list_to_map writes ∪ base.
Proof.
  induction writes as [|[k v] rest IH]; intros base Hnd.
  - cbn. by rewrite (left_id_L ∅ (∪)).
  - cbn in Hnd. apply NoDup_cons in Hnd as [Hk Hnd].
    cbn [foldl fst snd]. rewrite IH by done.
    rewrite list_to_map_cons, <- insert_union_l. symmetry.
    apply insert_union_r.
    by apply not_elem_of_list_to_map.
Qed.

Lemma apply_writes_well_formed notificationID entries w old :
  well_formed env entries = true ->
  apply_writes notificationID
    (field_writes env entries ++ [("updated_at", update_timestamp env w)]) old
  = updated_item env notificationID entries w old.
Proof.
  intros (Hnd & Hid & Hup & Hall)%well_formed_spec.
  unfold apply_writes, updated_item. rewrite foldl_app. cbn [foldl fst snd].
  rewrite writes_as_union; [done|]. by rewrite field_writes_keys.
Qed.

(** A well-formed update fails only when the store refuses it, and then
    changes nothing; otherwise it replaces the item under the key by the
    merge of the caller's fields into what was stored, stamped with the
    time of the call, and leaves every other item alone. *)
Lemma UpdateNotification_merges notificationID entries w :
  entries <> [] ->
  well_formed env entries = true ->
  (UpdateNotification env notificationID entries w).1
    = Returns (dynamodb_refuses env (trace w)
                 (request_of env notificationID entries w)) /\
  notifications (UpdateNotification env notificationID entries w).2
    = match dynamodb_refuses env (trace w)
              (request_of env notificationID entries w) with
      | Some _ => notifications w
      | None =>
          <[notificationID :=
              updated_item env notificationID entries w
                (notifications w !! notificationID)]> (notifications w)
      end.
Proof.
  intros Hne Hwf. rewrite DbProps.UpdateNotification_nonempty by done.
  cbn [fst snd]. unfold Client_UpdateItem.
  rewrite validate_well_formed by done.
  destruct (DbProps.time_Now_keeps env w) as [-> ->].
  destruct (dynamodb_refuses env (trace w) _); cbn [fst snd emit notifications];
    [done|].
  by rewrite apply_writes_well_formed.
Qed.

End WithEnv.

(** X8: A well-formed update (distinct keys, none of them id or updated_at,
    no nil time pointer) fails only when the store refuses the request, and
    then changes nothing; otherwise the item under the key becomes the
    caller's fields merged over what was stored, with updated_at set to the
    time of the call. *)
Theorem UpdateNotification_well_formed_outcome (env : Env)
    (notificationID : string) (entries : list (string * Value)) (w : World) :
  entries <> [] ->
  well_formed env entries = true ->
  (UpdateNotification env notificationID entries w).1
    = Returns (dynamodb_refuses env (trace w)
                 (request_of env notificationID entries w)) /\
  notifications (UpdateNotification env notificationID entries w).2
    = match dynamodb_refuses env (trace w)
              (request_of env notificationID entries w) with
      | Some _ => notifications w
      | None =>
          <[notificationID :=
              updated_item env notificationID entries w
                (notifications w !! notificationID)]> (notifications w)
      end.
Proof. apply UpdateNotification_merges. Qed.

Lemma UpdateNotification_well_formed_outcome_witness :
  (UpdateNotification Examples.env_ok "n1" MoreExamples.status_read
     Examples.w0).1
    = Returns (dynamodb_refuses Examples.env_ok (trace Examples.w0)
                 (request_of Examples.env_ok "n1" MoreExamples.status_read
                    Examples.w0)) /\
  notifications (UpdateNotification Examples.env_ok "n1"
                   MoreExamples.status_read Examples.w0).2
    = match dynamodb_refuses Examples.env_ok (trace Examples.w0)
              (request_of Examples.env_ok "n1" MoreExamples.status_read
                 Examples.w0) with
      | Some _ => notifications Examples.w0
      | None =>
          <["n1" :=
              updated_item Examples.env_ok "n1" MoreExamples.status_read
                Examples.w0 (notifications Examples.w0 !! "n1")]>
            (notifications Examples.w0)
      end.
Proof.
  apply (UpdateNotification_well_formed_outcome Examples.env_ok "n1"
           MoreExamples.status_read Examples.w0).
  - discriminate.
  - reflexivity.
Defined.

(** X9: An accepted well-formed update leaves alone every attribute of the
    item it does not name, and every other item of the table. *)
Theorem UpdateNotification_frame (env : Env) (notificationID : string)
    (entries : list (string * Value)) (w : World) (old : Item)
    (attr : string) :
  entries <> [] ->
  well_formed env entries = true ->
  dynamodb_refuses env (trace w) (request_of env notificationID entries w)
    = None ->
  notifications w !! notificationID = Some old ->
  attr ∉ entries.*1 ->
  attr <> "updated_at" ->
  (notifications (UpdateNotification env notificationID entries w).2
     !! notificationID) ≫= (fun item => item !! attr) = old !! attr /\
  (forall other, other <> notificationID ->
     notifications (UpdateNotification env notificationID entries w).2
       !! other = notifications w !! other).
Proof.
  intros Hne Hwf Hok Hold Hattr Hup.
  destruct (UpdateNotification_merges env notificationID entries w Hne Hwf)
    as [_ ->].
  rewrite Hok, Hold. split.
  - rewrite lookup_insert_eq. cbn [mbind option_bind].
    unfold updated_item, Item in *. cbn [default id].
    rewrite lookup_insert_ne by done.
    apply lookup_union_r. apply not_elem_of_list_to_map.
    apply well_formed_spec in Hwf as (_ & _ & _ & Hall).
    by rewrite field_writes_keys.
  - intros other Hother. by rewrite lookup_insert_ne.
Qed.

Lemma UpdateNotification_frame_witness :
  (notifications (UpdateNotification Examples.env_ok "n1"
                    MoreExamples.status_read Examples.w0).2
     !! "n1") ≫= (fun item => item !! "id") = Examples.item_old !! "id" /\
  (forall other, other <> "n1" ->
     notifications (UpdateNotification Examples.env_ok "n1"
                      MoreExamples.status_read Examples.w0).2
       !! other = notifications Examples.w0 !! other).
Proof.
  apply (UpdateNotification_frame Examples.env_ok "n1"
           MoreExamples.status_read Examples.w0 Examples.item_old "id").
  - discriminate.
  - reflexivity.
  - reflexivity.
  - vm_compute. reflexivity.
  - intros H. apply list_elem_of_singleton in H. discriminate H.
  - discriminate.
Defined.

(** X10: UpdateNotification does not require the notification to exist: an
    accepted well-formed update of an id that is not in the table returns
    nil and creates an item that holds the id, the caller's fields and
    updated_at, and nothing else. *)
Theorem UpdateNotification_creates_missing (env : Env)
    (notificationID : string) (entries : list (string * Value)) (w : World) :
  entries <> [] ->
  well_formed env entries = true ->
  dynamodb_refuses env (trace w) (request_of env notificationID entries w)
    = None ->
  notifications w !! notificationID = None ->
  (UpdateNotification env notificationID entries w).1 = Returns None /\
  exists item,
    notifications (UpdateNotification env notificationID entries w).2
      !! notificationID = Some item /\
    item !! "id" = Some (AttributeValueMemberS notificationID) /\
    item !! "updated_at" = Some (update_timestamp env w) /\
    (forall attr, attr ∉ entries.*1 -> attr <> "id" ->
       attr <> "updated_at" -> item !! attr = None).
Proof.
  intros Hne Hwf Hok Hnone.
  destruct (UpdateNotification_merges env notificationID entries w Hne Hwf)
    as [-> ->].
  rewrite Hok, Hnone. split; [done|].
  apply well_formed_spec in Hwf as (_ & Hid & _ & Hall).
  eexists. split; [apply lookup_insert_eq|].
  unfold updated_item, Item in *. cbn [default].
  split; [|split; [apply lookup_insert_eq|]].
  - rewrite lookup_insert_ne by done.
    rewrite lookup_union_r
      by (apply not_elem_of_list_to_map; by rewrite field_writes_keys).
    apply lookup_singleton_eq.
  - intros attr Hattr Hi Hu. rewrite lookup_insert_ne by done.
    rewrite lookup_union_r
      by (apply not_elem_of_list_to_map; by rewrite field_writes_keys).
    by apply lookup_singleton_ne.
Qed.

Lemma UpdateNotification_creates_missing_witness :
  (UpdateNotification Examples.env_ok "n2" MoreExamples.status_read
     Examples.w0).1 = Returns None /\
  exists item,
    notifications (UpdateNotification Examples.env_ok "n2"
                     MoreExamples.status_read Examples.w0).2
      !! "n2" = Some item /\
    item !! "id" = Some (AttributeValueMemberS "n2") /\
    item !! "updated_at" = Some (update_timestamp Examples.env_ok Examples.w0) /\
    (forall attr, attr ∉ MoreExamples.status_read.*1 -> attr <> "id" ->
       attr <> "updated_at" -> item !! attr = None).
Proof.
  apply (UpdateNotification_creates_missing Examples.env_ok "n2"
           MoreExamples.status_read Examples.w0).
  - discriminate.
  - reflexivity.
  - reflexivity.
  - vm_compute. reflexivity.
Defined.

Lemma fields_over_updated (fields base : gmap string AttributeValue)
    (ts : AttributeValue) :
  fields !! "updated_at" = None ->
  fields ∪ <["updated_at" := ts]> (fields ∪ base)
  = <["updated_at" := ts]> (fields ∪ base).
Proof.
  intros Hf. rewrite <- insert_union_r by done.
  by rewrite (assoc_L (∪)), (idemp_L (∪)).
Qed.

(** X11: Repeating an accepted well-formed update with the same fields changes
    nothing but updated_at: the second call leaves the item the first one
    stored, stamped with the time of the second call. *)
Theorem UpdateNotification_twice (env : Env) (notificationID : string)
    (entries : list (string * Value)) (w : World) :
  entries <> [] ->
  well_formed env entries = true ->
  dynamodb_refuses env (trace w) (request_of env notificationID entries w)
    = None ->
  dynamodb_refuses env
    (trace (UpdateNotification env notificationID entries w).2)
    (request_of env notificationID entries
       (UpdateNotification env notificationID entries w).2) = None ->
  (UpdateNotification env notificationID entries
     (UpdateNotification env notificationID entries w).2).1 = Returns None /\
  exists item,
    notifications (UpdateNotification env notificationID entries w).2
      !! notificationID = Some item /\
    notifications
      (UpdateNotification env notificationID entries
         (UpdateNotification env notificationID entries w).2).2
    = <[notificationID :=
          <["updated_at" :=
              update_timestamp env
                (UpdateNotification env notificationID entries w).2]> item]>
        (notifications (UpdateNotification env notificationID entries w).2).
Proof.
  intros Hne Hwf Hok1 Hok2.
  set (w1 := (UpdateNotification env notificationID entries w).2) in *.
  destruct (UpdateNotification_merges env notificationID entries w1 Hne Hwf)
    as [-> ->].
  rewrite Hok2. split; [done|].
  destruct (UpdateNotification_merges env notificationID entries w Hne Hwf)
    as [_ H1].
  fold w1 in H1. rewrite Hok1 in H1.
  exists (updated_item env notificationID entries w
            (notifications w !! notificationID)).
  split; [rewrite H1; apply lookup_insert_eq|].
  f_equal. rewrite H1 at 1. rewrite lookup_insert_eq.
  unfold updated_item, Item in *. cbn [default id]. f_equal.
  apply fields_over_updated. apply not_elem_of_list_to_map.
  apply well_formed_spec in Hwf as (_ & _ & Hup & Hall).
  by rewrite field_writes_keys.
Qed.

Lemma UpdateNotification_twice_witness :
  (UpdateNotification Examples.env_ok "n1" MoreExamples.status_read
     (UpdateNotification Examples.env_ok "n1" MoreExamples.status_read
        Examples.w0).2).1 = Returns None /\
  exists item,
    notifications (UpdateNotification Examples.env_ok "n1"
                     MoreExamples.status_read Examples.w0).2
      !! "n1" = Some item /\
    notifications
      (UpdateNotification Examples.env_ok "n1" MoreExamples.status_read
         (UpdateNotification Examples.env_ok "n1" MoreExamples.status_read
            Examples.w0).2).2
    = <["n1" :=
          <["updated_at" :=
              update_timestamp Examples.env_ok
                (UpdateNotification Examples.env_ok "n1"
                   MoreExamples.status_read Examples.w0).2]> item]>
        (notifications (UpdateNotification Examples.env_ok "n1"
                          MoreExamples.status_read Examples.w0).2).
Proof.
  apply (UpdateNotification_twice Examples.env_ok "n1"
           MoreExamples.status_read Examples.w0).
  - discriminate.
  - reflexivity.
  - reflexivity.
  - reflexivity.
Defined.

End UpdateProps.

(* ------------------------------------------------------------------ *)
(** ** Saving, reading and deleting notifications *)

Module StoreProps.

Import model dynamodb dbstore.

Section WithEnv.

Context (env : Env) (lib : Lib) (store : Store).

Ltac item_cases n :=
  unfold notification_item;
  destruct (SentAt n), (ReadAt n), (Data n) as [data|];
  try (destruct (decide (data = ∅))).

(** What SaveNotification stores under each attribute it always writes. *)
Lemma notification_item_strings (n : Notification) :
  string_at (notification_item env lib n) "id" = Some (uuid.String (ID n)) /\
  string_at (notification_item env lib n) "type" = Some (model.Type_ n) /\
  string_at (notification_item env lib n) "status" = Some (Status n) /\
  string_at (notification_item env lib n) "priority" = Some (Priority n) /\
  string_at (notification_item env lib n) "recipient" = Some (Recipient n) /\
  string_at (notification_item env lib n) "subject" = Some (Subject n) /\
  string_at (notification_item env lib n) "content" = Some (Content n) /\
  string_at (notification_item env lib n) "template_id"
    = Some (TemplateID n) /\
  string_at (notification_item env lib n) "created_at"
    = Some (Format env time.RFC3339 (CreatedAt n)) /\
  string_at (notification_item env lib n) "updated_at"
    = Some (Format env time.RFC3339 (UpdatedAt n)).
Proof.
  unfold string_at, Item. item_cases n; cbv zeta;
    repeat split; by simplify_map_eq.
Qed.

Lemma notification_item_times (n : Notification) :
  string_at (notification_item env lib n) "sent_at"
    = Format env time.RFC3339 <$> SentAt n /\
  string_at (notification_item env lib n) "read_at"
    = Format env time.RFC3339 <$> ReadAt n.
Proof.
  unfold string_at, Item. item_cases n; cbv zeta;
    repeat split; by simplify_map_eq.
Qed.

Lemma unmarshal_notification_item_eq (n : Notification) id c u :
  uuid_Parse lib (uuid.String (ID n)) = inl id ->
  time_Parse lib time.RFC3339 (Format env time.RFC3339 (CreatedAt n))
    = inl c ->
  time_Parse lib time.RFC3339 (Format env time.RFC3339 (UpdatedAt n))
    = inl u ->
  unmarshalNotification lib (notification_item env lib n)
  = inl (mkNotification id (model.Type_ n) (Status n) (Priority n)
           (Recipient n) (Subject n) (Content n) (TemplateID n) None
           (StoreSpec.reread env lib (SentAt n))
           (StoreSpec.reread env lib (ReadAt n)) c u).
Proof.
  intros Hid Hc Hu.
  destruct (notification_item_strings n)
    as (E1 & E2 & E3 & E4 & E5 & E6 & E7 & E8 & E9 & E10).
  destruct (notification_item_times n) as [T1 T2].
  unfold unmarshalNotification, optional_time.
  rewrite E1, E2, E3, E4, E5, E6, E7, E8, E9, E10, T1, T2, Hid, Hc, Hu.
  cbn [default]. unfold StoreSpec.reread.
  by destruct (SentAt n), (ReadAt n).
Qed.

Lemma unmarshal_sent_at (item : Item) (a : AttributeValue) :
  unmarshalNotification lib (<["sent_at" := a]> item)
  = StoreSpec.with_sent_at
      (optional_time lib (<["sent_at" := a]> item) "sent_at")
      (unmarshalNotification lib item).
Proof.
  unfold unmarshalNotification, StoreSpec.with_sent_at.
  assert (H : forall k, k <> "sent_at" ->
            string_at (<["sent_at" := a]> item) k = string_at item k).
  { intros k Hk. unfold string_at, Item in *. by rewrite lookup_insert_ne. }
  assert (Hr : optional_time lib (<["sent_at" := a]> item) "read_at"
               = optional_time lib item "read_at").
  { unfold optional_time. by rewrite H. }
  rewrite !H, Hr by done.
  destruct (string_at item "id") as [v|];
    [destruct (uuid_Parse lib v); [|done]|];
    (destruct (string_at item "created_at") as [v1|];
     [destruct (time_Parse lib time.RFC3339 v1); [|done]|]);
    (destruct (string_at item "updated_at") as [v2|];
     [destruct (time_Parse lib time.RFC3339 v2); [|done]|]);
    reflexivity.
Qed.

Lemma unmarshal_without_keys (item : Item) :
  string_at item "id" = None ->
  string_at item "created_at" = None ->
  string_at item "updated_at" = None ->
  exists n,
    unmarshalNotification lib item = inl n /\ ID n = uuid.Nil /\
    CreatedAt n = zero_Time lib /\ UpdatedAt n = zero_Time lib.
Proof.
  intros H1 H2 H3. unfold unmarshalNotification. rewrite H1, H2, H3.
  eexists. by repeat split.
Qed.

Lemma SaveNotification_run (n : Notification) (w : World) :
  SaveNotification env lib store n w
  = match PutItem_refuses store w (notification_item env lib n) with
    | Some e => (Some (Errorf_plain lib (save_error_message e)), w)
    | None =>
        (None,
         set_notifications
           (<[uuid.String (ID n) := notification_item env lib n]>
              (notifications w)) w)
    end.
Proof.
  unfold SaveNotification, bind, ret, Client_PutItem.
  destruct (PutItem_refuses store w _); [done|].
  destruct (notification_item_strings n) as (E1 & _).
  unfold string_at in E1.
  destruct (notification_item env lib n !! "id") as [[v|b]|]; try done.
  by injection E1 as ->.
Qed.

End WithEnv.

(** X12: Reading back what SaveNotification wrote: when the id and the two
    mandatory timestamps parse, unmarshalNotification returns the saved
    type, status, priority, recipient, subject, content and template_id
    unchanged, the parsed id and timestamps, sent_at and read_at when they
    parse, and no data bag, whatever data was saved. *)
Theorem unmarshal_saved_notification (env : Env) (lib : Lib)
    (n : Notification) (id : uuid.UUID) (c u : time.Time) :
  uuid_Parse lib (uuid.String (ID n)) = inl id ->
  time_Parse lib time.RFC3339 (Format env time.RFC3339 (CreatedAt n))
    = inl c ->
  time_Parse lib time.RFC3339 (Format env time.RFC3339 (UpdatedAt n))
    = inl u ->
  unmarshalNotification lib (notification_item env lib n)
  = inl (mkNotification id (model.Type_ n) (Status n) (Priority n)
           (Recipient n) (Subject n) (Content n) (TemplateID n) None
           (StoreSpec.reread env lib (SentAt n))
           (StoreSpec.reread env lib (ReadAt n)) c u).
Proof. apply unmarshal_notification_item_eq. Qed.

Lemma unmarshal_saved_notification_witness :
  unmarshalNotification StoreExamples.lib_ok
    (notification_item Examples.env_ok StoreExamples.lib_ok
       StoreExamples.sent)
  = inl (mkNotification (replicate 16 7%Z) "welcome" "sent" "normal"
           "ana@example.org" "Hola" "Bienvenida" "tpl" None
           (StoreSpec.reread Examples.env_ok StoreExamples.lib_ok
              (SentAt StoreExamples.sent))
           (StoreSpec.reread Examples.env_ok StoreExamples.lib_ok
              (ReadAt StoreExamples.sent))
           (time.mkTime 1767225600 None) (time.mkTime 1767225600 None)).
Proof.
  apply (unmarshal_saved_notification Examples.env_ok StoreExamples.lib_ok
           StoreExamples.sent (replicate 16 7%Z)
           (time.mkTime 1767225600 None) (time.mkTime 1767225600 None));
    reflexivity.
Defined.

(** X13: An item with no string under id, created_at and updated_at is not an
    error: unmarshalNotification returns a notification with the nil UUID
    and the zero time in their place. *)
Theorem unmarshal_missing_keys (lib : Lib) (item : Item) :
  string_at item "id" = None ->
  string_at item "created_at" = None ->
  string_at item "updated_at" = None ->
  exists n,
    unmarshalNotification lib item = inl n /\ ID n = uuid.Nil /\
    CreatedAt n = zero_Time lib /\ UpdatedAt n = zero_Time lib.
Proof. apply unmarshal_without_keys. Qed.

Lemma unmarshal_missing_keys_witness :
  exists n,
    unmarshalNotification StoreExamples.lib_ok
      (<["id" := AttributeValueMemberBOOL true]> ∅) = inl n /\
    ID n = uuid.Nil /\
    CreatedAt n = zero_Time StoreExamples.lib_ok /\
    UpdatedAt n = zero_Time StoreExamples.lib_ok.
Proof.
  apply (unmarshal_missing_keys StoreExamples.lib_ok
           (<["id" := AttributeValueMemberBOOL true]> ∅)); reflexivity.
Defined.

(** X14: The sent_at attribute never decides whether an item can be read:
    whatever is stored under it, unmarshalNotification fails or succeeds as
    it does on the rest of the item, with the same error or with a
    notification that differs in SentAt only. *)
Theorem unmarshal_ignores_bad_sent_at (lib : Lib) (item : Item)
    (a : AttributeValue) :
  unmarshalNotification lib (<["sent_at" := a]> item)
  = StoreSpec.with_sent_at
      (optional_time lib (<["sent_at" := a]> item) "sent_at")
      (unmarshalNotification lib item).
Proof. apply unmarshal_sent_at. Qed.

End StoreProps.

(* ------------------------------------------------------------------ *)
(** ** Templates: the variables list *)

Module TemplateProps.

Import model dynamodb dbstore templates.

Lemma prefix_empty (s : string) : String.prefix EmptyString s = true.
Proof. by destruct s. Qed.

Lemma no_comma_cons (c : ascii) (rest : string) :
  gostrings.Contains (String c rest) "," = false ->
  String.prefix "," (String c rest) = false /\
  gostrings.Contains rest "," = false.
Proof.
  cbn [gostrings.Contains]. intros H.
  by apply orb_false_iff in H.
Qed.

Lemma split_piece (v : string) :
  gostrings.Contains v "," = false ->
  gostrings.split_from "," 0 v = [v].
Proof.
  induction v as [|c rest IH]; [done|].
  intros [Hp Hr]%no_comma_cons.
  cbn [gostrings.split_from]. rewrite Hp, IH by done. reflexivity.
Qed.

Lemma split_first (v t : string) :
  gostrings.Contains v "," = false ->
  gostrings.split_from "," 0 (v +:+ "," +:+ t)
  = v :: gostrings.split_from "," 0 t.
Proof.
  induction v as [|c rest IH].
  { intros _. change (EmptyString +:+ "," +:+ t) with (String "," t).
    cbn [gostrings.split_from String.prefix].
    destruct (ascii_dec "," ","); [|done]. by rewrite prefix_empty. }
  intros [Hp Hr]%no_comma_cons.
  change (String c rest +:+ "," +:+ t)
    with (String c (rest +:+ "," +:+ t)).
  cbn [gostrings.split_from].
  assert (Hp' : String.prefix "," (String c (rest +:+ "," +:+ t)) = false).
  { cbn [String.prefix] in Hp |- *. destruct (ascii_dec "," c); [|done].
    by rewrite prefix_empty in Hp. }
  rewrite Hp', IH by done. reflexivity.
Qed.

(** Joining names with commas and splitting at commas gives the names
    back, when there is at least one name and none contains a comma. *)
Lemma Split_Join (names : list string) :
  names <> [] ->
  comma_free names = true ->
  gostrings.Split (Join names ",") "," = names.
Proof.
  unfold gostrings.Split. rewrite decide_False by done.
  induction names as [|v rest IH]; [done|]. intros _ Hfree.
  cbn [comma_free forallb] in Hfree.
  apply andb_true_iff in Hfree as [Hv Hrest]. apply negb_true_iff in Hv.
  destruct rest as [|v' rest'].
  - cbn [Join]. by apply split_piece.
  - change (Join (v :: v' :: rest') ",")
      with (v +:+ "," +:+ Join (v' :: rest') ",").
    rewrite split_first by done. f_equal. by apply IH.
Qed.

(** X15: Reading back a saved template: when the id and the two timestamps
    parse and no variable name contains a comma, the template read back
    has the saved name, type, subject, content, active flag and the same
    list of variables. *)
Theorem unmarshal_saved_template (env : Env) (lib : Lib)
    (t : NotificationTemplate) (id : uuid.UUID) (c u : time.Time) :
  comma_free (Variables t) = true ->
  uuid_Parse lib (uuid.String (tpl_ID t)) = inl id ->
  time_Parse lib time.RFC3339 (Format env time.RFC3339 (tpl_CreatedAt t))
    = inl c ->
  time_Parse lib time.RFC3339 (Format env time.RFC3339 (tpl_UpdatedAt t))
    = inl u ->
  unmarshalNotificationTemplate lib (template_item env t)
  = inl (mkNotificationTemplate id (Name t) (tpl_Type t) (tpl_Subject t)
           (tpl_Content t) (Variables t) (IsActive t) c u).
Proof.
  intros Hfree Hid Hc Hu.
  assert (Hvars : match string_at (template_item env t) "variables" with
                  | Some v => gostrings.Split v ","
                  | None => []
                  end = Variables t).
  { unfold template_item, string_at, Item.
    destruct (Variables t) as [|v rest] eqn:Hv; cbv zeta.
    - by simplify_map_eq.
    - simplify_map_eq. apply (Split_Join (v :: rest)); [done | exact Hfree]. }
  unfold unmarshalNotificationTemplate. rewrite Hvars. clear Hvars.
  unfold template_item, string_at, Item.
  destruct (Variables t); cbv zeta; simplify_map_eq;
    rewrite Hid, Hc, Hu; reflexivity.
Qed.

Lemma unmarshal_saved_template_witness :
  unmarshalNotificationTemplate StoreExamples.lib_ok
    (template_item Examples.env_ok TemplateExamples.reminder_template)
  = inl (mkNotificationTemplate (replicate 16 7%Z) "reminder"
           "event_reminder" "Recordatorio" "Hola" ["name"; "event"; "date"]
           true (time.mkTime 1767225600 None) (time.mkTime 1767225600 None)).
Proof.
  apply (unmarshal_saved_template Examples.env_ok StoreExamples.lib_ok
           TemplateExamples.reminder_template (replicate 16 7%Z)
           (time.mkTime 1767225600 None) (time.mkTime 1767225600 None));
    reflexivity.
Defined.

(** A variable name with a comma does not survive: it is read back as
    two names. *)
Example Split_Join_comma :
  gostrings.Split (Join ["a,b"; "c"] ",") "," = ["a"; "b"; "c"].
Proof. reflexivity. Qed.

End TemplateProps.

(* ------------------------------------------------------------------ *)
(** ** The table: save, read, delete, list *)

Module TableProps.

Import model dynamodb dbstore.

Lemma unmarshal_all_does (lib : Lib) (items : list Item) :
  forall acc,
  match unmarshal_all lib items acc with
  | inl ns =>
      exists ns', ns = acc ++ ns' /\
        Forall2 (fun item n => unmarshalNotification lib item = inl n)
          items ns'
  | inr err =>
      exists good bad rest,
        items = good ++ bad :: rest /\
        Forall (fun item => exists n, unmarshalNotification lib item = inl n)
          good /\
        unmarshalNotification lib bad = inr err
  end.
Proof.
  induction items as [|item rest IH]; intros acc.
  - cbn. exists []. by rewrite app_nil_r.
  - cbn [unmarshal_all].
    destruct (unmarshalNotification lib item) as [n|err] eqn:Hitem.
    + specialize (IH (acc ++ [n])).
      destruct (unmarshal_all lib rest (acc ++ [n])) as [ns|err].
      * destruct IH as (ns' & -> & F). exists (n :: ns').
        rewrite <- app_assoc. split; [done|]. by constructor.
      * destruct IH as (good & bad & rest' & -> & F & Hbad).
        exists (item :: good), bad, rest'. split; [done|].
        split; [|done]. constructor; [by exists n | done].
    + exists [], item, rest. by repeat split.
Qed.

(** X16: A notification that was saved is read back from what was stored:
    when the store accepts the write and the read, SaveNotification
    returns nil and GetNotificationByID on the text of its id returns
    what unmarshalNotification makes of the stored item. *)
Theorem Save_then_Get (env : Env) (lib : Lib) (store : Store)
    (n : Notification) (w : World) :
  PutItem_refuses store w (notification_item env lib n) = None ->
  GetItem_refuses store (SaveNotification env lib store n w).2
    (uuid.String (ID n)) = None ->
  (SaveNotification env lib store n w).1 = None /\
  (GetNotificationByID lib store (uuid.String (ID n))
     (SaveNotification env lib store n w).2).1
  = unmarshalNotification lib (notification_item env lib n).
Proof.
  intros Hput. rewrite StoreProps.SaveNotification_run, Hput. cbn [fst snd].
  intros Hget. split; [done|].
  unfold GetNotificationByID, bind, ret, Client_GetItem. rewrite Hget.
  cbn [set_notifications notifications]. by rewrite lookup_insert_eq.
Qed.

Lemma Save_then_Get_witness :
  (SaveNotification Examples.env_ok StoreExamples.lib_ok
     StoreExamples.store_ok StoreExamples.sent Examples.w0).1 = None /\
  (GetNotificationByID StoreExamples.lib_ok StoreExamples.store_ok
     (uuid.String (ID StoreExamples.sent))
     (SaveNotification Examples.env_ok StoreExamples.lib_ok
        StoreExamples.store_ok StoreExamples.sent Examples.w0).2).1
  = unmarshalNotification StoreExamples.lib_ok
      (notification_item Examples.env_ok StoreExamples.lib_ok
         StoreExamples.sent).
Proof.
  apply (Save_then_Get Examples.env_ok StoreExamples.lib_ok
           StoreExamples.store_ok StoreExamples.sent Examples.w0);
    reflexivity.
Defined.

(** X17: After an accepted DeleteNotification, which returns nil whether or
    not the id was stored, an accepted GetNotificationByID of that id
    reports "notification not found"; the other items stay. *)
Theorem Delete_then_Get (lib : Lib) (store : Store) (id : string)
    (w : World) :
  DeleteItem_refuses store w id = None ->
  GetItem_refuses store (DeleteNotification store id w).2 id = None ->
  (DeleteNotification store id w).1 = None /\
  (GetNotificationByID lib store id (DeleteNotification store id w).2).1
    = inr "notification not found" /\
  (forall other, other <> id ->
     notifications (DeleteNotification store id w).2 !! other
     = notifications w !! other).
Proof.
  unfold DeleteNotification, Client_DeleteItem. intros ->. cbn [fst snd].
  intros Hget. split; [done|]. split.
  - unfold GetNotificationByID, bind, ret, Client_GetItem. rewrite Hget.
    cbn [set_notifications notifications]. by rewrite lookup_delete_eq.
  - intros other Hne. cbn [set_notifications notifications].
    by rewrite lookup_delete_ne.
Qed.

Lemma Delete_then_Get_witness :
  (DeleteNotification StoreExamples.store_ok "n1" Examples.w0).1 = None /\
  (GetNotificationByID StoreExamples.lib_ok StoreExamples.store_ok "n1"
     (DeleteNotification StoreExamples.store_ok "n1" Examples.w0).2).1
    = inr "notification not found" /\
  (forall other, other <> "n1" ->
     notifications (DeleteNotification StoreExamples.store_ok "n1"
                      Examples.w0).2 !! other
     = notifications Examples.w0 !! other).
Proof.
  apply (Delete_then_Get StoreExamples.lib_ok StoreExamples.store_ok "n1"
           Examples.w0); reflexivity.
Defined.

(** X18: GetNotifications is all or nothing: it changes nothing, passes on
    the error of the scan, and otherwise returns either one notification
    per scanned item, in order, or the error of the first item that does
    not unmarshal. *)
Theorem GetNotifications_all_or_nothing (lib : Lib) (store : Store)
    (recipient notificationType : string) (limit : Z) (w : World) :
  (GetNotifications lib store recipient notificationType limit w).2 = w /\
  match Scan_answers store w (scan_input recipient notificationType limit),
        (GetNotifications lib store recipient notificationType limit w).1
  with
  | inr err, r => r = inr err
  | inl items, inl ns =>
      Forall2 (fun item n => unmarshalNotification lib item = inl n) items ns
  | inl items, inr err =>
      exists good bad rest,
        items = good ++ bad :: rest /\
        Forall (fun item => exists n, unmarshalNotification lib item = inl n)
          good /\
        unmarshalNotification lib bad = inr err
  end.
Proof.
  unfold GetNotifications.
  destruct (Scan_answers store w _) as [items|err]; cbn [fst snd];
    [|done].
  split; [done|].
  pose proof (unmarshal_all_does lib items []) as H.
  destruct (unmarshal_all lib items []) as [ns|err]; [|done].
  by destruct H as (ns' & -> & F).
Qed.

End TableProps.

(* ------------------------------------------------------------------ *)
(** ** The HTTP handlers *)

Module HandlerProps.

Import model dynamodb dbstore SendSpec QueueSpec handler.

Lemma limit_of_range (limitStr : string) : 1 <= limit_of limitStr <= 100.
Proof.
  unfold limit_of. case_decide; [lia|].
  destruct (strconv.Atoi limitStr) as [l|]; [|lia].
  destruct ((0 <? l) && (l <=? 100)) eqn:E; [|lia].
  apply andb_true_iff in E as [?%Z.ltb_lt ?%Z.leb_le]. lia.
Qed.

Lemma scan_input_Limit (recipient notificationType : string) (limit : Z) :
  Limit (scan_input recipient notificationType limit) = int32 limit.
Proof.
  unfold scan_input. by repeat case_decide.
Qed.

Lemma int32_small (n : Z) : 1 <= n <= 100 -> int32 n = n.
Proof.
  intros H. unfold int32. rewrite Z.mod_small; lia.
Qed.

Lemma limit_of_Atoi (limitStr : string) :
  limit_of limitStr
  = match strconv.Atoi limitStr with
    | Some l => if (0 <? l) && (l <=? 100) then l else 50
    | None => 50
    end.
Proof. unfold limit_of. case_decide as H; [by rewrite H | done]. Qed.

(** X19: Whatever the limit parameter of the query, ListNotifications asks
    the scan for between 1 and 100 items: the number given when it is a
    decimal number from 1 to 100, and 50 when it is absent, not a number
    or out of that range; the conversion to int32 never changes it.  It
    changes nothing in the world, and answers 200 exactly when
    GetNotifications returns a list. *)
Theorem ListNotifications_limit (lib : Lib) (store : Store)
    (recipient notificationType limitStr : string) (w : World) :
  1 <= Limit (scan_input recipient notificationType (limit_of limitStr))
    <= 100 /\
  (forall l, strconv.Atoi limitStr = Some l -> 1 <= l <= 100 ->
     Limit (scan_input recipient notificationType (limit_of limitStr)) = l) /\
  (strconv.Atoi limitStr = None \/
   (exists l, strconv.Atoi limitStr = Some l /\ (l < 1 \/ 100 < l)) ->
     Limit (scan_input recipient notificationType (limit_of limitStr))
     = 50) /\
  (ListNotifications lib store recipient notificationType limitStr w).2 = w /\
  ((ListNotifications lib store recipient notificationType limitStr w).1
     = success StatusOK <->
   exists ns,
     (GetNotifications lib store recipient notificationType
        (limit_of limitStr) w).1 = inl ns).
Proof.
  rewrite scan_input_Limit, int32_small by apply limit_of_range.
  split; [apply limit_of_range|]. split; [|split].
  - intros l Hl Hrange. rewrite limit_of_Atoi, Hl.
    destruct (0 <? l) eqn:E1; [|apply Z.ltb_ge in E1; lia].
    destruct (l <=? 100) eqn:E2; [done | apply Z.leb_gt in E2; lia].
  - rewrite limit_of_Atoi. intros [-> | (l & -> & Hout)]; [done|].
    destruct (0 <? l) eqn:E1; [|done].
    destruct (l <=? 100) eqn:E2; [|done].
    apply Z.ltb_lt in E1. apply Z.leb_le in E2. lia.
  - unfold ListNotifications, bind, ret, GetNotifications.
    destruct (Scan_answers store w _) as [items|err]; cbn [fst snd].
    + destruct (unmarshal_all lib items []) as [ns|err]; cbn [fst snd].
      * split; [done|]. split; [by exists ns | done].
      * split; [done|]. split; [done | by intros [ns ?]].
    + split; [done|]. split; [done | by intros [ns ?]].
Qed.

Lemma ListNotifications_limit_witness :
  strconv.Atoi "25" = Some 25 /\
  Limit (scan_input "ana@example.org" EmptyString (limit_of "25")) = 25.
Proof.
  assert (H : strconv.Atoi "25" = Some 25) by reflexivity.
  split; [exact H|].
  apply (proj1 (proj2 (ListNotifications_limit StoreExamples.lib_ok
                         StoreExamples.store_ok "ana@example.org"
                         EmptyString "25" Examples.w0)) 25 H).
  lia.
Defined.

(** The limit chosen for some query parameters. *)
Example limit_of_cases :
  map limit_of [EmptyString; "1"; "100"; "7"; "0"; "101"; "-5"; "abc"; "2x"]
  = [50; 1; 100; 7; 50; 50; 50; 50; 50].
Proof. reflexivity. Qed.

Lemma validTypes_valid (queueType : string) :
  default false (validTypes !! queueType) = true <->
  valid_queue_type queueType.
Proof.
  unfold validTypes, valid_queue_type.
  destruct (decide (queueType = "events")) as [->|H1];
    [by split; [left|]|].
  destruct (decide (queueType = "reservations")) as [->|H2];
    [by split; [right; left|]|].
  destruct (decide (queueType = "reminders")) as [->|H3];
    [by split; [right; right|]|].
  rewrite !lookup_insert_ne, lookup_empty by done. cbn.
  split; [done | by intros [?|[?|?]]].
Qed.

(** X20: The queue handler answers 400 and does nothing exactly for the
    queue types the service would refuse, so the service's own
    invalid-type error is never seen through it.  For events,
    reservations and reminders it answers 500, with the wrapped error of
    the poll, when the poll of the selected queue failed; when the poll
    succeeded it never answers an error: it answers 200 when every
    received message carries its MessageId, ReceiptHandle and Body, and
    otherwise answers 200 or panics with the service. *)
Theorem ProcessNotificationQueue_handler_status (env : Env)
    (s : service.NotificationService) (queueType : string) (w : World) :
  (~ valid_queue_type queueType ->
     exists response,
       ProcessNotificationQueue env s queueType w = (Returns response, w) /\
       StatusCode response = StatusBadRequest) /\
  (valid_queue_type queueType ->
     exists client,
       service.select_client s queueType = Some client /\
       match received env client w with
       | inl msgs =>
           (Forall complete msgs ->
            (ProcessNotificationQueue env s queueType w).1
            = Returns (success StatusOK)) /\
           (forall response,
              (ProcessNotificationQueue env s queueType w).1
              = Returns response ->
              response = success StatusOK)
       | inr e =>
           (ProcessNotificationQueue env s queueType w).1
           = Returns
               (failure StatusInternalServerError
                  "Error procesando cola de notificaciones"
                  (Some (Errorf_w "error receiving messages: "
                           (Errorf_w "error receiving SQS messages: " e))))
       end).
Proof.
  split.
  - intros Hinv. unfold ProcessNotificationQueue.
    case_decide; [by eexists|].
    destruct (default false (validTypes !! queueType)) eqn:E;
      [|by eexists].
    by apply validTypes_valid in E.
  - intros Hv.
    destruct (ProcessorProps.select_client_valid s queueType Hv)
      as [client Hc].
    exists client. split; [done|].
    unfold ProcessNotificationQueue.
    rewrite decide_False
      by (intros ->; by destruct Hv as [?|[?|?]]).
    rewrite (proj2 (validTypes_valid queueType) Hv). cbn [negb].
    unfold bind, service.ProcessNotificationQueue.
    destruct (ProcessorProps.ProcessNotificationQueue_with_does env s
                service.processMessage queueType client w Hc)
      as (dels & _ & H).
    pose proof (ProcessorProps.ProcessNotificationQueue_with_polled env s
                  service.processMessage queueType client w) as Hp.
    destruct (service.ProcessNotificationQueue_with env s
                service.processMessage queueType w) as [r w1].
    cbn [fst snd] in *.
    destruct (received env client w) as [msgs|e].
    + split.
      * intros Hall.
        destruct (H (ProcessorProps.complete_sound_batch queueType msgs Hall))
          as [_ ->].
        done.
      * intros response.
        destruct (Hp msgs Hc eq_refl) as [-> | [msg ->]]; cbn [fst ret].
        -- by intros [= <-].
        -- done.
    + destruct H as [_ ->]. done.
Qed.

Lemma ProcessNotificationQueue_handler_status_witness :
  (~ valid_queue_type "invalid" /\
   exists response,
     ProcessNotificationQueue Examples.env_ok Examples.svc "invalid"
       Examples.w0 = (Returns response, Examples.w0) /\
     StatusCode response = StatusBadRequest) /\
  (valid_queue_type "events" /\
   exists client,
     service.select_client Examples.svc "events" = Some client /\
     match received Examples.env_ok client Examples.w0 with
     | inl msgs =>
         (Forall complete msgs ->
          (ProcessNotificationQueue Examples.env_ok Examples.svc "events"
             Examples.w0).1 = Returns (success StatusOK)) /\
         (forall response,
            (ProcessNotificationQueue Examples.env_ok Examples.svc "events"
               Examples.w0).1 = Returns response ->
            response = success StatusOK)
     | inr e =>
         (ProcessNotificationQueue Examples.env_ok Examples.svc "events"
            Examples.w0).1
         = Returns
             (failure StatusInternalServerError
                "Error procesando cola de notificaciones"
                (Some (Errorf_w "error receiving messages: "
                         (Errorf_w "error receiving SQS messages: " e))))
     end).
Proof.
  assert (Hinv : ~ valid_queue_type "invalid")
    by (intros [H|[H|H]]; discriminate H).
  assert (Hv : valid_queue_type "events") by (left; reflexivity).
  split.
  - split; [exact Hinv|].
    exact (proj1 (ProcessNotificationQueue_handler_status Examples.env_ok
                    Examples.svc "invalid" Examples.w0) Hinv).
  - split; [exact Hv|].
    exact (proj2 (ProcessNotificationQueue_handler_status Examples.env_ok
                    Examples.svc "events" Examples.w0) Hv).
Defined.

(** The handler on the three complete messages of the example queue,
    run: it answers 200. *)
Example ProcessNotificationQueue_handler_run :
  (ProcessNotificationQueue Examples.env_ok Examples.svc "events"
     Examples.w0).1 = Returns (success StatusOK).
Proof. vm_compute. reflexivity. Qed.

(** X21: GetNotification answers 404 when the store holds nothing under the
    id, and also when the store refuses the read with an error whose
    text contains "not found"; the world stays as it was. *)
Theorem GetNotification_not_found (lib : Lib) (store : Store)
    (notificationID : string) (w : World) :
  notificationID <> EmptyString ->
  (GetItem_refuses store w notificationID = None /\
   notifications w !! notificationID = None) \/
  (exists e, GetItem_refuses store w notificationID = Some e /\
             gostrings.Contains e "not found" = true) ->
  GetNotification lib store notificationID w
  = (failure StatusNotFound "Notificación no encontrada" None, w).
Proof.
  intros Hid H. unfold GetNotification. rewrite decide_False by done.
  unfold bind, GetNotificationByID, bind, ret, Client_GetItem.
  destruct H as [[-> ->]|(e & -> & He)]; cbn [fst snd].
  - reflexivity.
  - by rewrite He.
Qed.

Lemma GetNotification_not_found_witness :
  GetNotification StoreExamples.lib_ok StoreExamples.store_ok "missing"
    Examples.w0
  = (failure StatusNotFound "Notificación no encontrada" None, Examples.w0).
Proof.
  apply (GetNotification_not_found StoreExamples.lib_ok
           StoreExamples.store_ok "missing" Examples.w0).
  - discriminate.
  - left. split; reflexivity.
Defined.

Lemma SendNotification_keeps_table (env : Env)
    (req : CreateNotificationRequest) (w : World) :
  notifications (service.SendNotification env req w).2 = notifications w.
Proof. SendMoreProps.run_send env req w; reflexivity. Qed.

(** X22: The send handler answers 400, and nothing is sent or stored, when
    the body does not bind or a required field is empty.  For every
    other request it answers 201, never 500: exactly one email is
    attempted, whether or not it is accepted, and the notification is
    stored under its id unless the store refuses the write. *)
Theorem SendNotification_handler_outcome (env : Env) (lib : Lib)
    (store : Store) (body : CreateNotificationRequest + error) (w : World) :
  match body with
  | inr err =>
      SendNotification env lib store body w
      = (failure StatusBadRequest "Datos de notificación inválidos"
           (Some err), w)
  | inl req =>
      if service.valid_request req
      then
        let sent := service.SendNotification env req w in
        (SendNotification env lib store body w).1 = success StatusCreated /\
        events_since w (SendNotification env lib store body w).2
        = [EvSendEmail (email_of req)
             (ses_SendEmail env (trace w) (email_of req))] /\
        notifications (SendNotification env lib store body w).2
        = match PutItem_refuses store sent.2
                  (notification_item env lib sent.1.1) with
          | Some _ => notifications w
          | None =>
              <[uuid.String (ID sent.1.1) :=
                  notification_item env lib sent.1.1]> (notifications w)
          end
      else
        SendNotification env lib store body w
        = (failure StatusBadRequest
             "Recipient, subject y content son campos requeridos" None, w)
  end.
Proof.
  destruct body as [req|err]; [|done].
  unfold SendNotification.
  destruct (service.valid_request req); cbn [negb]; [|done].
  cbv zeta. unfold bind.
  pose proof (SendProps.SendNotification_does env req w) as Hpost.
  pose proof (SendNotification_keeps_table env req w) as Htable.
  destruct (service.SendNotification env req w) as [[n e] w1].
  cbn [fst snd] in *. destruct Hpost as [-> Htr _ _ _ _ _ _].
  rewrite StoreProps.SaveNotification_run.
  destruct (PutItem_refuses store w1 (notification_item env lib n));
    cbn [fst snd ret set_notifications trace notifications];
    rewrite ?Htable; (split; [done|]);
    (split; [by apply events_since_app | done]).
Qed.

Lemma updates_of_lookup (env : Env) (req : UpdateNotificationRequest)
    (k : string) (v : db.Value) :
  updates_of req !! k = Some v ->
  (k = "status" \/ k = "sent_at" \/ k = "read_at") /\
  is_Some (db.attribute_of env v).
Proof.
  unfold updates_of.
  destruct (upd_Status req), (upd_SentAt req), (upd_ReadAt req);
    rewrite ?lookup_insert_Some, ?lookup_empty; intros H;
    repeat match goal with
           | H : _ \/ _ |- _ => destruct H as [[<- <-]|[_ H]]
           end;
    try done; split; cbn; eauto.
Qed.

Lemma updates_of_well_formed (env : Env) (req : UpdateNotificationRequest)
    (entries : list (string * db.Value)) :
  entries ≡ₚ map_to_list (updates_of req) ->
  UpdateSpec.well_formed env entries = true.
Proof.
  intros Hperm.
  assert (Hin : forall k v, (k, v) ∈ entries -> updates_of req !! k = Some v).
  { intros k v Hkv. rewrite Hperm in Hkv.
    by apply elem_of_map_to_list in Hkv. }
  assert (Hkeys : forall k, k ∈ entries.*1 ->
            k = "status" \/ k = "sent_at" \/ k = "read_at").
  { intros k ([k' v] & -> & Hkv)%list_elem_of_fmap.
    by destruct (updates_of_lookup env req _ _ (Hin _ _ Hkv)). }
  unfold UpdateSpec.well_formed.
  rewrite !andb_true_iff, !bool_decide_eq_true. repeat split.
  - rewrite Hperm. apply NoDup_fst_map_to_list.
  - intros H. by destruct (Hkeys _ H) as [?|[?|?]].
  - intros H. by destruct (Hkeys _ H) as [?|[?|?]].
  - apply forallb_forall. intros [k v] Hkv%list_elem_of_In.
    apply bool_decide_eq_true.
    by destruct (updates_of_lookup env req _ _ (Hin _ _ Hkv)).
Qed.

Lemma updates_of_empty (req : UpdateNotificationRequest) :
  size (updates_of req) = 0%nat <->
  upd_Status req = None /\ upd_SentAt req = None /\ upd_ReadAt req = None.
Proof.
  rewrite map_size_empty_iff. unfold updates_of.
  destruct (upd_Status req), (upd_SentAt req), (upd_ReadAt req);
    split; try done; try (by intros (? & ? & ?));
    intros H; by apply insert_non_empty in H.
Qed.

Section WithRange.

Context (env : Env).
Context (range : gmap string db.Value -> list (string * db.Value)).
Hypothesis range_enumerates : forall m, range m ≡ₚ map_to_list m.

Lemma range_nonempty (m : gmap string db.Value) :
  size m <> 0%nat -> range m <> [].
Proof.
  intros Hsize Hnil. apply Hsize. apply map_size_empty_iff.
  apply map_to_list_empty_iff. apply Permutation_nil_r.
  by rewrite <- range_enumerates, Hnil.
Qed.

Lemma UpdateNotification_handler_runs (notificationID : string)
    (req : UpdateNotificationRequest) (w : World) :
  notificationID <> EmptyString ->
  size (updates_of req) <> 0%nat ->
  (UpdateNotification env range notificationID (inl req) w).1
    = Returns
        match dynamodb_refuses env (trace w)
                (DbSpec.request_of env notificationID
                   (range (updates_of req)) w) with
        | Some err =>
            failure StatusInternalServerError
              "Error actualizando notificación" (Some err)
        | None => success StatusOK
        end /\
  notifications (UpdateNotification env range notificationID (inl req) w).2
    = match dynamodb_refuses env (trace w)
              (DbSpec.request_of env notificationID
                 (range (updates_of req)) w) with
      | Some _ => notifications w
      | None =>
          <[notificationID :=
              UpdateSpec.updated_item env notificationID
                (range (updates_of req)) w
                (notifications w !! notificationID)]> (notifications w)
      end.
Proof.
  intros Hid Hsize. unfold UpdateNotification.
  rewrite !decide_False by done. cbv zeta. unfold bind.
  destruct (UpdateProps.UpdateNotification_merges env notificationID
              (range (updates_of req)) w) as [Hres Htable].
  { by apply range_nonempty. }
  { by apply (updates_of_well_formed env req). }
  destruct (db.UpdateNotification env notificationID
              (range (updates_of req)) w) as [r w1].
  cbn [fst snd] in *. subst r.
  destruct (dynamodb_refuses env (trace w) _); cbn [fst snd ret]; done.
Qed.

End WithRange.

(** X23: The update handler never panics, whatever the id and the body: a
    request that names no field is answered 400 before the store code,
    which panics on an empty map, is reached.  Every 400 answer leaves
    the world as it was. *)
Theorem UpdateNotification_handler_never_panics (env : Env)
    (range : gmap string db.Value -> list (string * db.Value))
    (notificationID : string) (body : UpdateNotificationRequest + error)
    (w : World) :
  (forall m, range m ≡ₚ map_to_list m) ->
  exists response,
    (UpdateNotification env range notificationID body w).1
      = Returns response /\
    (StatusCode response = StatusBadRequest ->
     (UpdateNotification env range notificationID body w).2 = w) /\
    (StatusCode response = StatusBadRequest <->
     notificationID = EmptyString \/
     match body with
     | inr _ => True
     | inl req =>
         upd_Status req = None /\ upd_SentAt req = None /\
         upd_ReadAt req = None
     end).
Proof.
  intros Hrange.
  destruct (decide (notificationID = EmptyString)) as [Hid|Hid].
  { unfold UpdateNotification. rewrite decide_True by done.
    eexists. split; [done|]. split; [done|]. split; [by left | done]. }
  destruct body as [req|err].
  2:{ unfold UpdateNotification. rewrite decide_False by done.
      eexists. split; [done|]. split; [done|]. split; [by right | done]. }
  destruct (decide (size (updates_of req) = 0%nat)) as [Hsize|Hsize].
  { unfold UpdateNotification. rewrite decide_False, decide_True by done.
    eexists. split; [done|]. split; [done|].
    split; [right; by apply (proj1 (updates_of_empty req)) | done]. }
  destruct (UpdateNotification_handler_runs env range Hrange notificationID
              req w Hid Hsize) as [-> _].
  eexists. split; [done|].
  assert (Hno : ~ (upd_Status req = None /\ upd_SentAt req = None /\
                   upd_ReadAt req = None))
    by (by rewrite <- updates_of_empty).
  destruct (dynamodb_refuses env (trace w) _); cbn [StatusCode failure success];
    (split; [done|]); (split; [done | by intros [?|?]]).
Qed.

Lemma UpdateNotification_handler_never_panics_witness :
  exists response,
    (UpdateNotification Examples.env_ok map_to_list "n1"
       (inl (mkUpdateNotificationRequest None None None)) Examples.w0).1
      = Returns response /\
    (StatusCode response = StatusBadRequest ->
     (UpdateNotification Examples.env_ok map_to_list "n1"
        (inl (mkUpdateNotificationRequest None None None)) Examples.w0).2
       = Examples.w0) /\
    (StatusCode response = StatusBadRequest <->
     "n1" = EmptyString \/
     (@None NotificationStatus = None /\ @None time.Time = None /\
      @None time.Time = None)).
Proof.
  apply (UpdateNotification_handler_never_panics Examples.env_ok map_to_list
           "n1" (inl (mkUpdateNotificationRequest None None None))
           Examples.w0).
  intros m. reflexivity.
Defined.

(** X24: An update that names an id and at least one field is answered 200
    unless the store refuses it, and 500 with the store's error when it
    does; when accepted, the item under the id becomes the named fields
    merged over what was stored, stamped with the time of the call. *)
Theorem UpdateNotification_handler_outcome (env : Env)
    (range : gmap string db.Value -> list (string * db.Value))
    (notificationID : string) (req : UpdateNotificationRequest)
    (w : World) :
  (forall m, range m ≡ₚ map_to_list m) ->
  notificationID <> EmptyString ->
  upd_Status req <> None \/ upd_SentAt req <> None \/
    upd_ReadAt req <> None ->
  (UpdateNotification env range notificationID (inl req) w).1
    = Returns
        match dynamodb_refuses env (trace w)
                (DbSpec.request_of env notificationID
                   (range (updates_of req)) w) with
        | Some err =>
            failure StatusInternalServerError
              "Error actualizando notificación" (Some err)
        | None => success StatusOK
        end /\
  notifications (UpdateNotification env range notificationID (inl req) w).2
    = match dynamodb_refuses env (trace w)
              (DbSpec.request_of env notificationID
                 (range (updates_of req)) w) with
      | Some _ => notifications w
      | None =>
          <[notificationID :=
              UpdateSpec.updated_item env notificationID
                (range (updates_of req)) w
                (notifications w !! notificationID)]> (notifications w)
      end.
Proof.
  intros Hrange Hid Hfield.
  apply UpdateNotification_handler_runs; [done | done |].
  rewrite updates_of_empty. intros (? & ? & ?).
  by destruct Hfield as [?|[?|?]].
Qed.

Lemma UpdateNotification_handler_outcome_witness :
  (UpdateNotification Examples.env_ok map_to_list "n1"
     (inl (mkUpdateNotificationRequest (Some "read") None None))
     Examples.w0).1
    = Returns
        match dynamodb_refuses Examples.env_ok (trace Examples.w0)
                (DbSpec.request_of Examples.env_ok "n1"
                   (map_to_list
                      (updates_of
                         (mkUpdateNotificationRequest (Some "read") None
                            None))) Examples.w0) with
        | Some err =>
            failure StatusInternalServerError
              "Error actualizando notificación" (Some err)
        | None => success StatusOK
        end /\
  notifications
    (UpdateNotification Examples.env_ok map_to_list "n1"
       (inl (mkUpdateNotificationRequest (Some "read") None None))
       Examples.w0).2
    = match dynamodb_refuses Examples.env_ok (trace Examples.w0)
              (DbSpec.request_of Examples.env_ok "n1"
                 (map_to_list
                    (updates_of
                       (mkUpdateNotificationRequest (Some "read") None
                          None))) Examples.w0) with
      | Some _ => notifications Examples.w0
      | None =>
          <["n1" :=
              UpdateSpec.updated_item Examples.env_ok "n1"
                (map_to_list
                   (updates_of
                      (mkUpdateNotificationRequest (Some "read") None None)))
                Examples.w0 (notifications Examples.w0 !! "n1")]>
            (notifications Examples.w0)
      end.
Proof.
  apply (UpdateNotification_handler_outcome Examples.env_ok map_to_list "n1"
           (mkUpdateNotificationRequest (Some "read") None None)
           Examples.w0).
  - intros m. reflexivity.
  - discriminate.
  - left. discriminate.
Defined.

Lemma save_each_keeps_trace (env : Env) (lib : Lib) (store : Store)
    (ns : list Notification) :
  forall w, trace (save_each env lib store ns w).2 = trace w.
Proof.
  induction ns as [|n rest IH]; intros w; [done|].
  cbn [save_each]. unfold bind. rewrite StoreProps.SaveNotification_run.
  destruct (PutItem_refuses store w (notification_item env lib n));
    cbn [fst snd]; by rewrite IH.
Qed.

(** X25: The bulk handler answers 400, and nothing is sent or stored, only
    when the body does not bind or the batch is empty.  Every other
    batch is answered 201 after exactly one email send per item, in the
    order of the batch: unlike the single send, no item is checked for
    its recipient, subject or content, and no refusal of SES or of the
    store changes the answer. *)
Theorem SendBulkNotifications_handler_outcome (env : Env) (lib : Lib)
    (store : Store) (body : BulkNotificationRequest + error) (w : World) :
  match body with
  | inr err =>
      SendBulkNotifications env lib store body w
      = (failure StatusBadRequest "Datos de notificaciones inválidos"
           (Some err), w)
  | inl req =>
      match bulk_Notifications req with
      | [] =>
          SendBulkNotifications env lib store body w
          = (failure StatusBadRequest
               "Debe especificar al menos una notificación" None, w)
      | _ :: _ =>
          (SendBulkNotifications env lib store body w).1
            = success StatusCreated /\
          Forall2 is_send_of
            (events_since w (SendBulkNotifications env lib store body w).2)
            (bulk_Notifications req)
      end
  end.
Proof.
  destruct body as [req|err]; [|done].
  unfold SendBulkNotifications.
  destruct (bulk_Notifications req) as [|item rest] eqn:Hitems; [done|].
  rewrite decide_False by done. unfold bind.
  destruct (SendProps.SendBulkNotifications_does env req w)
    as (evs & He & Hev & _ & F & _).
  destruct (service.SendBulkNotifications env req w) as [[ns e] w1].
  cbn [fst snd] in *. subst e.
  pose proof (save_each_keeps_trace env lib store ns w1) as Htr.
  destruct (save_each env lib store ns w1) as [[] w2].
  cbn [fst snd ret] in *. split; [done|].
  unfold events_since in *. rewrite Htr, Hev. by rewrite <- Hitems.
Qed.

Lemma immediate_defaulted (req : EventNotification) :
  immediate (ev_Priority (defaulted req)) = immediate (ev_Priority req).
Proof.
  unfold defaulted. case_decide as Hp; [|done].
  cbn [ev_Priority]. by rewrite Hp.
Qed.

(** X26: An event-created request that names its event and its recipient is
    enqueued exactly once, with priority normal when it gave none.  The
    handler answers 500, and no email is sent, when the queue refuses
    the message; otherwise it answers 200, and one email is attempted
    exactly when the request asked for priority high or urgent: the
    default priority never causes an email. *)
Theorem NotifyEventCreated_handler_outcome (env : Env)
    (s : service.NotificationService) (req : EventNotification)
    (w : World) :
  valid_event req = true ->
  enqueue_outcomes (queue.QueueURL (service.eventQueue s))
    (events_since w (NotifyEventCreated env s (inl req) w).2)
  = [sqs_SendMessage env (trace w)
       (event_enqueue env s (defaulted req) "event_created_template")] /\
  match sqs_SendMessage env (trace w)
          (event_enqueue env s (defaulted req) "event_created_template")
  with
  | Some e =>
      (NotifyEventCreated env s (inl req) w).1
      = failure StatusInternalServerError
          "Error enviando notificación de evento"
          (Some (Errorf_w "error sending event notification to queue: "
                   (Errorf_w "error sending event notification: " e))) /\
      email_outcomes
        (events_since w (NotifyEventCreated env s (inl req) w).2) = []
  | None =>
      (NotifyEventCreated env s (inl req) w).1 = success StatusOK /\
      length (email_outcomes
                (events_since w (NotifyEventCreated env s (inl req) w).2))
      = (if immediate (ev_Priority req) then 1%nat else 0%nat)
  end.
Proof.
  intros Hvalid. unfold NotifyEventCreated. rewrite Hvalid. cbn [negb].
  cbv zeta. unfold bind.
  pose proof (EventProps.NotifyEventCreated_routes env s (defaulted req) w)
    as (Henq & _ & Hroute).
  rewrite immediate_defaulted in Hroute.
  destruct (service.NotifyEventCreated env s (defaulted req) w) as [err w1].
  cbn [fst snd] in *.
  destruct (sqs_SendMessage env (trace w) _) as [e|];
    destruct Hroute as [-> Hmail]; cbn [fst snd ret]; done.
Qed.

Lemma NotifyEventCreated_handler_outcome_witness :
  enqueue_outcomes (queue.QueueURL (service.eventQueue Examples.svc))
    (events_since Examples.w0
       (NotifyEventCreated Examples.env_ok Examples.svc
          (inl (Examples.concert EmptyString)) Examples.w0).2)
  = [sqs_SendMessage Examples.env_ok (trace Examples.w0)
       (event_enqueue Examples.env_ok Examples.svc
          (defaulted (Examples.concert EmptyString)) "event_created_template")] /\
  match sqs_SendMessage Examples.env_ok (trace Examples.w0)
          (event_enqueue Examples.env_ok Examples.svc
             (defaulted (Examples.concert EmptyString)) "event_created_template")
  with
  | Some e =>
      (NotifyEventCreated Examples.env_ok Examples.svc
         (inl (Examples.concert EmptyString)) Examples.w0).1
      = failure StatusInternalServerError
          "Error enviando notificación de evento"
          (Some (Errorf_w "error sending event notification to queue: "
                   (Errorf_w "error sending event notification: " e))) /\
      email_outcomes
        (events_since Examples.w0
           (NotifyEventCreated Examples.env_ok Examples.svc
              (inl (Examples.concert EmptyString)) Examples.w0).2) = []
  | None =>
      (NotifyEventCreated Examples.env_ok Examples.svc
         (inl (Examples.concert EmptyString)) Examples.w0).1 = success StatusOK /\
      length (email_outcomes
                (events_since Examples.w0
                   (NotifyEventCreated Examples.env_ok Examples.svc
                      (inl (Examples.concert EmptyString)) Examples.w0).2))
      = (if immediate (ev_Priority (Examples.concert EmptyString)) then 1%nat else 0%nat)
  end.
Proof.
  apply (NotifyEventCreated_handler_outcome Examples.env_ok Examples.svc
           (Examples.concert EmptyString) Examples.w0).
  reflexivity.
Defined.

End HandlerProps.
